(** * pyfronius: the normalisation layer of [pyfronius/fronius.py]

    A shallow embedding of the [Fronius] client class: the URL templates,
    the envelope extraction ([_status_data], [_current_data]), the field
    copy rule ([_copy]) and the endpoint normalisers, together with the
    properties of them that the specification states.

    Python values are embedded as the tree [pyval] (what [json.loads]
    returns, plus the dictionaries the module builds); a Python [dict] is an
    association list in insertion order; a raised exception is the [Raise]
    outcome of the error monad [outcome].  Floats are IEEE binary64 values
    ([spec_float] at precision 53).  Strings are [string]s, one [ascii] per
    character.  Logging calls have no effect on the results and are left
    out. *)

From Stdlib Require Import ZArith List String Ascii Bool Lia.
From Stdlib Require Import Floats.SpecFloat.
From Stdlib Require Import DecimalString DecimalPos DecimalZ.
Import ListNotations.

Local Open Scope string_scope.
Local Open Scope Z_scope.
Local Open Scope list_scope.

#[local] Set Warnings "-register-all".

(* ================================================================== *)
(** * Exceptions and outcomes *)

Inductive exn : Type :=
| KeyError
| TypeError
| IndexError
| OverflowError
| ValueError
| OtherError (name : string).

Inductive outcome (A : Type) : Type :=
| Ok (a : A)
| Raise (e : exn).

Arguments Ok {A} a.
Arguments Raise {A} e.

Definition bind {A B : Type} (c : outcome A) (k : A -> outcome B) : outcome B :=
  match c with
  | Ok a => k a
  | Raise e => Raise e
  end.

Notation "x <- c ;; k" := (bind c (fun x => k))
  (at level 61, c at next level, right associativity).

(** A [for] loop whose body updates the local state [s] and may raise. *)
Fixpoint for_each {A S : Type} (items : list A) (s : S)
                  (body : S -> A -> outcome S) : outcome S :=
  match items with
  | [] => Ok s
  | x :: rest => s' <- body s x ;; for_each rest s' body
  end.

(* ================================================================== *)
(** * Python values *)

(** Hashable values, as they occur as dictionary keys. *)
Inductive pykey : Type :=
| KNone
| KBool (b : bool)
| KInt (z : Z)
| KFloat (f : spec_float)
| KStr (s : string).

Inductive pyval : Type :=
| PNone
| PBool (b : bool)
| PInt (z : Z)
| PFloat (f : spec_float)
| PStr (s : string)
| PList (l : list pyval)
| PDict (d : list (pykey * pyval)).

Definition pydict : Type := list (pykey * pyval).

Coercion KStr : string >-> pykey.
Coercion PStr : string >-> pyval.

(** ** Key equality

    Python compares keys with [==]: [True == 1 == 1.0], a NaN equals
    nothing, strings compare by content.  Each key is sent to a class that
    represents its value; two keys are equal when their classes are. *)

Inductive keyclass : Type :=
| CNone
| CNum (z : Z)
| CFrac (s : bool) (m : positive) (e : Z)
| CInf (s : bool)
| CStr (s : string).

Definition float_class (f : spec_float) : option keyclass :=
  match f with
  | S754_zero _ => Some (CNum 0)
  | S754_infinity s => Some (CInf s)
  | S754_nan => None
  | S754_finite s m e =>
      if 0 <=? e then Some (CNum (cond_Zopp s (Zpos m * 2 ^ e)))
      else if Zpos m mod 2 ^ (- e) =? 0
           then Some (CNum (cond_Zopp s (Zpos m / 2 ^ (- e))))
           else Some (CFrac s m e)
  end.

Definition key_class (k : pykey) : option keyclass :=
  match k with
  | KNone => Some CNone
  | KBool b => Some (CNum (if b then 1 else 0))
  | KInt z => Some (CNum z)
  | KFloat f => float_class f
  | KStr s => Some (CStr s)
  end.

Definition keyclass_eqb (a b : keyclass) : bool :=
  match a, b with
  | CNone, CNone => true
  | CNum x, CNum y => x =? y
  | CFrac s m e, CFrac s' m' e' => Bool.eqb s s' && (m =? m')%positive && (e =? e')
  | CInf s, CInf s' => Bool.eqb s s'
  | CStr s, CStr s' => String.eqb s s'
  | _, _ => false
  end.

Definition key_eqb (k1 k2 : pykey) : bool :=
  match key_class k1, key_class k2 with
  | Some a, Some b => keyclass_eqb a b
  | _, _ => false
  end.

(** ** Dictionaries: association lists in insertion order *)

(** [d.get(k)]: the value stored under a key equal to [k]. *)
Fixpoint dict_get (d : pydict) (k : pykey) : option pyval :=
  match d with
  | [] => None
  | (k0, v0) :: rest => if key_eqb k0 k then Some v0 else dict_get rest k
  end.

Definition dict_mem (d : pydict) (k : pykey) : bool :=
  match dict_get d k with Some _ => true | None => false end.

(** [d[k] = v]: an existing key keeps its place (and its key object), a
    new key goes to the end. *)
Fixpoint dict_set (d : pydict) (k : pykey) (v : pyval) : pydict :=
  match d with
  | [] => [(k, v)]
  | (k0, v0) :: rest =>
      if key_eqb k0 k then (k0, v) :: rest else (k0, v0) :: dict_set rest k v
  end.

(** [d.update(other)] *)
Definition dict_update (d other : pydict) : pydict :=
  fold_left (fun acc kv => dict_set acc (fst kv) (snd kv)) other d.

(** ** Conversions between values and keys *)

(** [hash(v)] succeeds on everything but lists and dictionaries. *)
Definition key_of (v : pyval) : outcome pykey :=
  match v with
  | PNone => Ok KNone
  | PBool b => Ok (KBool b)
  | PInt z => Ok (KInt z)
  | PFloat f => Ok (KFloat f)
  | PStr s => Ok (KStr s)
  | PList _ | PDict _ => Raise TypeError
  end.

Definition val_of_key (k : pykey) : pyval :=
  match k with
  | KNone => PNone
  | KBool b => PBool b
  | KInt z => PInt z
  | KFloat f => PFloat f
  | KStr s => PStr s
  end.

(** An index into a sequence: an [int], or a [bool] (a subclass of [int]). *)
Definition index_of (v : pyval) : option Z :=
  match v with
  | PInt z => Some z
  | PBool b => Some (if b then 1 else 0)
  | _ => None
  end.

(** Sequence indexing with Python's negative indices. *)
Definition seq_index {A : Type} (l : list A) (i : Z) : outcome A :=
  let n := Z.of_nat (List.length l) in
  let j := if i <? 0 then i + n else i in
  if (j <? 0) || (n <=? j) then Raise IndexError
  else match nth_error l (Z.to_nat j) with
       | Some x => Ok x
       | None => Raise IndexError
       end.

Fixpoint chars (s : string) : list ascii :=
  match s with
  | EmptyString => []
  | String c rest => c :: chars rest
  end.

Definition char_str (c : ascii) : string := String c EmptyString.

(** ** The operations of the language that the module uses *)

(** [container[index]] *)
Definition py_getitem (container index : pyval) : outcome pyval :=
  match container with
  | PDict d =>
      k <- key_of index ;;
      match dict_get d k with
      | Some v => Ok v
      | None => Raise KeyError
      end
  | PList l =>
      match index_of index with
      | Some i => seq_index l i
      | None => Raise TypeError
      end
  | PStr s =>
      match index_of index with
      | Some i => c <- seq_index (chars s) i ;; Ok (PStr (char_str c))
      | None => Raise TypeError
      end
  | _ => Raise TypeError
  end.

(** [v[k1][k2]...], evaluated from the left. *)
Fixpoint subscript (v : pyval) (path : list pyval) : outcome pyval :=
  match path with
  | [] => Ok v
  | k :: rest => x <- py_getitem v k ;; subscript x rest
  end.

Fixpoint replace_nth {A : Type} (l : list A) (n : nat) (x : A) : list A :=
  match l, n with
  | [], _ => []
  | _ :: rest, O => x :: rest
  | y :: rest, S n' => y :: replace_nth rest n' x
  end.

(** [container[index] = v] *)
Definition py_setitem (container index v : pyval) : outcome pyval :=
  match container with
  | PDict d => k <- key_of index ;; Ok (PDict (dict_set d k v))
  | PList l =>
      match index_of index with
      | Some i =>
          let n := Z.of_nat (List.length l) in
          let j := if i <? 0 then i + n else i in
          if (j <? 0) || (n <=? j) then Raise IndexError
          else Ok (PList (replace_nth l (Z.to_nat j) v))
      | None => Raise TypeError
      end
  | _ => Raise TypeError
  end.

(** [target[k][path...] = v] for a dictionary [target] owned by the caller:
    the inner object is fetched, updated, and is still the one stored under
    [k]. *)
Fixpoint store_path (container : pyval) (path : list pyval) (v : pyval)
  : outcome pyval :=
  match path with
  | [] => Ok v
  | [k] => py_setitem container k v
  | k :: rest =>
      inner <- py_getitem container k ;;
      inner' <- store_path inner rest v ;;
      py_setitem container k inner'
  end.

Definition store_in (target : pydict) (k : pykey) (path : list pyval)
                    (v : pyval) : outcome pydict :=
  match dict_get target k with
  | None => Raise KeyError
  | Some inner =>
      inner' <- store_path inner path v ;;
      Ok (dict_set target k inner')
  end.

(** [s in t] for strings: [s] occurs in [t] as a contiguous substring. *)
Fixpoint occurs_in (s t : string) : bool :=
  String.prefix s t ||
  match t with
  | EmptyString => false
  | String _ rest => occurs_in s rest
  end.

(** [s in container] for a string literal [s]. *)
Definition py_in (s : string) (container : pyval) : outcome bool :=
  match container with
  | PDict d => Ok (dict_mem d (KStr s))
  | PList l =>
      Ok (existsb (fun x => match x with
                            | PStr t => String.eqb s t
                            | _ => false
                            end) l)
  | PStr t => Ok (occurs_in s t)
  | _ => Raise TypeError
  end.

(** The items a [for] loop over [v] visits. *)
Definition py_iter (v : pyval) : outcome (list pyval) :=
  match v with
  | PDict d => Ok (map (fun kv => val_of_key (fst kv)) d)
  | PList l => Ok l
  | PStr s => Ok (map (fun c => PStr (char_str c)) (chars s))
  | _ => Raise TypeError
  end.

(** Truth value, as tested by [not]. *)
Definition py_truthy (v : pyval) : bool :=
  match v with
  | PNone => false
  | PBool b => b
  | PInt z => negb (z =? 0)
  | PFloat (S754_zero _) => false
  | PFloat _ => true
  | PStr s => negb (String.eqb s "")
  | PList l => match l with [] => false | _ => true end
  | PDict d => match d with [] => false | _ => true end
  end.

(** [float(z)]: round to nearest even, [OverflowError] beyond the range. *)
Definition float_of_int (z : Z) : outcome spec_float :=
  match binary_normalize 53 1024 z 0 false with
  | S754_infinity _ => Raise OverflowError
  | f => Ok f
  end.

Definition float_add (x y : spec_float) : spec_float := SFadd 53 1024 x y.

(** [a + b] *)
Definition py_add (a b : pyval) : outcome pyval :=
  match a, b with
  | PFloat x, PFloat y => Ok (PFloat (float_add x y))
  | PFloat x, _ =>
      match index_of b with
      | Some z => y <- float_of_int z ;; Ok (PFloat (float_add x y))
      | None => Raise TypeError
      end
  | _, PFloat y =>
      match index_of a with
      | Some z => x <- float_of_int z ;; Ok (PFloat (float_add x y))
      | None => Raise TypeError
      end
  | PStr s, PStr t => Ok (PStr (s ++ t)%string)
  | PList l, PList m => Ok (PList (l ++ m))
  | _, _ =>
      match index_of a, index_of b with
      | Some x, Some y => Ok (PInt (x + y))
      | _, _ => Raise TypeError
      end
  end.

(** [a += b]: a list is extended in place by the items of [b]; the other
    values are immutable and [a += b] is [a = a + b]. *)
Definition py_iadd (a b : pyval) : outcome pyval :=
  match a with
  | PList l => items <- py_iter b ;; Ok (PList (l ++ items))
  | _ => py_add a b
  end.

(** [target[k][field] += rhs]: the old value is read before [rhs] is
    evaluated. *)
Definition add_in (target : pydict) (k : pykey) (field : string)
                  (rhs : outcome pyval) : outcome pydict :=
  match dict_get target k with
  | None => Raise KeyError
  | Some inner =>
      old <- py_getitem inner field ;;
      v <- rhs ;;
      new <- py_iadd old v ;;
      inner' <- py_setitem inner field new ;;
      Ok (dict_set target k inner')
  end.

(** [str(z)] in a format field. *)
Definition str_of_int (z : Z) : string := NilZero.string_of_int (Z.to_int z).

(** [template.format(args...)] for templates whose replacement fields are all
    the automatic [{}]; the arguments are already rendered.  The doubled
    braces are Python's escapes.  Named, numbered and formatted fields do
    not occur in this module and are refused. *)
Fixpoint format (template : string) (args : list string) : outcome string :=
  match template with
  | EmptyString => Ok EmptyString
  | String c rest =>
      if Ascii.eqb c "{" then
        match rest with
        | EmptyString => Raise ValueError
        | String c' rest' =>
            if Ascii.eqb c' "}" then
              match args with
              | [] => Raise IndexError
              | a :: args' => r <- format rest' args' ;; Ok (a ++ r)%string
              end
            else if Ascii.eqb c' "{" then
              r <- format rest' args ;; Ok (String c r)
            else Raise ValueError
        end
      else if Ascii.eqb c "}" then
        match rest with
        | EmptyString => Raise ValueError
        | String c' rest' =>
            if Ascii.eqb c' "}" then r <- format rest' args ;; Ok (String c r)
            else Raise ValueError
        end
      else r <- format rest args ;; Ok (String c r)
  end.

(* ================================================================== *)
(** * The module [pyfronius.fronius] *)

Definition URL_POWER_FLOW :=
  "{}://{}/solar_api/v1/GetPowerFlowRealtimeData.fcgi".
Definition URL_SYSTEM_METER :=
  "{}://{}/solar_api/v1/GetMeterRealtimeData.cgi?Scope=System".
Definition URL_SYSTEM_INVERTER :=
  "{}://{}/solar_api/v1/GetInverterRealtimeData.cgi?Scope=System".
Definition URL_DEVICE_METER :=
  "{}://{}/solar_api/v1/GetMeterRealtimeData.cgi?Scope=Device&DeviceId={}".
Definition URL_DEVICE_STORAGE :=
  "{}://{}/solar_api/v1/GetStorageRealtimeData.cgi?Scope=Device&DeviceId={}".
Definition URL_DEVICE_INVERTER_CUMULATIVE :=
  "{}://{}/solar_api/v1/GetInverterRealtimeData.cgi?Scope=Device&DeviceId={}&DataCollection=CumulationInverterData".
Definition URL_DEVICE_INVERTER_COMMON :=
  "{}://{}/solar_api/v1/GetInverterRealtimeData.cgi?Scope=Device&DeviceId={}&DataCollection=CommonInverterData".

(** The attributes of a [Fronius] object. *)
Record Fronius : Type := {
  host : string;
  timeout : Z;
  protocol : string
}.

(** [Fronius.__init__(host, useHTTPS = False, timeout = 10)] *)
Definition __init__ (host : string) (useHTTPS : bool) (timeout : Z) : Fronius :=
  {| host := host;
     timeout := timeout;
     protocol := if useHTTPS then "https" else "http" |}.

(** A reading [{ 'value': v }]. *)
Definition value_only (v : pyval) : pyval := PDict [(KStr "value", v)].

(** A reading [{ 'value': v, 'unit': u }]. *)
Definition value_unit (v u : pyval) : pyval :=
  PDict [(KStr "value", v); (KStr "unit", u)].

(** [_copy(source, target, sid, tid, unit = None)]; [target] is always a
    dictionary made in this module, and the updated [target] is returned. *)
Definition _copy (source : pyval) (target : pydict) (sid tid : string)
                 (unit : option string) : outcome pydict :=
  present <- py_in sid source ;;
  wrapped <- (if present then
                field <- py_getitem source sid ;;
                match field with
                | PDict _ => py_in "Value" field
                | _ => Ok false
                end
              else Ok false) ;;
  target <- (if wrapped then
               v <- subscript source [PStr sid; PStr "Value"] ;;
               let target := dict_set target tid (value_only v) in
               field <- py_getitem source sid ;;
               has_unit <- py_in "Unit" field ;;
               if has_unit then
                 u <- subscript source [PStr sid; PStr "Unit"] ;;
                 store_in target tid [PStr "unit"] u
               else Ok target
             else
               present <- py_in sid source ;;
               if present then
                 v <- py_getitem source sid ;;
                 Ok (dict_set target tid (value_only v))
               else Ok (dict_set target tid (value_only (PInt 0)))) ;;
  match unit with
  | Some u => store_in target tid [PStr "unit"] (PStr u)
  | None => Ok target
  end.

(** [_status_data(json)] *)
Definition _status_data (json : pyval) : outcome pydict :=
  let sensor : pydict := [] in
  v <- subscript json [PStr "Head"; PStr "Timestamp"] ;;
  let sensor := dict_set sensor "timestamp" (value_only v) in
  v <- subscript json [PStr "Head"; PStr "Status"] ;;
  let sensor := dict_set sensor "status" v in
  v <- subscript json [PStr "Head"; PStr "Status"; PStr "Code"] ;;
  let sensor := dict_set sensor "status_code" (value_only v) in
  v <- subscript json [PStr "Head"; PStr "Status"; PStr "Reason"] ;;
  let sensor := dict_set sensor "status_reason" (value_only v) in
  v <- subscript json [PStr "Head"; PStr "Status"; PStr "UserMessage"] ;;
  let sensor := dict_set sensor "status_message" (value_only v) in
  Ok sensor.

(** [_meter_data], [_controller_data] and [_module_data] build a fresh
    dictionary from one vendor entity. *)

(** [_meter_data(data)] *)
Definition _meter_data (data : pyval) : outcome pydict :=
  let meter : pydict := [] in
  meter <- _copy data meter "Current_AC_Phase_1" "current_ac_phase_1" (Some "A") ;;
  meter <- _copy data meter "Current_AC_Phase_2" "current_ac_phase_2" (Some "A") ;;
  meter <- _copy data meter "Current_AC_Phase_3" "current_ac_phase_3" (Some "A") ;;
  meter <- _copy data meter "EnergyReactive_VArAC_Sum_Consumed" "energy_reactive_ac_consumed" (Some "Wh") ;;
  meter <- _copy data meter "EnergyReactive_VArAC_Sum_Produced" "energy_reactive_ac_produced" (Some "Wh") ;;
  meter <- _copy data meter "EnergyReal_WAC_Minus_Absolute" "energy_real_ac_minus" (Some "Wh") ;;
  meter <- _copy data meter "EnergyReal_WAC_Plus_Absolute" "energy_real_ac_plus" (Some "Wh") ;;
  meter <- _copy data meter "EnergyReal_WAC_Sum_Consumed" "energy_real_consumed" (Some "Wh") ;;
  meter <- _copy data meter "EnergyReal_WAC_Sum_Produced" "energy_real_produced" (Some "Wh") ;;
  meter <- _copy data meter "Frequency_Phase_Average" "frequency_phase_average" (Some "H") ;;
  meter <- _copy data meter "PowerApparent_S_Phase_1" "power_apparent_phase_1" (Some "W") ;;
  meter <- _copy data meter "PowerApparent_S_Phase_2" "power_apparent_phase_2" (Some "W") ;;
  meter <- _copy data meter "PowerApparent_S_Phase_3" "power_apparent_phase_3" (Some "W") ;;
  meter <- _copy data meter "PowerApparent_S_Sum" "power_apparent" (Some "W") ;;
  meter <- _copy data meter "PowerFactor_Phase_1" "power_factor_phase_1" (Some "W") ;;
  meter <- _copy data meter "PowerFactor_Phase_2" "power_factor_phase_2" (Some "W") ;;
  meter <- _copy data meter "PowerFactor_Phase_3" "power_factor_phase_3" (Some "W") ;;
  meter <- _copy data meter "PowerFactor_Sum" "power_factor" (Some "W") ;;
  meter <- _copy data meter "PowerReactive_Q_Phase_1" "power_reactive_phase_1" (Some "W") ;;
  meter <- _copy data meter "PowerReactive_Q_Phase_2" "power_reactive_phase_2" (Some "W") ;;
  meter <- _copy data meter "PowerReactive_Q_Phase_3" "power_reactive_phase_3" (Some "W") ;;
  meter <- _copy data meter "PowerReactive_Q_Sum" "power_reactive" (Some "W") ;;
  meter <- _copy data meter "PowerReal_P_Phase_1" "power_real_phase_1" (Some "W") ;;
  meter <- _copy data meter "PowerReal_P_Phase_2" "power_real_phase_2" (Some "W") ;;
  meter <- _copy data meter "PowerReal_P_Phase_3" "power_real_phase_3" (Some "W") ;;
  meter <- _copy data meter "PowerReal_P_Sum" "power_real" (Some "W") ;;
  meter <- _copy data meter "Voltage_AC_Phase_1" "voltage_ac_phase_1" (Some "V") ;;
  meter <- _copy data meter "Voltage_AC_Phase_2" "voltage_ac_phase_2" (Some "V") ;;
  meter <- _copy data meter "Voltage_AC_Phase_3" "voltage_ac_phase_3" (Some "V") ;;
  meter <- _copy data meter "Voltage_AC_PhaseToPhase_12" "voltage_ac_phase_to_phase_12" (Some "V") ;;
  meter <- _copy data meter "Voltage_AC_PhaseToPhase_23" "voltage_ac_phase_to_phase_23" (Some "V") ;;
  meter <- _copy data meter "Voltage_AC_PhaseToPhase_31" "voltage_ac_phase_to_phase_31" (Some "V") ;;
  meter <- _copy data meter "Meter_Location_Current" "meter_location" None ;;
  meter <- _copy data meter "Enable" "enable" None ;;
  meter <- _copy data meter "Visible" "visible" None ;;
  has_details <- py_in "Details" data ;;
  if has_details then
    d <- py_getitem data "Details" ;;
    meter <- _copy d meter "Manufacturer" "manufacturer" None ;;
    d <- py_getitem data "Details" ;;
    meter <- _copy d meter "Model" "model" None ;;
    d <- py_getitem data "Details" ;;
    meter <- _copy d meter "Serial" "serial" None ;;
    Ok meter
  else Ok meter.

(** [_controller_data(data)] *)
Definition _controller_data (data : pyval) : outcome pydict :=
  let controller : pydict := [] in
  controller <- _copy data controller "Capacity_Maximum" "capacity_maximum" (Some "Ah") ;;
  controller <- _copy data controller "DesignedCapacity" "capacity_designed" (Some "Ah") ;;
  controller <- _copy data controller "Current_DC" "current_dc" (Some "A") ;;
  controller <- _copy data controller "Voltage_DC" "voltage_dc" (Some "V") ;;
  controller <- _copy data controller "Voltage_DC_Maximum_Cell" "voltage_dc_maximum_cell" (Some "V") ;;
  controller <- _copy data controller "Voltage_DC_Minimum_Cell" "voltage_dc_minimum_cell" (Some "V") ;;
  controller <- _copy data controller "StateOfCharge_Relative" "state_of_charge" (Some "%") ;;
  controller <- _copy data controller "Temperature_Cell" "temperature_cell" (Some "C") ;;
  controller <- _copy data controller "Enable" "enable" None ;;
  has_details <- py_in "Details" data ;;
  if has_details then
    d <- py_getitem data "Details" ;;
    controller <- _copy d controller "Manufacturer" "manufacturer" None ;;
    d <- py_getitem data "Details" ;;
    controller <- _copy d controller "Model" "model" None ;;
    d <- py_getitem data "Details" ;;
    controller <- _copy d controller "Serial" "serial" None ;;
    Ok controller
  else Ok controller.

(** [_module_data(data)] *)
Definition _module_data (data : pyval) : outcome pydict :=
  let module : pydict := [] in
  module <- _copy data module "Capacity_Maximum" "capacity_maximum" (Some "Ah") ;;
  module <- _copy data module "DesignedCapacity" "capacity_designed" (Some "Ah") ;;
  module <- _copy data module "Current_DC" "current_dc" (Some "A") ;;
  module <- _copy data module "Voltage_DC" "voltage_dc" (Some "V") ;;
  module <- _copy data module "Voltage_DC_Maximum_Cell" "voltage_dc_maximum_cell" (Some "V") ;;
  module <- _copy data module "Voltage_DC_Minimum_Cell" "voltage_dc_minimum_cell" (Some "V") ;;
  module <- _copy data module "StateOfCharge_Relative" "state_of_charge" (Some "%") ;;
  module <- _copy data module "Temperature_Cell" "temperature_cell" (Some "C") ;;
  module <- _copy data module "Temperature_Cell_Maximum" "temperature_cell_maximum" (Some "C") ;;
  module <- _copy data module "Temperature_Cell_Minimum" "temperature_cell_minimum" (Some "C") ;;
  module <- _copy data module "CycleCount_BatteryCell" "cycle_count_cell" (Some "C") ;;
  module <- _copy data module "Status_BatteryCell" "status_cell" None ;;
  module <- _copy data module "Enable" "enable" None ;;
  has_details <- py_in "Details" data ;;
  if has_details then
    d <- py_getitem data "Details" ;;
    module <- _copy d module "Manufacturer" "manufacturer" None ;;
    d <- py_getitem data "Details" ;;
    module <- _copy d module "Model" "model" None ;;
    d <- py_getitem data "Details" ;;
    module <- _copy d module "Serial" "serial" None ;;
    Ok module
  else Ok module.

(** [_system_power_flow(sensor, data)] *)
Definition _system_power_flow (sensor : pydict) (data : pyval) : outcome pydict :=
  site <- py_getitem data "Site" ;;
  inverter <- subscript data [PStr "Inverters"; PStr "1"] ;;
  sensor <- _copy inverter sensor "Battery_Mode" "battery_mode" None ;;
  sensor <- _copy inverter sensor "SOC" "state_of_charge" (Some "%") ;;
  sensor <- _copy site sensor "BatteryStandby" "battery_standby" None ;;
  sensor <- _copy site sensor "E_Day" "energy_day" (Some "Wh") ;;
  sensor <- _copy site sensor "E_Total" "energy_total" (Some "Wh") ;;
  sensor <- _copy site sensor "E_Year" "energy_year" (Some "Wh") ;;
  sensor <- _copy site sensor "Meter_Location" "meter_location" None ;;
  sensor <- _copy site sensor "Mode" "meter_mode" None ;;
  sensor <- _copy site sensor "P_Akku" "power_battery" (Some "W") ;;
  sensor <- _copy site sensor "P_Grid" "power_grid" (Some "W") ;;
  sensor <- _copy site sensor "P_Load" "power_load" (Some "W") ;;
  sensor <- _copy site sensor "P_PV" "power_photovoltaics" (Some "W") ;;
  sensor <- _copy site sensor "rel_Autonomy" "relative_autonomy" (Some "%") ;;
  sensor <- _copy site sensor "rel_SelfConsumption" "relative_self_consumption" (Some "%") ;;
  Ok sensor.

(** [_system_meter_data(sensor, data)] *)
Definition _system_meter_data (sensor : pydict) (data : pyval) : outcome pydict :=
  let sensor := dict_set sensor "meters" (PDict []) in
  items <- py_iter data ;;
  for_each items sensor (fun sensor i =>
    payload <- py_getitem data i ;;
    meter <- _meter_data payload ;;
    store_in sensor "meters" [i] (PDict meter)).

(** [_system_inverter_data(sensor, data)] *)
Definition _system_inverter_data (sensor : pydict) (data : pyval) : outcome pydict :=
  let sensor := dict_set sensor "energy_day" (value_unit (PInt 0) "Wh") in
  let sensor := dict_set sensor "energy_total" (value_unit (PInt 0) "Wh") in
  let sensor := dict_set sensor "energy_year" (value_unit (PInt 0) "Wh") in
  let sensor := dict_set sensor "power_ac" (value_unit (PInt 0) "W") in
  let sensor := dict_set sensor "inverters" (PDict []) in
  has_series <- py_in "DAY_ENERGY" data ;;
  sensor <- (if has_series then
      values <- subscript data [PStr "DAY_ENERGY"; PStr "Values"] ;;
      items <- py_iter values ;;
      for_each items sensor (fun sensor i =>
        sensor <- store_in sensor "inverters" [i] (PDict []) ;;
        v <- subscript data [PStr "DAY_ENERGY"; PStr "Values"; i] ;;
        u <- subscript data [PStr "DAY_ENERGY"; PStr "Unit"] ;;
        sensor <- store_in sensor "inverters" [i; PStr "energy_day"] (value_unit v u) ;;
        add_in sensor "energy_day" "value"
               (subscript data [PStr "DAY_ENERGY"; PStr "Values"; i]))
    else Ok sensor) ;;
  has_series <- py_in "TOTAL_ENERGY" data ;;
  sensor <- (if has_series then
      values <- subscript data [PStr "TOTAL_ENERGY"; PStr "Values"] ;;
      items <- py_iter values ;;
      for_each items sensor (fun sensor i =>
        v <- subscript data [PStr "TOTAL_ENERGY"; PStr "Values"; i] ;;
        u <- subscript data [PStr "TOTAL_ENERGY"; PStr "Unit"] ;;
        sensor <- store_in sensor "inverters" [i; PStr "energy_total"] (value_unit v u) ;;
        add_in sensor "energy_total" "value"
               (subscript data [PStr "TOTAL_ENERGY"; PStr "Values"; i]))
    else Ok sensor) ;;
  has_series <- py_in "YEAR_ENERGY" data ;;
  sensor <- (if has_series then
      values <- subscript data [PStr "YEAR_ENERGY"; PStr "Values"] ;;
      items <- py_iter values ;;
      for_each items sensor (fun sensor i =>
        v <- subscript data [PStr "YEAR_ENERGY"; PStr "Values"; i] ;;
        u <- subscript data [PStr "TOTAL_ENERGY"; PStr "Unit"] ;;
        sensor <- store_in sensor "inverters" [i; PStr "energy_year"] (value_unit v u) ;;
        add_in sensor "energy_year" "value"
               (subscript data [PStr "YEAR_ENERGY"; PStr "Values"; i]))
    else Ok sensor) ;;
  has_series <- py_in "PAC" data ;;
  sensor <- (if has_series then
      values <- subscript data [PStr "PAC"; PStr "Values"] ;;
      items <- py_iter values ;;
      for_each items sensor (fun sensor i =>
        v <- subscript data [PStr "PAC"; PStr "Values"; i] ;;
        u <- subscript data [PStr "TOTAL_ENERGY"; PStr "Unit"] ;;
        sensor <- store_in sensor "inverters" [i; PStr "power_ac"] (value_unit v u) ;;
        add_in sensor "power_ac" "value"
               (subscript data [PStr "PAC"; PStr "Values"; i]))
    else Ok sensor) ;;
  Ok sensor.

(** [_device_meter_data(sensor, data)] *)
Definition _device_meter_data (sensor : pydict) (data : pyval) : outcome pydict :=
  meter <- _meter_data data ;;
  Ok (dict_update sensor meter).

(** [_device_storage_data(sensor, data)] *)
Definition _device_storage_data (sensor : pydict) (data : pyval) : outcome pydict :=
  has_controller <- py_in "Controller" data ;;
  sensor <- (if has_controller then
      c <- py_getitem data "Controller" ;;
      controller <- _controller_data c ;;
      Ok (dict_update sensor controller)
    else Ok sensor) ;;
  has_modules <- py_in "Modules" data ;;
  if has_modules then
    let sensor := dict_set sensor "modules" (PDict []) in
    let module_count := 0 in
    modules <- py_getitem data "Modules" ;;
    items <- py_iter modules ;;
    final <- for_each items (sensor, module_count) (fun st module =>
      let '(sensor, module_count) := st in
      m <- _module_data module ;;
      sensor <- store_in sensor "modules" [PInt module_count] (PDict m) ;;
      Ok (sensor, module_count + 1)) ;;
    Ok (fst final)
  else Ok sensor.

(** [_device_inverter_data(sensor, data)] *)
Definition _device_inverter_data (sensor : pydict) (data : pyval) : outcome pydict :=
  sensor <- _copy data sensor "DAY_ENERGY" "energy_day" None ;;
  sensor <- _copy data sensor "TOTAL_ENERGY" "energy_total" None ;;
  sensor <- _copy data sensor "YEAR_ENERGY" "energy_year" None ;;
  sensor <- _copy data sensor "FAC" "frequency_ac" None ;;
  sensor <- _copy data sensor "IAC" "current_ac" None ;;
  sensor <- _copy data sensor "IDC" "current_dc" None ;;
  sensor <- _copy data sensor "PAC" "power_ac" None ;;
  sensor <- _copy data sensor "UAC" "voltage_ac" None ;;
  sensor <- _copy data sensor "UDC" "voltage_dc" None ;;
  Ok sensor.

(** ** The client operations

    A call performs requests and then returns or raises: [io A] records the
    URLs requested, in order, next to the outcome. *)

Record io (A : Type) : Type := {
  requests : list string;
  result : outcome A
}.

Arguments requests {A} _.
Arguments result {A} _.

Definition io_lift {A : Type} (c : outcome A) : io A :=
  {| requests := []; result := c |}.

Definition io_bind {A B : Type} (c : io A) (k : A -> io B) : io B :=
  match result c with
  | Ok a => {| requests := requests c ++ requests (k a); result := result (k a) |}
  | Raise e => {| requests := requests c; result := Raise e |}
  end.

Notation "x <~ c ;; k" := (io_bind c (fun x => k))
  (at level 61, c at next level, right associativity).

Section Client.

(** What the network answers: [urlopen_json url] is the outcome of
    [json.loads(urllib.request.urlopen(url).read().decode())], the parsed
    body or the exception of the transport or of the parser. *)
Variable urlopen_json : string -> outcome pyval.

(** [_fetch_json(url)] *)
Definition _fetch_json (self : Fronius) (url : string) : io pyval :=
  {| requests := [url]; result := urlopen_json url |}.

(** [_current_data(url, fun)] *)
Definition _current_data (self : Fronius) (url : string)
           (fun_ : pydict -> pyval -> outcome pydict) : io pydict :=
  json <~ _fetch_json self url ;;
  io_lift (
    sensor <- _status_data json ;;
    body <- py_getitem json "Body" ;;
    no_data <- (if negb (py_truthy body) then Ok true
                else data <- subscript json [PStr "Body"; PStr "Data"] ;;
                     Ok (negb (py_truthy data))) ;;
    if no_data then Ok sensor
    else data <- subscript json [PStr "Body"; PStr "Data"] ;;
         fun_ sensor data).

(** [current_power_flow()] *)
Definition current_power_flow (self : Fronius) : io pydict :=
  url <~ io_lift (format URL_POWER_FLOW [protocol self; host self]) ;;
  _current_data self url _system_power_flow.

(** [current_system_meter_data()] *)
Definition current_system_meter_data (self : Fronius) : io pydict :=
  url <~ io_lift (format URL_SYSTEM_METER [protocol self; host self]) ;;
  _current_data self url _system_meter_data.

(** [current_system_inverter_data()] *)
Definition current_system_inverter_data (self : Fronius) : io pydict :=
  url <~ io_lift (format URL_SYSTEM_INVERTER [protocol self; host self]) ;;
  _current_data self url _system_inverter_data.

(** [current_meter_data(device = 0)] *)
Definition current_meter_data (self : Fronius) (device : Z) : io pydict :=
  url <~ io_lift (format URL_DEVICE_METER
                    [protocol self; host self; str_of_int device]) ;;
  _current_data self url _device_meter_data.

(** [current_storage_data(device = 0)] *)
Definition current_storage_data (self : Fronius) (device : Z) : io pydict :=
  url <~ io_lift (format URL_DEVICE_STORAGE
                    [protocol self; host self; str_of_int device]) ;;
  _current_data self url _device_storage_data.

(** [current_inverter_data(device = 1)] *)
Definition current_inverter_data (self : Fronius) (device : Z) : io pydict :=
  url <~ io_lift (format URL_DEVICE_INVERTER_COMMON
                    [protocol self; host self; str_of_int device]) ;;
  _current_data self url _device_inverter_data.

End Client.

(* ================================================================== *)
(** * Statements of the specification, as definitions *)

(** The reading that the four-step rule of the specification assigns to a
    field of a source mapping: a wrapped [Value] with its [Unit] when there
    is one, else the field itself, else zero; a fixed unit then replaces any
    unit. *)
Definition copy_rule_spec (source : pydict) (sid : string)
                          (unit : option string) : pydict :=
  let reading :=
    match dict_get source sid with
    | Some (PDict field) =>
        match dict_get field "Value" with
        | Some v =>
            match dict_get field "Unit" with
            | Some u => [(KStr "value", v); (KStr "unit", u)]
            | None => [(KStr "value", v)]
            end
        | None => [(KStr "value", PDict field)]
        end
    | Some x => [(KStr "value", x)]
    | None => [(KStr "value", PInt 0)]
    end in
  match unit with
  | Some u => dict_set reading "unit" (PStr u)
  | None => reading
  end.

(** Reading a normalised bundle or a vendor payload along a path of
    keys: every step but the last must land on a mapping. *)
Fixpoint lookup_path (v : pyval) (path : list pykey) : option pyval :=
  match path with
  | [] => Some v
  | k :: rest =>
      match v with
      | PDict d =>
          match dict_get d k with
          | Some x => lookup_path x rest
          | None => None
          end
      | _ => None
      end
  end.

Definition keys_of (path : list string) : list pykey := map KStr path.

(** The five places of the envelope's [Head] that the header fields are
    read from. *)
Definition header_paths : list (list string) :=
  [ ["Head"; "Timestamp"];
    ["Head"; "Status"];
    ["Head"; "Status"; "Code"];
    ["Head"; "Status"; "Reason"];
    ["Head"; "Status"; "UserMessage"] ].

(** The header-only bundle: the five header fields and nothing else. *)
Definition header_bundle (ts st code reason msg : pyval) : pydict :=
  [ (KStr "timestamp", value_only ts);
    (KStr "status", st);
    (KStr "status_code", value_only code);
    (KStr "status_reason", value_only reason);
    (KStr "status_message", value_only msg) ].

Definition header_keys : list string :=
  ["timestamp"; "status"; "status_code"; "status_reason"; "status_message"].

(** The errors of a malformed structure: a missing key, or a subscript
    applied to a value that is no mapping. *)
Definition structural (e : exn) : Prop := e = KeyError \/ e = TypeError.

(** No two entries of a dictionary have equal keys. *)
Fixpoint unique_keys (d : pydict) : bool :=
  match d with
  | [] => true
  | (k, _) :: rest => negb (dict_mem rest k) && unique_keys rest
  end.

(** [copied tids t0 t]: [t] is [t0] after one reading was stored under each
    of the target ids [tids], in this order. *)
Fixpoint copied (tids : list string) (t0 t : pydict) : Prop :=
  match tids with
  | [] => t = t0
  | tid :: rest => exists r, copied rest (dict_set t0 tid (PDict r)) t
  end.

(** The target ids that [_system_power_flow] copies to, in order. *)
Definition power_flow_fields : list string :=
  [ "battery_mode"; "state_of_charge"; "battery_standby"; "energy_day";
    "energy_total"; "energy_year"; "meter_location"; "meter_mode";
    "power_battery"; "power_grid"; "power_load"; "power_photovoltaics";
    "relative_autonomy"; "relative_self_consumption" ].

(** The target ids of [_device_inverter_data]. *)
Definition device_inverter_fields : list string :=
  [ "energy_day"; "energy_total"; "energy_year"; "frequency_ac";
    "current_ac"; "current_dc"; "power_ac"; "voltage_ac"; "voltage_dc" ].

(** The target ids of [_meter_data] outside [Details]. *)
Definition meter_fields : list string :=
  [ "current_ac_phase_1"; "current_ac_phase_2"; "current_ac_phase_3";
    "energy_reactive_ac_consumed"; "energy_reactive_ac_produced";
    "energy_real_ac_minus"; "energy_real_ac_plus"; "energy_real_consumed";
    "energy_real_produced"; "frequency_phase_average";
    "power_apparent_phase_1"; "power_apparent_phase_2";
    "power_apparent_phase_3"; "power_apparent"; "power_factor_phase_1";
    "power_factor_phase_2"; "power_factor_phase_3"; "power_factor";
    "power_reactive_phase_1"; "power_reactive_phase_2";
    "power_reactive_phase_3"; "power_reactive"; "power_real_phase_1";
    "power_real_phase_2"; "power_real_phase_3"; "power_real";
    "voltage_ac_phase_1"; "voltage_ac_phase_2"; "voltage_ac_phase_3";
    "voltage_ac_phase_to_phase_12"; "voltage_ac_phase_to_phase_23";
    "voltage_ac_phase_to_phase_31"; "meter_location"; "enable"; "visible" ].

(** The target ids copied from a [Details] mapping. *)
Definition detail_fields : list string :=
  [ "manufacturer"; "model"; "serial" ].

(** The target ids of [_controller_data] outside [Details]. *)
Definition controller_fields : list string :=
  [ "capacity_maximum"; "capacity_designed"; "current_dc"; "voltage_dc";
    "voltage_dc_maximum_cell"; "voltage_dc_minimum_cell";
    "state_of_charge"; "temperature_cell"; "enable" ].

(** The target ids of [_module_data] outside [Details]. *)
Definition module_fields : list string :=
  [ "capacity_maximum"; "capacity_designed"; "current_dc"; "voltage_dc";
    "voltage_dc_maximum_cell"; "voltage_dc_minimum_cell";
    "state_of_charge"; "temperature_cell"; "temperature_cell_maximum";
    "temperature_cell_minimum"; "cycle_count_cell"; "status_cell";
    "enable" ].

(** The top-level keys of the bundle that a normaliser may store to. *)
Definition inverter_aggregates : list string :=
  ["energy_day"; "energy_total"; "energy_year"; "power_ac"; "inverters"].

(** [untouched k tids]: the key [k] equals none of the target ids. *)
Definition untouched (k : pykey) (tids : list string) : bool :=
  forallb (fun tid => negb (key_eqb (KStr tid) k)) tids.

(** The six endpoint operations of the client, for statements about all of
    them. *)
Inductive operation : Type :=
| Power_flow
| System_meter
| System_inverter
| Device_meter (device : Z)
| Device_storage (device : Z)
| Device_inverter (device : Z).

Definition call (urlopen_json : string -> outcome pyval) (self : Fronius)
                (op : operation) : io pydict :=
  match op with
  | Power_flow => current_power_flow urlopen_json self
  | System_meter => current_system_meter_data urlopen_json self
  | System_inverter => current_system_inverter_data urlopen_json self
  | Device_meter device => current_meter_data urlopen_json self device
  | Device_storage device => current_storage_data urlopen_json self device
  | Device_inverter device => current_inverter_data urlopen_json self device
  end.

(** The normaliser an operation hands to [_current_data]. *)
Definition normaliser (op : operation) : pydict -> pyval -> outcome pydict :=
  match op with
  | Power_flow => _system_power_flow
  | System_meter => _system_meter_data
  | System_inverter => _system_inverter_data
  | Device_meter _ => _device_meter_data
  | Device_storage _ => _device_storage_data
  | Device_inverter _ => _device_inverter_data
  end.

(** The URL of an operation: scheme, host and path, and the device id
    where the endpoint takes one. *)
Definition endpoint_url (self : Fronius) (op : operation) : string :=
  (protocol self ++ "://" ++ host self ++
   match op with
   | Power_flow => "/solar_api/v1/GetPowerFlowRealtimeData.fcgi"
   | System_meter => "/solar_api/v1/GetMeterRealtimeData.cgi?Scope=System"
   | System_inverter =>
       "/solar_api/v1/GetInverterRealtimeData.cgi?Scope=System"
   | Device_meter device =>
       "/solar_api/v1/GetMeterRealtimeData.cgi?Scope=Device&DeviceId="
       ++ str_of_int device
   | Device_storage device =>
       "/solar_api/v1/GetStorageRealtimeData.cgi?Scope=Device&DeviceId="
       ++ str_of_int device
   | Device_inverter device =>
       "/solar_api/v1/GetInverterRealtimeData.cgi?Scope=Device&DeviceId="
       ++ str_of_int device ++ "&DataCollection=CommonInverterData"
   end)%string.

(** The top-level keys an operation's normaliser may store to. *)
Definition written (op : operation) : list string :=
  match op with
  | Power_flow => power_flow_fields
  | System_meter => ["meters"]
  | System_inverter => inverter_aggregates
  | Device_meter _ => meter_fields ++ detail_fields
  | Device_storage _ => (controller_fields ++ detail_fields) ++ ["modules"]
  | Device_inverter _ => device_inverter_fields
  end.


(** ** The series loops of [_system_inverter_data]

    The four loops of the normaliser are one loop at four parameters: the
    series iterated, the series the unit is read from, the field written
    (also the name of the aggregate), and whether the per-inverter
    sub-bundle is created first, which only the [DAY_ENERGY] loop does. *)

Definition series_body (data : pyval) (series unit_series field : string)
           (reset : bool) (sensor : pydict) (i : pyval) : outcome pydict :=
  sensor <- (if reset then store_in sensor "inverters" [i] (PDict [])
             else Ok sensor) ;;
  v <- subscript data [PStr series; PStr "Values"; i] ;;
  u <- subscript data [PStr unit_series; PStr "Unit"] ;;
  sensor <- store_in sensor "inverters" [i; PStr field] (value_unit v u) ;;
  add_in sensor field "value"
         (subscript data [PStr series; PStr "Values"; i]).

Definition series_loop (data : pyval) (series unit_series field : string)
           (reset : bool) (sensor : pydict) : outcome pydict :=
  has_series <- py_in series data ;;
  if has_series then
    values <- subscript data [PStr series; PStr "Values"] ;;
    items <- py_iter values ;;
    for_each items sensor (series_body data series unit_series field reset)
  else Ok sensor.

(** The bundle after the aggregates and [inverters] were initialised. *)
Definition inverter_init (sensor : pydict) : pydict :=
  dict_set (dict_set (dict_set (dict_set (dict_set sensor
    "energy_day" (value_unit (PInt 0) "Wh"))
    "energy_total" (value_unit (PInt 0) "Wh"))
    "energy_year" (value_unit (PInt 0) "Wh"))
    "power_ac" (value_unit (PInt 0) "W"))
    "inverters" (PDict []).

(** The four series: vendor name, field and aggregate name, and the fixed
    unit of the aggregate. *)
Definition inverter_series : list (string * string * string) :=
  [ ("DAY_ENERGY", "energy_day", "Wh");
    ("TOTAL_ENERGY", "energy_total", "Wh");
    ("YEAR_ENERGY", "energy_year", "Wh");
    ("PAC", "power_ac", "W") ].

(** The sub-bundle of an inverter in a bundle. *)
Definition entry_of (s : pydict) (id : string) : option pyval :=
  lookup_path (PDict s) [KStr "inverters"; KStr id].

(** [sum(values)]: the values added up from the left, starting at [start]. *)
Fixpoint py_sum_from (start : pyval) (values : list pyval) : outcome pyval :=
  match values with
  | [] => Ok start
  | v :: rest => acc <- py_add start v ;; py_sum_from acc rest
  end.

Definition py_sum (values : list pyval) : outcome pyval :=
  py_sum_from (PInt 0) values.

(** A mapping as [json.loads] makes it: string keys, no key twice. *)
Definition string_keys (d : pydict) : bool :=
  forallb (fun kv => match fst kv with KStr _ => true | _ => false end) d.

Definition json_object (d : pydict) : bool :=
  unique_keys d && string_keys d.

(** A vendor entity (meter, controller, module): a mapping whose
    [Details], when it has any, is a mapping. *)
Definition entity_shape (data : pyval) : bool :=
  match data with
  | PDict d =>
      match dict_get d "Details" with
      | None | Some (PDict _) => true
      | Some _ => false
      end
  | _ => false
  end.

(** The reading of a field of an inverter in a bundle. *)
Definition reading_of (s : pydict) (id field : string) : option pyval :=
  lookup_path (PDict s) [KStr "inverters"; KStr id; KStr field].

Definition in_ids (id : string) (ids : list string) : bool :=
  existsb (String.eqb id) ids.

(** The string keys of a mapping, in order. *)
Definition str_keys (d : pydict) : list string :=
  map (fun kv => match fst kv with KStr s => s | _ => "" end) d.

Definition is_number (v : pyval) : bool :=
  match v with
  | PInt _ | PFloat _ => true
  | _ => false
  end.

(** A series of a system-inverter payload: a mapping whose [Values] is a
    mapping from inverter ids to values. *)
Definition series_shape (x : pyval) : bool :=
  match x with
  | PDict ser =>
      match dict_get ser "Values" with
      | Some (PDict vs) => json_object vs
      | _ => false
      end
  | _ => false
  end.

Definition series_names : list string :=
  ["DAY_ENERGY"; "TOTAL_ENERGY"; "YEAR_ENERGY"; "PAC"].

(** A system-inverter payload: each of the four series, when present, has
    the shape of a series. *)
Definition inverter_payload (d : pydict) : bool :=
  forallb (fun name : string => match dict_get d name with
                                | None => true
                                | Some x => series_shape x
                                end) series_names.

(** The value of an inverter in a series of the payload, and the values of
    a series in the order of the payload (none for an absent series). *)
Definition series_value (d : pydict) (series id : string) : option pyval :=
  lookup_path (PDict d) (keys_of [series; "Values"; id]).

Definition series_values (d : pydict) (series : string) : list pyval :=
  match lookup_path (PDict d) (keys_of [series; "Values"]) with
  | Some (PDict vs) => map snd vs
  | _ => []
  end.

(** All values of the series of a payload are integers. *)
Definition int_values (d : pydict) : bool :=
  forallb (fun name =>
             forallb (fun v => match v with PInt _ => true | _ => false end)
                     (series_values d name)) series_names.

(** The series the unit of a field's per-inverter readings is read from. *)
Definition unit_series (series : string) : string :=
  if String.eqb series "DAY_ENERGY" then "DAY_ENERGY" else "TOTAL_ENERGY".

Definition aggregate_fields : list string :=
  ["energy_day"; "energy_total"; "energy_year"; "power_ac"].

(** The shape the bundle keeps through the loops on integer values: the
    [inverters] mapping holds sub-bundles, and each aggregate holds an
    integer [value]. *)
Definition well_formed_bundle (s : pydict) : Prop :=
  (exists invs,
      dict_get s "inverters" = Some (PDict invs) /\
      forall k e, dict_get invs k = Some e -> exists entry, e = PDict entry) /\
  (forall f : string,
      In f aggregate_fields ->
      exists agg z,
        dict_get s f = Some (PDict agg) /\
        dict_get agg "value" = Some (PInt z)).

(** A system-meter payload: a mapping from meter ids to meters. *)
Definition meters_shape (d : pydict) : bool :=
  string_keys d && forallb (fun kv => entity_shape (snd kv)) d.

(** A storage payload: a controller, when there is one, and a sequence of
    modules, when there is one. *)
Definition storage_shape (d : pydict) : bool :=
  match dict_get d "Controller" with
  | None => true
  | Some c => entity_shape c
  end &&
  match dict_get d "Modules" with
  | None => true
  | Some (PList l) => forallb entity_shape l
  | Some _ => false
  end.

(** The inverter ids of a series of the payload (none for an absent
    series). *)
Definition series_ids (d : pydict) (series : string) : list string :=
  match lookup_path (PDict d) (keys_of [series; "Values"]) with
  | Some (PDict vs) => str_keys vs
  | _ => []
  end.

(** A regular system-inverter payload: integer values; every present
    series finds the [Unit] it reads; and every inverter of the other
    series is an inverter of [DAY_ENERGY]. *)
Definition regular_payload (d : pydict) : bool :=
  inverter_payload d && int_values d &&
  forallb (fun name : string =>
             match dict_get d name with
             | None => true
             | Some _ =>
                 match lookup_path (PDict d)
                         (keys_of [unit_series name; "Unit"]) with
                 | Some _ => true
                 | None => false
                 end
             end) series_names &&
  forallb (fun name : string =>
             forallb (fun id => match series_value d "DAY_ENERGY" id with
                                | Some _ => true
                                | None => false
                                end) (series_ids d name))
          ["TOTAL_ENERGY"; "YEAR_ENERGY"; "PAC"].

(** ** The copies of the normalisers, as tables

    Each normaliser is a fixed sequence of [_copy] calls; a row holds the
    source field id, the target id and the fixed unit of one call. *)

Definition copy_table : Type := list (string * string * option string).

Definition row_tid (row : string * string * option string) : string :=
  snd (fst row).

(** The readings of a table's rows, stored one after the other. *)
Definition copy_all (table : copy_table) (source target : pydict) : pydict :=
  fold_left (fun t row =>
               dict_set t (KStr (row_tid row))
                        (PDict (copy_rule_spec source (fst (fst row))
                                               (snd row))))
            table target.

(** No target id occurs twice in a table. *)
Fixpoint distinct_tids (table : copy_table) : bool :=
  match table with
  | [] => true
  | row :: rest =>
      negb (existsb (fun r => String.eqb (row_tid r) (row_tid row)) rest)
      && distinct_tids rest
  end.

(** The copies of [_system_power_flow] from the inverter entry. *)
Definition power_flow_inverter_table : copy_table :=
  [ ("Battery_Mode", "battery_mode", None);
    ("SOC", "state_of_charge", Some "%") ].

(** The copies of [_system_power_flow] from [Site]. *)
Definition power_flow_site_table : copy_table :=
  [ ("BatteryStandby", "battery_standby", None);
    ("E_Day", "energy_day", Some "Wh");
    ("E_Total", "energy_total", Some "Wh");
    ("E_Year", "energy_year", Some "Wh");
    ("Meter_Location", "meter_location", None);
    ("Mode", "meter_mode", None);
    ("P_Akku", "power_battery", Some "W");
    ("P_Grid", "power_grid", Some "W");
    ("P_Load", "power_load", Some "W");
    ("P_PV", "power_photovoltaics", Some "W");
    ("rel_Autonomy", "relative_autonomy", Some "%");
    ("rel_SelfConsumption", "relative_self_consumption", Some "%") ].

(** The copies of [_device_inverter_data]. *)
Definition device_inverter_table : copy_table :=
  [ ("DAY_ENERGY", "energy_day", None);
    ("TOTAL_ENERGY", "energy_total", None);
    ("YEAR_ENERGY", "energy_year", None);
    ("FAC", "frequency_ac", None);
    ("IAC", "current_ac", None);
    ("IDC", "current_dc", None);
    ("PAC", "power_ac", None);
    ("UAC", "voltage_ac", None);
    ("UDC", "voltage_dc", None) ].

(** The copies of [_meter_data] from the payload. *)
Definition meter_table : copy_table :=
  [ ("Current_AC_Phase_1", "current_ac_phase_1", Some "A");
    ("Current_AC_Phase_2", "current_ac_phase_2", Some "A");
    ("Current_AC_Phase_3", "current_ac_phase_3", Some "A");
    ("EnergyReactive_VArAC_Sum_Consumed", "energy_reactive_ac_consumed", Some "Wh");
    ("EnergyReactive_VArAC_Sum_Produced", "energy_reactive_ac_produced", Some "Wh");
    ("EnergyReal_WAC_Minus_Absolute", "energy_real_ac_minus", Some "Wh");
    ("EnergyReal_WAC_Plus_Absolute", "energy_real_ac_plus", Some "Wh");
    ("EnergyReal_WAC_Sum_Consumed", "energy_real_consumed", Some "Wh");
    ("EnergyReal_WAC_Sum_Produced", "energy_real_produced", Some "Wh");
    ("Frequency_Phase_Average", "frequency_phase_average", Some "H");
    ("PowerApparent_S_Phase_1", "power_apparent_phase_1", Some "W");
    ("PowerApparent_S_Phase_2", "power_apparent_phase_2", Some "W");
    ("PowerApparent_S_Phase_3", "power_apparent_phase_3", Some "W");
    ("PowerApparent_S_Sum", "power_apparent", Some "W");
    ("PowerFactor_Phase_1", "power_factor_phase_1", Some "W");
    ("PowerFactor_Phase_2", "power_factor_phase_2", Some "W");
    ("PowerFactor_Phase_3", "power_factor_phase_3", Some "W");
    ("PowerFactor_Sum", "power_factor", Some "W");
    ("PowerReactive_Q_Phase_1", "power_reactive_phase_1", Some "W");
    ("PowerReactive_Q_Phase_2", "power_reactive_phase_2", Some "W");
    ("PowerReactive_Q_Phase_3", "power_reactive_phase_3", Some "W");
    ("PowerReactive_Q_Sum", "power_reactive", Some "W");
    ("PowerReal_P_Phase_1", "power_real_phase_1", Some "W");
    ("PowerReal_P_Phase_2", "power_real_phase_2", Some "W");
    ("PowerReal_P_Phase_3", "power_real_phase_3", Some "W");
    ("PowerReal_P_Sum", "power_real", Some "W");
    ("Voltage_AC_Phase_1", "voltage_ac_phase_1", Some "V");
    ("Voltage_AC_Phase_2", "voltage_ac_phase_2", Some "V");
    ("Voltage_AC_Phase_3", "voltage_ac_phase_3", Some "V");
    ("Voltage_AC_PhaseToPhase_12", "voltage_ac_phase_to_phase_12", Some "V");
    ("Voltage_AC_PhaseToPhase_23", "voltage_ac_phase_to_phase_23", Some "V");
    ("Voltage_AC_PhaseToPhase_31", "voltage_ac_phase_to_phase_31", Some "V");
    ("Meter_Location_Current", "meter_location", None);
    ("Enable", "enable", None);
    ("Visible", "visible", None) ].

(** The copies of an entity normaliser from [Details]. *)
Definition detail_table : copy_table :=
  [ ("Manufacturer", "manufacturer", None);
    ("Model", "model", None);
    ("Serial", "serial", None) ].

(** The copies of [_controller_data] from the payload. *)
Definition controller_table : copy_table :=
  [ ("Capacity_Maximum", "capacity_maximum", Some "Ah");
    ("DesignedCapacity", "capacity_designed", Some "Ah");
    ("Current_DC", "current_dc", Some "A");
    ("Voltage_DC", "voltage_dc", Some "V");
    ("Voltage_DC_Maximum_Cell", "voltage_dc_maximum_cell", Some "V");
    ("Voltage_DC_Minimum_Cell", "voltage_dc_minimum_cell", Some "V");
    ("StateOfCharge_Relative", "state_of_charge", Some "%");
    ("Temperature_Cell", "temperature_cell", Some "C");
    ("Enable", "enable", None) ].

(** The copies of [_module_data] from the payload. *)
Definition module_table : copy_table :=
  [ ("Capacity_Maximum", "capacity_maximum", Some "Ah");
    ("DesignedCapacity", "capacity_designed", Some "Ah");
    ("Current_DC", "current_dc", Some "A");
    ("Voltage_DC", "voltage_dc", Some "V");
    ("Voltage_DC_Maximum_Cell", "voltage_dc_maximum_cell", Some "V");
    ("Voltage_DC_Minimum_Cell", "voltage_dc_minimum_cell", Some "V");
    ("StateOfCharge_Relative", "state_of_charge", Some "%");
    ("Temperature_Cell", "temperature_cell", Some "C");
    ("Temperature_Cell_Maximum", "temperature_cell_maximum", Some "C");
    ("Temperature_Cell_Minimum", "temperature_cell_minimum", Some "C");
    ("CycleCount_BatteryCell", "cycle_count_cell", Some "C");
    ("Status_BatteryCell", "status_cell", None);
    ("Enable", "enable", None) ].

(** A value that is no container: [None], a boolean or a number. *)
Definition is_scalar (v : pyval) : bool :=
  match v with
  | PNone | PBool _ | PInt _ | PFloat _ => true
  | _ => false
  end.

(** The bundle of an entity normaliser ([_meter_data], [_controller_data],
    [_module_data]) on a mapping: the copies of its table and, when
    [Details] is a mapping, the three copies from it. *)
Definition entity_bundle (table : copy_table) (d : pydict) : pydict :=
  let bundle := copy_all table d [] in
  match dict_get d "Details" with
  | Some (PDict details) => copy_all detail_table details bundle
  | _ => bundle
  end.

(** The target ids of an entity normaliser on a mapping, in order. *)
Definition entity_keys (table : copy_table) (d : pydict) : list string :=
  map row_tid table ++
  match dict_get d "Details" with
  | Some _ => detail_fields
  | None => []
  end.

(** The payloads on which the normaliser of an operation returns: the
    mappings each normaliser reads are there and are mappings. *)
Definition payload_shape (op : operation) (d : pydict) : bool :=
  match op with
  | Power_flow =>
      match dict_get d "Site",
            lookup_path (PDict d) (keys_of ["Inverters"; "1"]) with
      | Some (PDict _), Some (PDict _) => true
      | _, _ => false
      end
  | System_meter => meters_shape d
  | System_inverter => regular_payload d
  | Device_meter _ => entity_shape (PDict d)
  | Device_storage _ => storage_shape d
  | Device_inverter _ => true
  end.

(** No field occurs twice in a list of target ids. *)
Fixpoint distinct_fields (tids : list string) : bool :=
  match tids with
  | [] => true
  | tid :: rest => untouched (KStr tid) rest && distinct_fields rest
  end.

(** The payload an operation hands to its normaliser: [Body.Data], when
    [Body] and [Body.Data] are there and truthy. *)
Definition payload_of (json : pyval) : option pyval :=
  match lookup_path json (keys_of ["Body"]) with
  | Some body =>
      if py_truthy body then
        match lookup_path json (keys_of ["Body"; "Data"]) with
        | Some data => if py_truthy data then Some data else None
        | None => None
        end
      else None
  | None => None
  end.

(** The detail fields of an entity bundle: there when [Details] is found in
    the entity. *)
Definition details_of (data : pyval) : list string :=
  match py_in "Details" data with
  | Ok true => detail_fields
  | _ => []
  end.

(** ** Sample data for the worked examples *)

Definition sample_head : pyval :=
  PDict [ (KStr "Timestamp", PStr "2019-06-23T12:00:00+02:00");
          (KStr "Status",
           PDict [ (KStr "Code", PInt 0);
                   (KStr "Reason", PStr "");
                   (KStr "UserMessage", PStr "") ]) ].

(** A response with a well-formed [Head] and the given members next to it. *)
Definition sample_response (rest : pydict) : pyval :=
  PDict ((KStr "Head", sample_head) :: rest).

Definition sample_client : Fronius := __init__ "fronius.local" false 10.

(** The header-only bundle of a [sample_response]. *)
Definition sample_header : pydict :=
  header_bundle (PStr "2019-06-23T12:00:00+02:00")
    (PDict [ (KStr "Code", PInt 0); (KStr "Reason", PStr "");
             (KStr "UserMessage", PStr "") ])
    (PInt 0) (PStr "") (PStr "").

(** A response whose payload is present and empty. *)
Definition empty_data_response : pyval :=
  sample_response [(KStr "Body", PDict [(KStr "Data", PDict [])])].

(** A power-flow payload of a system with one inverter, numbered 2. *)
Definition power_flow_inverter_2 : pydict :=
  [ (KStr "Site", PDict [(KStr "P_PV", PInt 1500)]);
    (KStr "Inverters", PDict [(KStr "2", PDict [(KStr "SOC", PInt 80)])]) ].

(** Power-flow payloads that agree on inverter 1 and differ on inverter 2. *)
Definition power_flow_two_inverters (soc2 : Z) : pydict :=
  [ (KStr "Site", PDict [(KStr "P_PV", PInt 1500)]);
    (KStr "Inverters",
     PDict [ (KStr "1", PDict [(KStr "SOC", PInt 55)]);
             (KStr "2", PDict [(KStr "SOC", PInt soc2)]) ]) ].

(** The storage payload of the specification's example. *)
Definition two_modules : pyval :=
  PDict [ (KStr "Modules",
           PList [ PDict [(KStr "Enable", PInt 1)];
                   PDict [(KStr "Enable", PInt 0)] ]) ].


(** A series of a system-inverter payload. *)
Definition sample_series (unit : string) (values : pydict) : pyval :=
  PDict [ (KStr "Unit", PStr unit); (KStr "Values", PDict values) ].

(** The system-inverter payload of the specification's example. *)
Definition day_energy_example : pydict :=
  [ (KStr "DAY_ENERGY",
     sample_series "Wh" [(KStr "1", PInt 10); (KStr "2", PInt 20)]) ].

(** A payload with the four series, each with its own unit. *)
Definition four_series_example : pydict :=
  [ (KStr "DAY_ENERGY",
     sample_series "Wh" [(KStr "1", PInt 10); (KStr "2", PInt 20)]);
    (KStr "PAC", sample_series "W" [(KStr "1", PInt 300); (KStr "2", PInt 400)]);
    (KStr "TOTAL_ENERGY",
     sample_series "Wh" [(KStr "1", PInt 5000); (KStr "2", PInt 7000)]);
    (KStr "YEAR_ENERGY",
     sample_series "kWh" [(KStr "1", PInt 90); (KStr "2", PInt 80)]) ].

(** A payload with the total-energy series alone. *)
Definition total_only_example : pydict :=
  [ (KStr "TOTAL_ENERGY", sample_series "Wh" [(KStr "1", PInt 10)]) ].

(** A payload whose only series has no inverter. *)
Definition empty_total_example : pydict :=
  [ (KStr "TOTAL_ENERGY", sample_series "Wh" []) ].

(** A payload whose day series has a null value and whose total series
    names another inverter. *)
Definition null_day_example : pydict :=
  [ (KStr "DAY_ENERGY", sample_series "Wh" [(KStr "1", PNone)]);
    (KStr "TOTAL_ENERGY", sample_series "Wh" [(KStr "2", PInt 5)]) ].

(** A payload in which an inverter reports no value. *)
Definition null_value_example : pydict :=
  [ (KStr "DAY_ENERGY", sample_series "Wh" [(KStr "1", PNone)]) ].

(** A device-inverter response, and the bundle of the operation on it. *)
Definition sample_inverter_response : pyval :=
  sample_response
    [ (KStr "Body",
       PDict [ (KStr "Data",
                PDict [ (KStr "PAC", PDict [ (KStr "Value", PInt 7);
                                            (KStr "Unit", PStr "W") ]) ]) ]) ].

Definition sample_inverter_bundle : pydict :=
  Eval vm_compute in
    match result (call (fun _ => Ok sample_inverter_response) sample_client
                       (Device_inverter 1)) with
    | Ok out => out
    | Raise _ => []
    end.




(** A storage payload with a controller and two modules, and its bundle. *)
Definition controller_and_modules : pydict :=
  [ (KStr "Controller",
     PDict [ (KStr "StateOfCharge_Relative", PInt 85);
             (KStr "Details", PDict [(KStr "Model", PStr "Solar Battery")]) ]);
    (KStr "Modules",
     PList [ PDict [(KStr "Enable", PInt 1)];
             PDict [(KStr "Enable", PInt 0)] ]) ].

Definition controller_and_modules_bundle : pydict :=
  Eval vm_compute in
    match _device_storage_data sample_header (PDict controller_and_modules) with
    | Ok out => out
    | Raise _ => []
    end.

Definition four_series_bundle : pydict :=
  Eval vm_compute in
    match _system_inverter_data sample_header (PDict four_series_example) with
    | Ok out => out
    | Raise _ => []
    end.

(** A meter with a detail record, and a payload unit that the fixed unit of
    the copy replaces. *)
Definition meter_with_details : pydict :=
  [ (KStr "PowerReal_P_Sum",
     PDict [(KStr "Value", PInt 120); (KStr "Unit", PStr "kW")]);
    (KStr "Details",
     PDict [ (KStr "Manufacturer", PStr "Fronius");
             (KStr "Model", PStr "Smart Meter 63A");
             (KStr "Serial", PStr "15480258") ]) ].

Definition meter_with_details_bundle : pydict :=
  Eval vm_compute in
    match _meter_data (PDict meter_with_details) with
    | Ok out => out
    | Raise _ => []
    end.

(** A storage controller and a storage module without a detail record. *)
Definition plain_controller : pydict :=
  [ (KStr "StateOfCharge_Relative", PInt 85);
    (KStr "Temperature_Cell", PFloat (binary_normalize 53 1024 27 0 false)) ].

Definition plain_controller_bundle : pydict :=
  Eval vm_compute in
    match _controller_data (PDict plain_controller) with
    | Ok out => out
    | Raise _ => []
    end.

Definition plain_module : pydict :=
  [ (KStr "CycleCount_BatteryCell", PInt 12);
    (KStr "Details", PDict [(KStr "Serial", PStr "S012002")]) ].

Definition plain_module_bundle : pydict :=
  Eval vm_compute in
    match _module_data (PDict plain_module) with
    | Ok out => out
    | Raise _ => []
    end.

(** A meter whose detail record is [null]. *)
Definition meter_null_details : pydict :=
  [ (KStr "PowerReal_P_Sum", PInt 120); (KStr "Details", PNone) ].

(** The payload of a single inverter, with the units of the device. *)
Definition common_inverter_data : pydict :=
  [ (KStr "DAY_ENERGY",
     PDict [(KStr "Value", PInt 1393); (KStr "Unit", PStr "kWh")]);
    (KStr "PAC", PDict [(KStr "Value", PInt 84); (KStr "Unit", PStr "W")]) ].

Definition common_inverter_bundle : pydict :=
  Eval vm_compute in
    match _device_inverter_data sample_header (PDict common_inverter_data) with
    | Ok out => out
    | Raise _ => []
    end.

(** A power-flow payload with a battery at inverter 1. *)
Definition power_flow_battery : pydict :=
  [ (KStr "Site",
     PDict [ (KStr "P_PV", PInt 1500); (KStr "Mode", PStr "meter") ]);
    (KStr "Inverters",
     PDict [ (KStr "1", PDict [ (KStr "SOC", PInt 55);
                                (KStr "Battery_Mode", PStr "normal") ]) ]) ].

Definition power_flow_battery_bundle : pydict :=
  Eval vm_compute in
    match _system_power_flow sample_header (PDict power_flow_battery) with
    | Ok out => out
    | Raise _ => []
    end.

(** A system-inverter payload in which inverter 2 reports no total. *)
Definition partial_total_example : pydict :=
  [ (KStr "DAY_ENERGY",
     sample_series "Wh" [(KStr "1", PInt 10); (KStr "2", PInt 20)]);
    (KStr "TOTAL_ENERGY", sample_series "kWh" [(KStr "1", PInt 5)]) ].

(** A bundle that already holds an inverter, as a second normalisation of
    the same bundle would find it. *)
Definition stale_bundle : pydict :=
  [ (KStr "inverters",
     PDict [(KStr "9", PDict [(KStr "energy_day", value_unit (PInt 1) "Wh")])]) ].

Definition partial_total_bundle : pydict :=
  Eval vm_compute in
    match _system_inverter_data stale_bundle (PDict partial_total_example) with
    | Ok out => out
    | Raise _ => []
    end.

(** A system-inverter payload with a year series and no total series. *)
Definition year_without_total_example : pydict :=
  [ (KStr "DAY_ENERGY", sample_series "Wh" [(KStr "1", PInt 10)]);
    (KStr "YEAR_ENERGY", sample_series "Wh" [(KStr "1", PInt 90)]) ].

(** A storage payload with a controller alone. *)
Definition controller_only : pydict :=
  [ (KStr "Controller", PDict plain_controller) ].

Definition controller_only_bundle : pydict :=
  Eval vm_compute in
    match _device_storage_data sample_header (PDict controller_only) with
    | Ok out => out
    | Raise _ => []
    end.

(** A system-meter payload in which one meter is [null]. *)
Definition null_meter_example : pydict :=
  [ (KStr "0", PDict [(KStr "PowerReal_P_Sum", PInt 120)]);
    (KStr "1", PNone) ].

(** A device-meter response whose meter has a detail record, a response
    with an empty payload, and the bundles of the operation on them. *)
Definition sample_meter_response : pyval :=
  sample_response
    [ (KStr "Body", PDict [ (KStr "Data", PDict meter_with_details) ]) ].

Definition sample_meter_bundle : pydict :=
  Eval vm_compute in
    match result (call (fun _ => Ok sample_meter_response) sample_client
                       (Device_meter 0)) with
    | Ok out => out
    | Raise _ => []
    end.

Definition empty_data_bundle : pydict :=
  Eval vm_compute in
    match result (call (fun _ => Ok empty_data_response) sample_client
                       Power_flow) with
    | Ok out => out
    | Raise _ => []
    end.

(* ================================================================== *)
(** * Outcomes *)

Lemma bind_ok_inv {A B : Type} (c : outcome A) (k : A -> outcome B) (r : B) :
  bind c k = Ok r -> exists a, c = Ok a /\ k a = Ok r.
Proof.
  destruct c as [a | e]; simpl; intros H.
  - exists a. split; [reflexivity | exact H].
  - discriminate H.
Qed.

(** Splits a hypothesis [x <- c ;; k = Ok r] into [c = Ok x] and
    [k x = Ok r]. *)
Ltac bind_inv H x Hx :=
  apply bind_ok_inv in H; destruct H as (x & Hx & H).

(* ================================================================== *)
(** * Keys and dictionaries *)

Lemma keyclass_eqb_eq (a b : keyclass) : keyclass_eqb a b = true <-> a = b.
Proof.
  split.
  - destruct a, b; simpl; try discriminate; intros H.
    + reflexivity.
    + apply Z.eqb_eq in H. congruence.
    + apply andb_true_iff in H. destruct H as [H He].
      apply andb_true_iff in H. destruct H as [Hs Hm].
      apply Bool.eqb_prop in Hs. apply Pos.eqb_eq in Hm. apply Z.eqb_eq in He.
      congruence.
    + apply Bool.eqb_prop in H. congruence.
    + apply String.eqb_eq in H. congruence.
  - intros <-. destruct a; simpl.
    + reflexivity.
    + apply Z.eqb_refl.
    + rewrite Bool.eqb_reflx, Pos.eqb_refl, Z.eqb_refl. reflexivity.
    + apply Bool.eqb_reflx.
    + apply String.eqb_refl.
Qed.

Lemma key_eqb_true (k1 k2 : pykey) :
  key_eqb k1 k2 = true <->
  exists c, key_class k1 = Some c /\ key_class k2 = Some c.
Proof.
  unfold key_eqb. split.
  - destruct (key_class k1) as [a|]; [| discriminate].
    destruct (key_class k2) as [b|]; [| discriminate].
    intros H. apply keyclass_eqb_eq in H. subst b. exists a. auto.
  - intros (c & -> & ->). apply keyclass_eqb_eq. reflexivity.
Qed.

Lemma key_eqb_sym (k1 k2 : pykey) : key_eqb k1 k2 = key_eqb k2 k1.
Proof.
  destruct (key_eqb k1 k2) eqn:H12, (key_eqb k2 k1) eqn:H21; try reflexivity.
  - apply key_eqb_true in H12. destruct H12 as (c & H1 & H2).
    assert (key_eqb k2 k1 = true) by (apply key_eqb_true; eauto). congruence.
  - apply key_eqb_true in H21. destruct H21 as (c & H1 & H2).
    assert (key_eqb k1 k2 = true) by (apply key_eqb_true; eauto). congruence.
Qed.

Lemma key_eqb_trans (k1 k2 k3 : pykey) :
  key_eqb k1 k2 = true -> key_eqb k2 k3 = true -> key_eqb k1 k3 = true.
Proof.
  intros H12 H23.
  apply key_eqb_true in H12. destruct H12 as (c & H1 & H2).
  apply key_eqb_true in H23. destruct H23 as (c' & H2' & H3).
  apply key_eqb_true. exists c. split; congruence.
Qed.

(** Two keys equal to each other are equal to the same keys. *)
Lemma key_eqb_congr (k1 k2 k3 : pykey) :
  key_eqb k1 k2 = true -> key_eqb k1 k3 = key_eqb k2 k3.
Proof.
  intros H12.
  destruct (key_eqb k2 k3) eqn:H23.
  - eapply key_eqb_trans; eassumption.
  - destruct (key_eqb k1 k3) eqn:H13; [| reflexivity].
    rewrite key_eqb_sym in H12.
    rewrite (key_eqb_trans _ _ _ H12 H13) in H23. discriminate.
Qed.

Lemma key_eqb_str (a b : string) : key_eqb (KStr a) (KStr b) = String.eqb a b.
Proof. reflexivity. Qed.

Lemma key_eqb_str_refl (a : string) : key_eqb (KStr a) (KStr a) = true.
Proof. rewrite key_eqb_str. apply String.eqb_refl. Qed.

Lemma key_eqb_int (a b : Z) : key_eqb (KInt a) (KInt b) = (a =? b).
Proof. reflexivity. Qed.

(** Reading a dictionary after a store. *)
Lemma dict_get_set (d : pydict) (k k' : pykey) (v : pyval) :
  dict_get (dict_set d k v) k' =
  if key_eqb k k' then Some v else dict_get d k'.
Proof.
  induction d as [| [k0 v0] rest IH]; simpl.
  - reflexivity.
  - destruct (key_eqb k0 k) eqn:H0; simpl.
    + rewrite (key_eqb_congr _ _ k' H0).
      destruct (key_eqb k k'); reflexivity.
    + destruct (key_eqb k0 k') eqn:H0'.
      * destruct (key_eqb k k') eqn:Hk; [| reflexivity].
        rewrite key_eqb_sym in Hk.
        rewrite (key_eqb_trans _ _ _ H0' Hk) in H0. discriminate.
      * exact IH.
Qed.

Lemma dict_get_set_same (d : pydict) (k : string) (v : pyval) :
  dict_get (dict_set d k v) k = Some v.
Proof. rewrite dict_get_set, key_eqb_str_refl. reflexivity. Qed.

Lemma dict_get_set_other (d : pydict) (k k' : pykey) (v : pyval) :
  key_eqb k k' = false -> dict_get (dict_set d k v) k' = dict_get d k'.
Proof. intros H. rewrite dict_get_set, H. reflexivity. Qed.

(** A second store under the same key replaces the first. *)
Lemma dict_set_set (d : pydict) (k k' : pykey) (v v' : pyval) :
  key_eqb k k' = true ->
  dict_set (dict_set d k v) k' v' = dict_set d k v'.
Proof.
  intros Hk. induction d as [| [k0 v0] rest IH]; simpl.
  - rewrite Hk. reflexivity.
  - destruct (key_eqb k0 k) eqn:H0; simpl.
    + rewrite (key_eqb_trans _ _ _ H0 Hk). reflexivity.
    + assert (key_eqb k0 k' = false) as ->.
      { destruct (key_eqb k0 k') eqn:H0'; [| reflexivity].
        rewrite key_eqb_sym in Hk.
        rewrite (key_eqb_trans _ _ _ H0' Hk) in H0. discriminate. }
      rewrite IH. reflexivity.
Qed.

Lemma dict_mem_get (d : pydict) (k : pykey) :
  dict_mem d k = match dict_get d k with Some _ => true | None => false end.
Proof. reflexivity. Qed.

(** [target[k][field] = v] when [target[k]] holds a dictionary. *)
Lemma store_in_field (target : pydict) (k : string) (inner : pydict)
      (field : string) (v : pyval) :
  dict_get target k = Some (PDict inner) ->
  store_in target k [PStr field] v =
  Ok (dict_set target k (PDict (dict_set inner field v))).
Proof. unfold store_in. intros ->. reflexivity. Qed.

(* ================================================================== *)
(** * The field copy rule *)

(** What [_copy] does when a fixed unit is given or not, after the reading
    was stored under [tid]. *)
Lemma copy_unit_step (target : pydict) (tid : string) (reading : pydict)
      (unit : option string) :
  match unit with
  | Some u => store_in (dict_set target tid (PDict reading)) tid
                       [PStr "unit"] (PStr u)
  | None => Ok (dict_set target tid (PDict reading))
  end =
  Ok (dict_set target tid
        (PDict match unit with
               | Some u => dict_set reading "unit" (PStr u)
               | None => reading
               end)).
Proof.
  destruct unit as [u|]; [| reflexivity].
  rewrite (store_in_field _ tid reading) by apply dict_get_set_same.
  rewrite dict_set_set by apply key_eqb_str_refl. reflexivity.
Qed.

(** On a source mapping [_copy] always returns, with the reading of the
    four-step rule stored under the target id. *)
Lemma copy_on_mapping (source target : pydict) (sid tid : string)
      (unit : option string) :
  _copy (PDict source) target sid tid unit =
  Ok (dict_set target tid (PDict (copy_rule_spec source sid unit))).
Proof.
  unfold _copy, copy_rule_spec, value_only.
  cbn [py_in subscript py_getitem key_of bind].
  rewrite dict_mem_get.
  destruct (dict_get source sid) as [field|] eqn:Hsid; cbn [bind].
  - destruct field as [| b | z | f | s | l | fd]; cbn [py_in bind];
      try apply copy_unit_step.
    rewrite dict_mem_get.
    destruct (dict_get fd "Value") as [v|] eqn:Hv; cbn [bind].
    + rewrite dict_mem_get.
      destruct (dict_get fd "Unit") as [u|] eqn:Hu; cbn [bind].
      * cbn [py_getitem key_of bind]. rewrite Hv, Hu. cbn [bind].
        rewrite (store_in_field _ tid [(KStr "value", v)])
          by apply dict_get_set_same.
        rewrite dict_set_set by apply key_eqb_str_refl. cbn [bind].
        apply (copy_unit_step target tid
                 [(KStr "value", v); (KStr "unit", u)] unit).
      * cbn [py_getitem key_of bind]. rewrite Hv. cbn [bind].
        apply copy_unit_step.
    + apply copy_unit_step.
  - apply copy_unit_step.
Qed.


(** C1. For every source mapping, target mapping, source field id, target
    field id and optional fixed unit, [_copy] raises nothing and stores under
    the target id the reading of the four-step rule: the wrapped [Value]
    (with the source's [Unit] when it has one) if the field is a mapping
    with a [Value] key; else the field itself, without unit, if it is
    present; else zero; and a fixed unit, when given, is the unit of the
    reading whatever the earlier steps set.  The four examples of the
    specification evaluate as it says. *)
Theorem copy_four_step_rule :
  (forall (source target : pydict) (sid tid : string) (unit : option string),
      _copy (PDict source) target sid tid unit =
      Ok (dict_set target tid (PDict (copy_rule_spec source sid unit)))) /\
  (forall (source target : pydict) (sid tid u : string),
      exists reading,
        _copy (PDict source) target sid tid (Some u) =
          Ok (dict_set target tid (PDict reading)) /\
        dict_get reading "unit" = Some (PStr u)) /\
  _copy (PDict [(KStr "X", PDict [(KStr "Value", PInt 5);
                                  (KStr "Unit", PStr "W")])])
        [] "X" "y" None
    = Ok [(KStr "y", PDict [(KStr "value", PInt 5); (KStr "unit", PStr "W")])] /\
  _copy (PDict [(KStr "X", PInt 7)]) [] "X" "y" None
    = Ok [(KStr "y", PDict [(KStr "value", PInt 7)])] /\
  _copy (PDict []) [] "X" "y" None
    = Ok [(KStr "y", PDict [(KStr "value", PInt 0)])] /\
  _copy (PDict [(KStr "X", PDict [(KStr "Value", PInt 5);
                                  (KStr "Unit", PStr "W")])])
        [] "X" "y" (Some "kW")
    = Ok [(KStr "y", PDict [(KStr "value", PInt 5); (KStr "unit", PStr "kW")])].
Proof.
  split; [| split].
  - intros source target sid tid unit. apply copy_on_mapping.
  - intros source target sid tid u. eexists. split.
    + apply copy_on_mapping.
    + unfold copy_rule_spec. apply dict_get_set_same.
  - repeat split; reflexivity.
Qed.

(* ================================================================== *)
(** * Subscripts along string keys *)

Lemma getitem_str (v : pyval) (k : string) :
  py_getitem v (PStr k) =
  match v with
  | PDict d => match dict_get d k with
               | Some x => Ok x
               | None => Raise KeyError
               end
  | _ => Raise TypeError
  end.
Proof. destruct v; reflexivity. Qed.

Lemma subscript_str_ok (path : list string) (v x : pyval) :
  subscript v (map PStr path) = Ok x <->
  lookup_path v (keys_of path) = Some x.
Proof.
  revert v. induction path as [| k rest IH]; intros v; simpl.
  - split; congruence.
  - rewrite getitem_str. destruct v; simpl; try (split; discriminate).
    destruct (dict_get d k) as [y|]; simpl; [apply IH | split; discriminate].
Qed.

Lemma subscript_str_raise (path : list string) (v : pyval) (e : exn) :
  subscript v (map PStr path) = Raise e -> structural e.
Proof.
  revert v. induction path as [| k rest IH]; intros v; simpl.
  - discriminate.
  - rewrite getitem_str. destruct v; simpl;
      try (intros [= <-]; right; reflexivity).
    destruct (dict_get d k) as [y|]; simpl.
    + apply IH.
    + intros [= <-]. left. reflexivity.
Qed.

(* ================================================================== *)
(** * Envelope extraction *)

Lemma status_data_ok (json ts st code reason msg : pyval) :
  lookup_path json (keys_of ["Head"; "Timestamp"]) = Some ts ->
  lookup_path json (keys_of ["Head"; "Status"]) = Some st ->
  lookup_path json (keys_of ["Head"; "Status"; "Code"]) = Some code ->
  lookup_path json (keys_of ["Head"; "Status"; "Reason"]) = Some reason ->
  lookup_path json (keys_of ["Head"; "Status"; "UserMessage"]) = Some msg ->
  _status_data json = Ok (header_bundle ts st code reason msg).
Proof.
  intros H1 H2 H3 H4 H5. unfold _status_data.
  apply subscript_str_ok in H1, H2, H3, H4, H5. simpl map in *.
  rewrite H1. cbn [bind]. rewrite H2. cbn [bind]. rewrite H3. cbn [bind].
  rewrite H4. cbn [bind]. rewrite H5. reflexivity.
Qed.

Lemma status_data_ok_inv (json : pyval) (sensor : pydict) :
  _status_data json = Ok sensor ->
  exists ts st code reason msg,
    lookup_path json (keys_of ["Head"; "Timestamp"]) = Some ts /\
    lookup_path json (keys_of ["Head"; "Status"]) = Some st /\
    lookup_path json (keys_of ["Head"; "Status"; "Code"]) = Some code /\
    lookup_path json (keys_of ["Head"; "Status"; "Reason"]) = Some reason /\
    lookup_path json (keys_of ["Head"; "Status"; "UserMessage"]) = Some msg /\
    sensor = header_bundle ts st code reason msg.
Proof.
  unfold _status_data. intros H.
  bind_inv H ts H1. bind_inv H st H2. bind_inv H code H3.
  bind_inv H reason H4. bind_inv H msg H5.
  exists ts, st, code, reason, msg.
  repeat split;
    try (apply (subscript_str_ok [_; _]); assumption);
    try (apply (subscript_str_ok [_; _; _]); assumption).
  injection H as <-. reflexivity.
Qed.

Lemma status_data_raise (json : pyval) (e : exn) :
  _status_data json = Raise e -> structural e.
Proof.
  unfold _status_data. intros H.
  repeat match type of H with
  | bind (subscript json ?p) _ = Raise e =>
      let E := fresh "E" in
      destruct (subscript json p) eqn:E;
      [ cbn [bind] in H
      | cbn [bind] in H; injection H as <-;
        first [ apply (subscript_str_raise [_; _] json _ E)
              | apply (subscript_str_raise [_; _; _] json _ E) ] ]
  end.
  discriminate H.
Qed.

(** Extraction succeeds exactly when the five places of [Head] exist. *)
Lemma status_data_raises_iff (json : pyval) :
  (exists e, _status_data json = Raise e) <->
  (exists path, In path header_paths /\
                lookup_path json (keys_of path) = None).
Proof.
  split.
  - intros [e He].
    destruct (lookup_path json (keys_of ["Head"; "Timestamp"])) as [ts|] eqn:H1;
      [| exists ["Head"; "Timestamp"]; simpl; auto].
    destruct (lookup_path json (keys_of ["Head"; "Status"])) as [st|] eqn:H2;
      [| exists ["Head"; "Status"]; simpl; auto].
    destruct (lookup_path json (keys_of ["Head"; "Status"; "Code"]))
      as [code|] eqn:H3; [| exists ["Head"; "Status"; "Code"]; simpl; auto].
    destruct (lookup_path json (keys_of ["Head"; "Status"; "Reason"]))
      as [reason|] eqn:H4;
      [| exists ["Head"; "Status"; "Reason"]; simpl; auto 6].
    destruct (lookup_path json (keys_of ["Head"; "Status"; "UserMessage"]))
      as [msg|] eqn:H5;
      [| exists ["Head"; "Status"; "UserMessage"]; simpl; auto 7].
    rewrite (status_data_ok json ts st code reason msg H1 H2 H3 H4 H5) in He.
    discriminate He.
  - intros (path & Hin & Hnone).
    destruct (_status_data json) as [sensor | e] eqn:H; [| exists e; reflexivity].
    apply status_data_ok_inv in H.
    destruct H as (ts & st & code & reason & msg & H1 & H2 & H3 & H4 & H5 & _).
    simpl in Hin.
    destruct Hin as [<- | [<- | [<- | [<- | [<- | []]]]]]; congruence.
Qed.

(* ================================================================== *)
(** * Loops, stores and merged dictionaries *)

(** A relation between states that every iteration respects is respected
    by the loop. *)
Lemma for_each_preserves {A S : Type} (R : S -> S -> Prop)
      (body : S -> A -> outcome S) :
  (forall s, R s s) ->
  (forall s1 s2 s3, R s1 s2 -> R s2 s3 -> R s1 s3) ->
  (forall s x s', body s x = Ok s' -> R s s') ->
  forall items s s', for_each items s body = Ok s' -> R s s'.
Proof.
  intros Hrefl Htrans Hbody items.
  induction items as [| x rest IH]; intros s s' H; simpl in H.
  - injection H as <-. apply Hrefl.
  - bind_inv H s1 H1. eapply Htrans; [eapply Hbody; exact H1 | eapply IH; exact H].
Qed.

Lemma dict_get_congr (d : pydict) (k k' : pykey) :
  key_eqb k k' = true -> dict_get d k = dict_get d k'.
Proof.
  intros H. induction d as [| [k0 v0] rest IH]; simpl; [reflexivity |].
  rewrite (key_eqb_sym k0 k), (key_eqb_sym k0 k'), (key_eqb_congr _ _ k0 H).
  rewrite IH. reflexivity.
Qed.

Lemma unique_keys_set (d : pydict) (k : pykey) (v : pyval) :
  unique_keys d = true -> unique_keys (dict_set d k v) = true.
Proof.
  induction d as [| [k0 v0] rest IH]; simpl; intros H.
  - reflexivity.
  - apply andb_true_iff in H. destruct H as [Hk0 Hrest].
    destruct (key_eqb k0 k) eqn:E; simpl.
    + rewrite Hk0, Hrest. reflexivity.
    + rewrite (IH Hrest), andb_true_r.
      unfold dict_mem in *. rewrite dict_get_set, (key_eqb_sym k k0), E.
      exact Hk0.
Qed.

(** [d.update(other)] read back, for a dictionary [other]. *)
Lemma dict_get_update (other d : pydict) (k : pykey) :
  unique_keys other = true ->
  dict_get (dict_update d other) k =
  match dict_get other k with
  | Some v => Some v
  | None => dict_get d k
  end.
Proof.
  unfold dict_update. revert d.
  induction other as [| [k0 v0] rest IH]; intros d Hu; simpl.
  - reflexivity.
  - simpl in Hu. apply andb_true_iff in Hu. destruct Hu as [Hk0 Hrest].
    rewrite (IH _ Hrest), dict_get_set.
    destruct (key_eqb k0 k) eqn:E; [| reflexivity].
    rewrite <- (dict_get_congr rest k0 k E).
    unfold dict_mem in Hk0. destruct (dict_get rest k0); [discriminate | reflexivity].
Qed.

Lemma store_in_inv (target : pydict) (k : pykey) (path : list pyval)
      (v : pyval) (target' : pydict) :
  store_in target k path v = Ok target' ->
  exists inner inner',
    dict_get target k = Some inner /\
    store_path inner path v = Ok inner' /\
    target' = dict_set target k inner'.
Proof.
  unfold store_in. destruct (dict_get target k) as [inner|]; [| discriminate].
  intros H. bind_inv H inner' H1. injection H as <-.
  exists inner, inner'. auto.
Qed.

Lemma store_in_other (target : pydict) (k k' : pykey) (path : list pyval)
      (v : pyval) (target' : pydict) :
  store_in target k path v = Ok target' ->
  key_eqb k k' = false ->
  dict_get target' k' = dict_get target k'.
Proof.
  intros H Hk. apply store_in_inv in H. destruct H as (i & i' & _ & _ & ->).
  apply dict_get_set_other. exact Hk.
Qed.

Lemma add_in_inv (target : pydict) (k : pykey) (field : string)
      (rhs : outcome pyval) (target' : pydict) :
  add_in target k field rhs = Ok target' ->
  exists inner old v new inner',
    dict_get target k = Some inner /\
    py_getitem inner field = Ok old /\
    rhs = Ok v /\
    py_iadd old v = Ok new /\
    py_setitem inner field new = Ok inner' /\
    target' = dict_set target k inner'.
Proof.
  unfold add_in. destruct (dict_get target k) as [inner|]; [| discriminate].
  intros H. bind_inv H old H1. bind_inv H v H2. bind_inv H new H3.
  bind_inv H inner' H4. injection H as <-.
  exists inner, old, v, new, inner'. auto 10.
Qed.

Lemma add_in_other (target : pydict) (k k' : pykey) (field : string)
      (rhs : outcome pyval) (target' : pydict) :
  add_in target k field rhs = Ok target' ->
  key_eqb k k' = false ->
  dict_get target' k' = dict_get target k'.
Proof.
  intros H Hk. apply add_in_inv in H.
  destruct H as (i & o & v & n & i' & _ & _ & _ & _ & _ & ->).
  apply dict_get_set_other. exact Hk.
Qed.

(* ================================================================== *)
(** * Sequences of copies *)

(** Whatever the source, a copy that returns has stored one reading under
    the target id and touched nothing else. *)
Lemma copy_shape (source : pyval) (target : pydict) (sid tid : string)
      (unit : option string) (target' : pydict) :
  _copy source target sid tid unit = Ok target' ->
  exists r, target' = dict_set target tid (PDict r).
Proof.
  unfold _copy, value_only. intros H.
  bind_inv H present Hp. bind_inv H wrapped Hw. bind_inv H t1 Ht1.
  assert (exists r1, t1 = dict_set target tid (PDict r1)) as [r1 ->].
  { destruct wrapped.
    - bind_inv Ht1 v Hv. bind_inv Ht1 field Hf. bind_inv Ht1 has_unit Hu.
      destruct has_unit.
      + bind_inv Ht1 u Hu'.
        rewrite (store_in_field _ tid [(KStr "value", v)]) in Ht1
          by apply dict_get_set_same.
        rewrite dict_set_set in Ht1 by apply key_eqb_str_refl.
        injection Ht1 as <-. eexists. reflexivity.
      + injection Ht1 as <-. eexists. reflexivity.
    - bind_inv Ht1 present' Hp'. destruct present'.
      + bind_inv Ht1 v Hv. injection Ht1 as <-. eexists. reflexivity.
      + injection Ht1 as <-. eexists. reflexivity. }
  rewrite copy_unit_step in H. injection H as <-. eexists. reflexivity.
Qed.

Lemma copied_get_other (tids : list string) (t0 t : pydict) (k : pykey) :
  copied tids t0 t ->
  untouched k tids = true ->
  dict_get t k = dict_get t0 k.
Proof.
  unfold untouched.
  revert t0. induction tids as [| tid rest IH]; simpl; intros t0 H Hk.
  - subst t. reflexivity.
  - destruct H as [r H]. apply andb_true_iff in Hk. destruct Hk as [Hk Hrest].
    rewrite (IH _ H Hrest). apply dict_get_set_other.
    apply negb_true_iff. exact Hk.
Qed.

Lemma copied_unique (tids : list string) (t0 t : pydict) :
  copied tids t0 t -> unique_keys t0 = true -> unique_keys t = true.
Proof.
  revert t0. induction tids as [| tid rest IH]; simpl; intros t0 H Hu.
  - subst t. exact Hu.
  - destruct H as [r H]. apply (IH _ H). apply unique_keys_set. exact Hu.
Qed.

(** Turns a hypothesis on a sequence of [_copy] calls that returned into
    the shape of its result. *)
Ltac copies_inv H :=
  repeat match type of H with
  | bind (_copy _ _ _ _ _) _ = Ok _ =>
      let t := fresh "t" in
      let Ht := fresh "Ht" in
      let r := fresh "r" in
      bind_inv H t Ht; apply copy_shape in Ht; destruct Ht as [r ->]
  | bind (py_getitem _ _) _ = Ok _ =>
      let d := fresh "d" in
      let Hd := fresh "Hd" in
      bind_inv H d Hd
  end.

Ltac copied_done := cbn [copied]; repeat eexists.

Lemma meter_data_copied (data : pyval) (meter : pydict) :
  _meter_data data = Ok meter ->
  copied meter_fields [] meter \/
  copied (meter_fields ++ detail_fields) [] meter.
Proof.
  unfold _meter_data. intros H. copies_inv H.
  bind_inv H has Hhas. destruct has.
  - copies_inv H. injection H as <-. right. copied_done.
  - injection H as <-. left. copied_done.
Qed.

Lemma controller_data_copied (data : pyval) (controller : pydict) :
  _controller_data data = Ok controller ->
  copied controller_fields [] controller \/
  copied (controller_fields ++ detail_fields) [] controller.
Proof.
  unfold _controller_data. intros H. copies_inv H.
  bind_inv H has Hhas. destruct has.
  - copies_inv H. injection H as <-. right. copied_done.
  - injection H as <-. left. copied_done.
Qed.

Lemma module_data_copied (data : pyval) (module : pydict) :
  _module_data data = Ok module ->
  copied module_fields [] module \/
  copied (module_fields ++ detail_fields) [] module.
Proof.
  unfold _module_data. intros H. copies_inv H.
  bind_inv H has Hhas. destruct has.
  - copies_inv H. injection H as <-. right. copied_done.
  - injection H as <-. left. copied_done.
Qed.

Lemma system_power_flow_copied (sensor : pydict) (data : pyval) (out : pydict) :
  _system_power_flow sensor data = Ok out ->
  copied power_flow_fields sensor out.
Proof.
  unfold _system_power_flow. intros H.
  bind_inv H site Hsite. bind_inv H inverter Hinv.
  copies_inv H. injection H as <-. copied_done.
Qed.

Lemma device_inverter_data_copied (sensor : pydict) (data : pyval)
      (out : pydict) :
  _device_inverter_data sensor data = Ok out ->
  copied device_inverter_fields sensor out.
Proof.
  unfold _device_inverter_data. intros H.
  copies_inv H. injection H as <-. copied_done.
Qed.

(** ** Entities of the expected shape are always normalised *)

Lemma bind_copy_total {A : Type} (d target : pydict) (sid tid : string)
      (unit : option string) (k : pydict -> outcome A) :
  (forall t, exists m, k t = Ok m) ->
  exists m, bind (_copy (PDict d) target sid tid unit) k = Ok m.
Proof. intros H. rewrite copy_on_mapping. cbn [bind]. apply H. Qed.

Lemma bind_getitem_total {A : Type} (d : pydict) (key : string) (x : pyval)
      (k : pyval -> outcome A) :
  dict_get d key = Some x ->
  (exists m, k x = Ok m) ->
  exists m, bind (py_getitem (PDict d) (PStr key)) k = Ok m.
Proof. intros E H. rewrite getitem_str, E. cbn [bind]. exact H. Qed.

Ltac entity_total H :=
  match goal with
  | |- exists m, ?f ?data = Ok m =>
      unfold entity_shape in H;
      destruct data as [| | | | | | d]; try discriminate H;
      unfold f;
      repeat (apply bind_copy_total; intros ?; cbv beta);
      cbn [py_in bind]; rewrite dict_mem_get;
      let E := fresh "E" in
      destruct (dict_get d "Details") as [[| | | | | | dd]|] eqn:E;
      try discriminate H;
      [ repeat (apply (bind_getitem_total d "Details" _ _ E);
                apply bind_copy_total; intros ?; cbv beta)
      | ];
      eexists; reflexivity
  end.

Lemma meter_data_total (data : pyval) :
  entity_shape data = true -> exists m, _meter_data data = Ok m.
Proof. intros H. entity_total H. Qed.

Lemma controller_data_total (data : pyval) :
  entity_shape data = true -> exists m, _controller_data data = Ok m.
Proof. intros H. entity_total H. Qed.

Lemma module_data_total (data : pyval) :
  entity_shape data = true -> exists m, _module_data data = Ok m.
Proof. intros H. entity_total H. Qed.

(* ================================================================== *)
(** * What the normalisers leave alone *)

Lemma untouched_app (k : pykey) (l1 l2 : list string) :
  untouched k (l1 ++ l2) = true ->
  untouched k l1 = true /\ untouched k l2 = true.
Proof. unfold untouched. rewrite forallb_app. apply andb_true_iff. Qed.

Lemma untouched_one (k : pykey) (tid : string) :
  untouched k [tid] = true -> key_eqb (KStr tid) k = false.
Proof.
  unfold untouched. simpl. rewrite andb_true_r. apply negb_true_iff.
Qed.

(** An entity normaliser's result has no key outside its target ids. *)
Lemma copied_fresh_none (fields : list string) (t : pydict) (k : pykey) :
  copied fields [] t \/ copied (fields ++ detail_fields) [] t ->
  untouched k (fields ++ detail_fields) = true ->
  dict_get t k = None.
Proof.
  intros H Hk. destruct (untouched_app _ _ _ Hk) as [Hf _].
  destruct H as [H | H].
  - rewrite (copied_get_other _ _ _ _ H Hf). reflexivity.
  - rewrite (copied_get_other _ _ _ _ H Hk). reflexivity.
Qed.

Lemma copied_fresh_unique (fields : list string) (t : pydict) :
  copied fields [] t \/ copied (fields ++ detail_fields) [] t ->
  unique_keys t = true.
Proof.
  intros [H | H]; eapply copied_unique; try exact H; reflexivity.
Qed.

Lemma inverter_series_frame (data : pyval) (k : pykey)
      (series unit_series field agg : string) (reset : bool)
      (items : list pyval) (s s' : pydict) :
  key_eqb (KStr "inverters") k = false ->
  key_eqb (KStr agg) k = false ->
  for_each items s (fun sensor i =>
    sensor <- (if reset then store_in sensor "inverters" [i] (PDict [])
               else Ok sensor) ;;
    v <- subscript data [PStr series; PStr "Values"; i] ;;
    u <- subscript data [PStr unit_series; PStr "Unit"] ;;
    sensor <- store_in sensor "inverters" [i; PStr field] (value_unit v u) ;;
    add_in sensor agg "value"
           (subscript data [PStr series; PStr "Values"; i])) = Ok s' ->
  dict_get s' k = dict_get s k.
Proof.
  intros Hinv Hagg.
  apply (for_each_preserves (fun a b => dict_get b k = dict_get a k)).
  - reflexivity.
  - intros s1 s2 s3 H12 H23. congruence.
  - intros s1 i s2 H.
    bind_inv H s3 H3. bind_inv H v Hv. bind_inv H u Hu. bind_inv H s4 H4.
    apply (add_in_other _ _ k) in H; [| exact Hagg].
    apply (store_in_other _ _ k) in H4; [| exact Hinv].
    assert (dict_get s3 k = dict_get s1 k) as E.
    { destruct reset.
      - apply (store_in_other _ _ k) in H3; [exact H3 | exact Hinv].
      - injection H3 as <-. reflexivity. }
    congruence.
Qed.

Lemma system_meter_data_frame (sensor : pydict) (data : pyval)
      (out : pydict) (k : pykey) :
  _system_meter_data sensor data = Ok out ->
  key_eqb (KStr "meters") k = false ->
  dict_get out k = dict_get sensor k.
Proof.
  unfold _system_meter_data. intros H Hk. bind_inv H items Hitems.
  apply (for_each_preserves (fun a b => dict_get b k = dict_get a k)) in H.
  - rewrite H. apply dict_get_set_other. exact Hk.
  - reflexivity.
  - intros s1 s2 s3 H12 H23. congruence.
  - intros s1 i s2 Hb. bind_inv Hb payload Hp. bind_inv Hb meter Hm.
    eapply store_in_other; eassumption.
Qed.

Lemma bind_assoc {A B C : Type} (c : outcome A) (f : A -> outcome B)
      (g : B -> outcome C) :
  bind (bind c f) g = bind c (fun a => bind (f a) g).
Proof. destruct c; reflexivity. Qed.

Lemma system_inverter_data_frame (sensor : pydict) (data : pyval)
      (out : pydict) (k : pykey) :
  _system_inverter_data sensor data = Ok out ->
  untouched k inverter_aggregates = true ->
  dict_get out k = dict_get sensor k.
Proof.
  unfold _system_inverter_data, untouched, inverter_aggregates.
  cbn [forallb]. intros H Hk.
  repeat (apply andb_true_iff in Hk; destruct Hk as [?K Hk]).
  repeat match goal with
         | K : negb _ = true |- _ => apply negb_true_iff in K
         end.
  bind_inv H has1 Hh1. bind_inv H s1 H1.
  bind_inv H has2 Hh2. bind_inv H s2 H2.
  bind_inv H has3 Hh3. bind_inv H s3 H3.
  bind_inv H has4 Hh4. bind_inv H s4 H4.
  injection H as <-.
  assert (dict_get s4 k = dict_get s3 k) as E4.
  { destruct has4; [| injection H4 as <-; reflexivity].
    bind_inv H4 values Hv. bind_inv H4 items Hi.
    apply (inverter_series_frame data k "PAC" "TOTAL_ENERGY" "power_ac"
             "power_ac" false items s3 s4); assumption. }
  assert (dict_get s3 k = dict_get s2 k) as E3.
  { destruct has3; [| injection H3 as <-; reflexivity].
    bind_inv H3 values Hv. bind_inv H3 items Hi.
    apply (inverter_series_frame data k "YEAR_ENERGY" "TOTAL_ENERGY"
             "energy_year" "energy_year" false items s2 s3); assumption. }
  assert (dict_get s2 k = dict_get s1 k) as E2.
  { destruct has2; [| injection H2 as <-; reflexivity].
    bind_inv H2 values Hv. bind_inv H2 items Hi.
    apply (inverter_series_frame data k "TOTAL_ENERGY" "TOTAL_ENERGY"
             "energy_total" "energy_total" false items s1 s2); assumption. }
  rewrite E4, E3, E2.
  assert (dict_get s1 k = dict_get
            (dict_set (dict_set (dict_set (dict_set (dict_set sensor
               "energy_day" (value_unit (PInt 0) "Wh"))
               "energy_total" (value_unit (PInt 0) "Wh"))
               "energy_year" (value_unit (PInt 0) "Wh"))
               "power_ac" (value_unit (PInt 0) "W"))
               "inverters" (PDict [])) k) as E1.
  { destruct has1; [| injection H1 as <-; reflexivity].
    bind_inv H1 values Hv. bind_inv H1 items Hi.
    apply (inverter_series_frame data k "DAY_ENERGY" "DAY_ENERGY"
             "energy_day" "energy_day" true items _ s1); assumption. }
  rewrite E1. rewrite !dict_get_set_other by assumption. reflexivity.
Qed.

Lemma device_meter_data_frame (sensor : pydict) (data : pyval)
      (out : pydict) (k : pykey) :
  _device_meter_data sensor data = Ok out ->
  untouched k (meter_fields ++ detail_fields) = true ->
  dict_get out k = dict_get sensor k.
Proof.
  unfold _device_meter_data. intros H Hk. bind_inv H meter Hm.
  injection H as <-. apply meter_data_copied in Hm.
  rewrite dict_get_update by (eapply copied_fresh_unique; exact Hm).
  rewrite (copied_fresh_none _ _ _ Hm Hk). reflexivity.
Qed.

Lemma modules_loop_frame (k : pykey) (items : list pyval)
      (st st' : pydict * Z) :
  key_eqb (KStr "modules") k = false ->
  for_each items st (fun st module =>
      let '(sensor, module_count) := st in
      m <- _module_data module ;;
      sensor <- store_in sensor "modules" [PInt module_count] (PDict m) ;;
      Ok (sensor, module_count + 1)) = Ok st' ->
  dict_get (fst st') k = dict_get (fst st) k.
Proof.
  intros Hk.
  apply (for_each_preserves
           (fun a b : pydict * Z => dict_get (fst b) k = dict_get (fst a) k)).
  - reflexivity.
  - intros s1 s2 s3 H12 H23. congruence.
  - intros [s1 n1] module [s2 n2] Hb. bind_inv Hb m Hm. bind_inv Hb s Hs.
    injection Hb as <- <-. simpl. eapply store_in_other; eassumption.
Qed.

Lemma device_storage_data_frame (sensor : pydict) (data : pyval)
      (out : pydict) (k : pykey) :
  _device_storage_data sensor data = Ok out ->
  untouched k ((controller_fields ++ detail_fields) ++ ["modules"]) = true ->
  dict_get out k = dict_get sensor k.
Proof.
  unfold _device_storage_data. intros H Hk.
  apply untouched_app in Hk. destruct Hk as [Hc Hm].
  apply untouched_one in Hm.
  bind_inv H has_c Hhc. bind_inv H s1 H1. bind_inv H has_m Hhm.
  assert (dict_get s1 k = dict_get sensor k) as E1.
  { destruct has_c; [| injection H1 as <-; reflexivity].
    bind_inv H1 c Hcd. bind_inv H1 controller Hctl. injection H1 as <-.
    apply controller_data_copied in Hctl.
    rewrite dict_get_update by (eapply copied_fresh_unique; exact Hctl).
    rewrite (copied_fresh_none _ _ _ Hctl Hc). reflexivity. }
  destruct has_m; [| injection H as <-; exact E1].
  bind_inv H modules Hmods. bind_inv H items Hitems. bind_inv H final Hfinal.
  injection H as <-.
  apply (modules_loop_frame k) in Hfinal; [| exact Hm].
  rewrite Hfinal. simpl. rewrite dict_get_set_other by exact Hm. exact E1.
Qed.

(** A normaliser that returns has left every key outside [written]
    as it was. *)
Lemma normaliser_frame (op : operation) (sensor : pydict) (data : pyval)
      (out : pydict) (k : pykey) :
  normaliser op sensor data = Ok out ->
  untouched k (written op) = true ->
  dict_get out k = dict_get sensor k.
Proof.
  destruct op; simpl; intros H Hk.
  - eapply copied_get_other; [eapply system_power_flow_copied |]; eassumption.
  - eapply system_meter_data_frame; [eassumption |].
    apply untouched_one. exact Hk.
  - eapply system_inverter_data_frame; eassumption.
  - eapply device_meter_data_frame; eassumption.
  - eapply device_storage_data_frame; eassumption.
  - eapply copied_get_other; [eapply device_inverter_data_copied |];
      eassumption.
Qed.

Lemma header_keys_untouched (op : operation) (k : string) :
  In k header_keys -> untouched (KStr k) (written op) = true.
Proof.
  unfold header_keys. simpl.
  intros [<- | [<- | [<- | [<- | [<- | []]]]]]; destruct op; reflexivity.
Qed.

(* ================================================================== *)
(** * The client operations *)

Lemma append_empty_r (s : string) : (s ++ "")%string = s.
Proof. induction s as [| c s IH]; simpl; [reflexivity | rewrite IH; reflexivity]. Qed.

Lemma current_data_requests (urlopen_json : string -> outcome pyval)
      (self : Fronius) (url : string)
      (fun_ : pydict -> pyval -> outcome pydict) :
  requests (_current_data urlopen_json self url fun_) = [url].
Proof.
  unfold _current_data, io_bind, _fetch_json. simpl.
  destruct (urlopen_json url); reflexivity.
Qed.

Lemma current_data_result (urlopen_json : string -> outcome pyval)
      (self : Fronius) (url : string)
      (fun_ : pydict -> pyval -> outcome pydict) :
  result (_current_data urlopen_json self url fun_) =
  (json <- urlopen_json url ;;
   sensor <- _status_data json ;;
   body <- py_getitem json "Body" ;;
   no_data <- (if negb (py_truthy body) then Ok true
               else data <- subscript json [PStr "Body"; PStr "Data"] ;;
                    Ok (negb (py_truthy data))) ;;
   if no_data then Ok sensor
   else data <- subscript json [PStr "Body"; PStr "Data"] ;;
        fun_ sensor data).
Proof.
  unfold _current_data, io_bind, _fetch_json. simpl.
  destruct (urlopen_json url); reflexivity.
Qed.

(** The URL templates, formatted. *)
Lemma format_url (self : Fronius) (op : operation) :
  match op with
  | Power_flow => format URL_POWER_FLOW [protocol self; host self]
  | System_meter => format URL_SYSTEM_METER [protocol self; host self]
  | System_inverter => format URL_SYSTEM_INVERTER [protocol self; host self]
  | Device_meter device =>
      format URL_DEVICE_METER [protocol self; host self; str_of_int device]
  | Device_storage device =>
      format URL_DEVICE_STORAGE [protocol self; host self; str_of_int device]
  | Device_inverter device =>
      format URL_DEVICE_INVERTER_COMMON
             [protocol self; host self; str_of_int device]
  end = Ok (endpoint_url self op).
Proof.
  destruct op; unfold endpoint_url;
    cbn [format URL_POWER_FLOW URL_SYSTEM_METER URL_SYSTEM_INVERTER
         URL_DEVICE_METER URL_DEVICE_STORAGE URL_DEVICE_INVERTER_COMMON
         Ascii.eqb Bool.eqb bind];
    rewrite ?append_empty_r; reflexivity.
Qed.

(** Every operation formats its URL without error and hands it, with its
    normaliser, to [_current_data]. *)
Lemma call_unfold (urlopen_json : string -> outcome pyval) (self : Fronius)
      (op : operation) :
  call urlopen_json self op =
  _current_data urlopen_json self (endpoint_url self op) (normaliser op).
Proof.
  pose proof (format_url self op) as F.
  destruct op; unfold call, normaliser,
    current_power_flow, current_system_meter_data,
    current_system_inverter_data, current_meter_data, current_storage_data,
    current_inverter_data;
  rewrite F; unfold io_bind at 1; cbn [io_lift result requests app];
  unfold _current_data, io_bind, _fetch_json; cbn [result requests];
  destruct (urlopen_json _); reflexivity.
Qed.

(** What an operation returns is the header bundle itself, or what the
    normaliser made of it and a truthy payload. *)
Lemma call_ok_inv (urlopen_json : string -> outcome pyval) (self : Fronius)
      (op : operation) (out : pydict) :
  result (call urlopen_json self op) = Ok out ->
  exists json sensor,
    urlopen_json (endpoint_url self op) = Ok json /\
    _status_data json = Ok sensor /\
    (out = sensor \/
     exists data,
       lookup_path json (keys_of ["Body"; "Data"]) = Some data /\
       py_truthy data = true /\
       normaliser op sensor data = Ok out).
Proof.
  rewrite call_unfold, current_data_result. intros H.
  bind_inv H json Hjson. bind_inv H sensor Hsensor. bind_inv H body Hbody.
  bind_inv H no_data Hno. exists json, sensor. repeat split; try assumption.
  destruct no_data.
  - left. injection H as <-. reflexivity.
  - right. bind_inv H data Hdata. exists data.
    split; [apply (subscript_str_ok [_; _]); exact Hdata |].
    split; [| exact H].
    destruct (negb (py_truthy body)); [discriminate |].
    bind_inv Hno data' Hdata'. rewrite Hdata in Hdata'.
    injection Hdata' as <-. injection Hno as Hno.
    apply negb_false_iff. exact Hno.
Qed.

(* ================================================================== *)
(** * The envelope: header fields and empty payloads *)

(** C3. For every endpoint operation and every response it returns a
    bundle for, the bundle has the entries [timestamp], [status],
    [status_code], [status_reason] and [status_message] with the values of
    the response's [Head]: [Timestamp] and the members [Code], [Reason] and
    [UserMessage] of [Status] wrapped as readings, [Status] itself as it is.
    Extraction ([_status_data]) raises exactly when one of the five places
    of [Head] is absent, the error is a structural one ([KeyError], or
    [TypeError] where a place is sought in a value that is no mapping), and
    the operation then raises it too. *)
Theorem header_fields_verbatim :
  (forall (urlopen_json : string -> outcome pyval) (self : Fronius)
          (op : operation) (out : pydict),
      result (call urlopen_json self op) = Ok out ->
      exists json ts st code reason msg,
        urlopen_json (endpoint_url self op) = Ok json /\
        lookup_path json (keys_of ["Head"; "Timestamp"]) = Some ts /\
        lookup_path json (keys_of ["Head"; "Status"]) = Some st /\
        lookup_path json (keys_of ["Head"; "Status"; "Code"]) = Some code /\
        lookup_path json (keys_of ["Head"; "Status"; "Reason"]) = Some reason /\
        lookup_path json (keys_of ["Head"; "Status"; "UserMessage"]) = Some msg /\
        dict_get out "timestamp" = Some (value_only ts) /\
        dict_get out "status" = Some st /\
        dict_get out "status_code" = Some (value_only code) /\
        dict_get out "status_reason" = Some (value_only reason) /\
        dict_get out "status_message" = Some (value_only msg)) /\
  (forall json : pyval,
      (exists e, _status_data json = Raise e) <->
      (exists path, In path header_paths /\
                    lookup_path json (keys_of path) = None)) /\
  (forall (json : pyval) (e : exn),
      _status_data json = Raise e -> structural e) /\
  (forall (urlopen_json : string -> outcome pyval) (self : Fronius)
          (op : operation) (json : pyval) (e : exn),
      urlopen_json (endpoint_url self op) = Ok json ->
      _status_data json = Raise e ->
      result (call urlopen_json self op) = Raise e).
Proof.
  split; [| split; [| split]].
  - intros urlopen_json self op out H.
    apply call_ok_inv in H. destruct H as (json & sensor & Hj & Hs & Hout).
    apply status_data_ok_inv in Hs.
    destruct Hs as (ts & st & code & reason & msg & H1 & H2 & H3 & H4 & H5 & ->).
    exists json, ts, st, code, reason, msg.
    assert (forall k, In k header_keys ->
              dict_get out (KStr k) =
              dict_get (header_bundle ts st code reason msg) (KStr k)) as F.
    { intros k Hk. destruct Hout as [-> | (data & _ & _ & Hn)]; [reflexivity |].
      eapply normaliser_frame; [exact Hn |].
      apply header_keys_untouched. exact Hk. }
    repeat split; try assumption;
      (rewrite F; [reflexivity | simpl; auto 6]).
  - apply status_data_raises_iff.
  - apply status_data_raise.
  - intros urlopen_json self op json e Hj He.
    rewrite call_unfold, current_data_result, Hj. cbn [bind].
    rewrite He. reflexivity.
Qed.

Lemma header_fields_verbatim_witness :
  result (call (fun _ => Ok sample_inverter_response) sample_client
               (Device_inverter 1)) = Ok sample_inverter_bundle /\
  dict_get sample_inverter_bundle "power_ac" = Some (value_unit (PInt 7) "W") /\
  dict_get sample_inverter_bundle "timestamp" =
    Some (value_only (PStr "2019-06-23T12:00:00+02:00")) /\
  dict_get sample_inverter_bundle "status_code" = Some (value_only (PInt 0)).
Proof.
  destruct (proj1 header_fields_verbatim
              (fun _ => Ok sample_inverter_response)
              sample_client (Device_inverter 1) sample_inverter_bundle eq_refl)
    as (json & ts & st & code & reason & msg & Hj & H1 & H2 & H3 & H4 & H5
        & K1 & K2 & K3 & K4 & K5).
  split; [reflexivity |].
  injection Hj as <-. simpl in H1, H3. injection H1 as <-. injection H3 as <-.
  split; [reflexivity |]. split; [exact K1 | exact K3].
Defined.

(** C2, amended. For every response with a well-formed [Head] whose [Body]
    member is present and falsy, or whose [Body] is a mapping with a falsy
    [Data] member (an empty object, array or string, zero, null), every
    endpoint operation returns the header-only bundle, with exactly the five
    header fields and no other key, and raises nothing.  The empty object,
    array and string, zero, false and null are falsy. *)
Theorem empty_body_header_only :
  (forall (urlopen_json : string -> outcome pyval) (self : Fronius)
          (op : operation) (json : pyval) (sensor : pydict) (body : pyval),
      urlopen_json (endpoint_url self op) = Ok json ->
      _status_data json = Ok sensor ->
      lookup_path json (keys_of ["Body"]) = Some body ->
      (py_truthy body = false \/
       exists data, lookup_path json (keys_of ["Body"; "Data"]) = Some data /\
                    py_truthy data = false) ->
      result (call urlopen_json self op) = Ok sensor /\
      map fst sensor = map KStr header_keys) /\
  py_truthy (PDict []) = false /\
  py_truthy (PList []) = false /\
  py_truthy (PStr "") = false /\
  py_truthy (PInt 0) = false /\
  py_truthy (PFloat (S754_zero false)) = false /\
  py_truthy (PBool false) = false /\
  py_truthy PNone = false.
Proof.
  split; [| repeat split; reflexivity].
  intros urlopen_json self op json sensor body Hj Hs Hb Hfalsy.
  split.
  - rewrite call_unfold, current_data_result, Hj. cbn [bind].
    rewrite Hs. cbn [bind].
    apply (subscript_str_ok [_]) in Hb. cbn [map subscript] in Hb.
    bind_inv Hb body' Hb'. injection Hb as ->. rewrite Hb'. cbn [bind].
    destruct (py_truthy body) eqn:T; cbn [negb bind]; [| reflexivity].
    destruct Hfalsy as [F | (data & Hd & F)]; [discriminate |].
    apply (subscript_str_ok [_; _]) in Hd. cbn [map] in Hd.
    rewrite Hd. cbn [bind]. rewrite F. reflexivity.
  - apply status_data_ok_inv in Hs.
    destruct Hs as (ts & st & code & reason & msg & _ & _ & _ & _ & _ & ->).
    reflexivity.
Qed.

Lemma empty_body_header_only_witness :
  result (call (fun _ => Ok empty_data_response) sample_client System_meter)
    = Ok sample_header /\
  map fst sample_header = map KStr header_keys.
Proof.
  apply (proj1 empty_body_header_only
           (fun _ => Ok empty_data_response) sample_client System_meter
           empty_data_response sample_header
           (PDict [(KStr "Data", PDict [])])).
  - reflexivity.
  - reflexivity.
  - reflexivity.
  - right. exists (PDict []). split; reflexivity.
Defined.

(** A response with a well-formed [Head] and no [Body] member: the
    operation raises [KeyError] instead of returning the header-only
    bundle. *)
Lemma absent_body_raises :
  lookup_path (sample_response []) (keys_of ["Body"]) = None /\
  (exists sensor, _status_data (sample_response []) = Ok sensor) /\
  result (call (fun _ => Ok (sample_response [])) sample_client Power_flow)
    = Raise KeyError.
Proof.
  split; [reflexivity |]. split; [eexists; reflexivity | reflexivity].
Qed.

(* ================================================================== *)
(** * URLs *)

Lemma prefix_app (s q : string) : String.prefix s (s ++ q) = true.
Proof.
  induction s as [| c s IH]; simpl; [destruct q; reflexivity |].
  destruct (ascii_dec c c) as [_ | N]; [exact IH | contradiction N; reflexivity].
Qed.

Lemma occurs_in_prefix (s t : string) :
  String.prefix s t = true -> occurs_in s t = true.
Proof. intros H. destruct t; cbn [occurs_in]; rewrite H; reflexivity. Qed.

Lemma occurs_in_app (p s q : string) : occurs_in s (p ++ s ++ q) = true.
Proof.
  induction p as [| c p IH].
  - change ("" ++ s ++ q)%string with (s ++ q)%string.
    apply occurs_in_prefix, prefix_app.
  - change (String c p ++ s ++ q)%string with (String c (p ++ s ++ q)).
    cbn [occurs_in]. rewrite IH. apply orb_true_r.
Qed.

Lemma append_assoc (a b c : string) :
  ((a ++ b) ++ c)%string = (a ++ (b ++ c))%string.
Proof. induction a as [| x a IH]; simpl; [reflexivity | rewrite IH; reflexivity]. Qed.

(** C10. For every host and device id, [current_meter_data(device)]
    requests exactly one URL, the device-meter template with scheme, host
    and device id put in; with device 2 the URL contains
    [Scope=Device&DeviceId=2]; the scheme is [https] for a client made with
    the secure-transport flag and [http] otherwise. *)
Theorem current_meter_data_url :
  forall (urlopen_json : string -> outcome pyval) (h : string)
         (useHTTPS : bool) (t : Z) (device : Z),
    let self := __init__ h useHTTPS t in
    let url := ((if useHTTPS then "https" else "http") ++ "://" ++ h ++
                "/solar_api/v1/GetMeterRealtimeData.cgi?Scope=Device&DeviceId="
                ++ str_of_int device)%string in
    format URL_DEVICE_METER [protocol self; host self; str_of_int device]
      = Ok url /\
    requests (current_meter_data urlopen_json self device) = [url] /\
    current_meter_data urlopen_json self device =
      _current_data urlopen_json self url _device_meter_data /\
    (exists url2,
        requests (current_meter_data urlopen_json self 2) = [url2] /\
        occurs_in "Scope=Device&DeviceId=2" url2 = true) /\
    protocol (__init__ h true t) = "https" /\
    protocol (__init__ h false t) = "http".
Proof.
  intros urlopen_json h useHTTPS t device self url.
  assert (forall d, current_meter_data urlopen_json self d =
            _current_data urlopen_json self
              (endpoint_url self (Device_meter d)) _device_meter_data) as U.
  { intros d. apply (call_unfold urlopen_json self (Device_meter d)). }
  split; [exact (format_url self (Device_meter device)) |].
  split; [rewrite U; apply current_data_requests |].
  split; [apply U |].
  split; [| split; reflexivity].
  eexists. split; [rewrite U; apply current_data_requests |].
  unfold endpoint_url.
  change (str_of_int 2) with "2".
  change "/solar_api/v1/GetMeterRealtimeData.cgi?Scope=Device&DeviceId="
    with ("/solar_api/v1/GetMeterRealtimeData.cgi?" ++
          "Scope=Device&DeviceId=")%string.
  rewrite (append_assoc "/solar_api/v1/GetMeterRealtimeData.cgi?").
  change ("Scope=Device&DeviceId=" ++ "2")%string
    with ("Scope=Device&DeviceId=2" ++ "")%string.
  change (protocol self ++ "://" ++ host self ++
          "/solar_api/v1/GetMeterRealtimeData.cgi?" ++
          "Scope=Device&DeviceId=2" ++ "")%string
    with (protocol self ++ ("://" ++ (host self ++
          ("/solar_api/v1/GetMeterRealtimeData.cgi?" ++
          ("Scope=Device&DeviceId=2" ++ "")))))%string.
  rewrite <- !append_assoc. rewrite append_assoc.
  apply occurs_in_app.
Qed.

(* ================================================================== *)
(** * Power flow *)

(** C6. The power-flow normaliser reads the [Inverters] mapping at key
    ["1"] only: a payload whose [Inverters] mapping has no key ["1"] makes it
    raise [KeyError], and two payloads with the same [Site] whose
    [Inverters] mappings agree at key ["1"] give the same outcome, whatever
    their other inverter entries are. *)
Theorem power_flow_reads_inverter_1 :
  forall (sensor d : pydict) (invs : pydict),
    dict_get d "Inverters" = Some (PDict invs) ->
    (dict_get invs "1" = None ->
     _system_power_flow sensor (PDict d) = Raise KeyError) /\
    (forall d' invs' : pydict,
        dict_get d' "Site" = dict_get d "Site" ->
        dict_get d' "Inverters" = Some (PDict invs') ->
        dict_get invs' "1" = dict_get invs "1" ->
        _system_power_flow sensor (PDict d') =
        _system_power_flow sensor (PDict d)).
Proof.
  intros sensor d invs Hinv. split.
  - intros H1. unfold _system_power_flow.
    cbn [py_getitem subscript key_of bind].
    destruct (dict_get d "Site"); [| reflexivity]. cbn [bind].
    rewrite Hinv. cbn [py_getitem subscript key_of bind].
    rewrite H1. reflexivity.
  - intros d' invs' Hsite Hinv' H1. unfold _system_power_flow.
    cbn [py_getitem subscript key_of bind].
    rewrite Hsite, Hinv, Hinv'. cbn [py_getitem subscript key_of bind].
    rewrite H1. reflexivity.
Qed.

Lemma power_flow_reads_inverter_1_witness :
  _system_power_flow sample_header (PDict power_flow_inverter_2)
    = Raise KeyError /\
  _system_power_flow sample_header (PDict (power_flow_two_inverters 10)) =
  _system_power_flow sample_header (PDict (power_flow_two_inverters 90)).
Proof.
  split.
  - apply (proj1 (power_flow_reads_inverter_1 sample_header
                    power_flow_inverter_2
                    [(KStr "2", PDict [(KStr "SOC", PInt 80)])] eq_refl)).
    reflexivity.
  - apply (proj2 (power_flow_reads_inverter_1 sample_header
                    (power_flow_two_inverters 90) _ eq_refl)
             (power_flow_two_inverters 10) _ eq_refl eq_refl eq_refl).
Defined.

(* ================================================================== *)
(** * Meters *)

Lemma key_of_val_of_key (k : pykey) : key_of (val_of_key k) = Ok k.
Proof. destruct k; reflexivity. Qed.

(** [target[k][i] = v] when [target[k]] holds a dictionary. *)
Lemma store_in_item (target : pydict) (k : string) (inner : pydict)
      (i : pykey) (v : pyval) :
  dict_get target k = Some (PDict inner) ->
  store_in target k [val_of_key i] v =
  Ok (dict_set target k (PDict (dict_set inner i v))).
Proof.
  unfold store_in. intros ->. cbn [store_path py_setitem].
  rewrite key_of_val_of_key. reflexivity.
Qed.

Lemma dict_get_some_key (d : pydict) (k : pykey) (v : pyval) :
  dict_get d k = Some v ->
  existsb (fun k0 => key_eqb k0 k) (map fst d) = true.
Proof.
  induction d as [| [k0 v0] rest IH]; simpl; [discriminate |].
  destruct (key_eqb k0 k); [reflexivity | exact IH].
Qed.

Lemma dict_get_no_key (d : pydict) (k : pykey) :
  existsb (fun k0 => key_eqb k0 k) (map fst d) = false ->
  dict_get d k = None.
Proof.
  induction d as [| [k0 v0] rest IH]; simpl; [reflexivity |].
  destruct (key_eqb k0 k); [discriminate | exact IH].
Qed.

Lemma dict_get_no_key_inv (d : pydict) (k : pykey) :
  dict_get d k = None ->
  existsb (fun k0 => key_eqb k0 k) (map fst d) = false.
Proof.
  induction d as [| [k0 v0] rest IH]; simpl; [reflexivity |].
  destruct (key_eqb k0 k); [discriminate | exact IH].
Qed.

Lemma dict_get_in_values (d : pydict) (k : pykey) (v : pyval) :
  dict_get d k = Some v -> In v (map snd d).
Proof.
  induction d as [| [k0 v0] rest IH]; simpl; [discriminate |].
  destruct (key_eqb k0 k).
  - intros [= <-]. left. reflexivity.
  - intros H. right. apply IH. exact H.
Qed.

(** The loop of [_system_meter_data] over the keys [ks] of the payload. *)
Lemma meters_loop (d : pydict) (ks : list pykey) :
  forall (s s' ms : pydict),
    dict_get s "meters" = Some (PDict ms) ->
    for_each (map val_of_key ks) s (fun sensor i =>
      payload <- py_getitem (PDict d) i ;;
      meter <- _meter_data payload ;;
      store_in sensor "meters" [i] (PDict meter)) = Ok s' ->
    exists ms',
      dict_get s' "meters" = Some (PDict ms') /\
      (forall k, existsb (fun k0 => key_eqb k0 k) ks = true ->
         exists payload meter,
           dict_get d k = Some payload /\
           _meter_data payload = Ok meter /\
           dict_get ms' k = Some (PDict meter)) /\
      (forall k, existsb (fun k0 => key_eqb k0 k) ks = false ->
         dict_get ms' k = dict_get ms k).
Proof.
  induction ks as [| k0 rest IH]; intros s s' ms Hms H; simpl in H.
  - injection H as <-. exists ms. split; [exact Hms |].
    split; [discriminate | reflexivity].
  - bind_inv H s1 Hbody. bind_inv Hbody payload Hp. bind_inv Hbody meter Hm.
    cbn [py_getitem] in Hp. rewrite key_of_val_of_key in Hp. cbn [bind] in Hp.
    destruct (dict_get d k0) as [p0|] eqn:Hd; [| discriminate].
    injection Hp as ->.
    rewrite (store_in_item _ "meters" ms) in Hbody by exact Hms.
    injection Hbody as <-.
    destruct (IH _ _ (dict_set ms k0 (PDict meter))
                 (dict_get_set_same _ "meters" _) H)
      as (ms' & Hms' & Hin & Hout).
    exists ms'. split; [exact Hms' |]. split.
    + intros k Hk. simpl in Hk.
      destruct (existsb (fun k1 => key_eqb k1 k) rest) eqn:Hrest.
      * apply Hin. exact Hrest.
      * rewrite orb_false_r in Hk. exists payload, meter.
        split; [rewrite <- (dict_get_congr d k0 k Hk); exact Hd |].
        split; [exact Hm |].
        rewrite (Hout k Hrest), dict_get_set, Hk. reflexivity.
    + intros k Hk. simpl in Hk. apply orb_false_iff in Hk.
      destruct Hk as [Hk0 Hrest].
      rewrite (Hout k Hrest). apply dict_get_set_other. exact Hk0.
Qed.


(** The loop of [_system_meter_data] returns when every entry is a
    meter. *)
Lemma meters_loop_total (d : pydict) (ks : list pykey) :
  (forall k, In k ks ->
     exists payload, dict_get d k = Some payload /\
                     entity_shape payload = true) ->
  forall (s ms : pydict),
    dict_get s "meters" = Some (PDict ms) ->
    exists s',
      for_each (map val_of_key ks) s (fun sensor i =>
        payload <- py_getitem (PDict d) i ;;
        meter <- _meter_data payload ;;
        store_in sensor "meters" [i] (PDict meter)) = Ok s'.
Proof.
  induction ks as [| k0 rest IH]; intros Hks s ms Hms; cbn [map for_each].
  - eexists. reflexivity.
  - destruct (Hks k0 (or_introl eq_refl)) as (payload & Hp & Hshape).
    destruct (meter_data_total payload Hshape) as [meter Hm].
    cbn [py_getitem]. rewrite key_of_val_of_key. cbn [bind].
    rewrite Hp. cbn [bind]. rewrite Hm. cbn [bind].
    rewrite (store_in_item _ "meters" ms) by exact Hms. cbn [bind].
    apply (IH (fun k Hk => Hks k (or_intror Hk)) _
              (dict_set ms k0 (PDict meter))).
    apply dict_get_set_same.
Qed.

Lemma system_meter_data_total (sensor d : pydict) :
  meters_shape d = true ->
  exists out, _system_meter_data sensor (PDict d) = Ok out.
Proof.
  unfold meters_shape, string_keys. intros H.
  apply andb_true_iff in H. destruct H as [Hkeys Hvals].
  unfold _system_meter_data. cbn [py_iter bind]. rewrite <- map_map.
  apply (meters_loop_total d (map fst d)) with (ms := []).
  - intros k Hk. apply in_map_iff in Hk. destruct Hk as ([k' v] & <- & Hin).
    rewrite forallb_forall in Hkeys. specialize (Hkeys _ Hin).
    simpl in Hkeys. simpl. destruct k' as [| | | | id]; try discriminate Hkeys.
    assert (existsb (fun k0 => key_eqb k0 (KStr id)) (map fst d) = true) as E.
    { apply existsb_exists. exists (KStr id).
      split; [apply in_map_iff; exists (KStr id, v); auto
             | apply key_eqb_str_refl]. }
    destruct (dict_get d (KStr id)) as [payload|] eqn:G.
    + exists payload. split; [reflexivity |].
      rewrite forallb_forall in Hvals.
      pose proof (dict_get_in_values d _ _ G) as Hv.
      apply in_map_iff in Hv. destruct Hv as (kv & <- & Hkv).
      apply Hvals. exact Hkv.
    + rewrite (dict_get_no_key_inv d (KStr id) G) in E. discriminate E.
  - apply dict_get_set_same.
Qed.



(* ================================================================== *)
(** * Storage *)

(** The loop of [_device_storage_data] over the modules, counting from
    [n]. *)
Lemma modules_loop (items : list pyval) :
  forall (s : pydict) (n : Z) (st' : pydict * Z) (ms : pydict),
    dict_get s "modules" = Some (PDict ms) ->
    for_each items (s, n) (fun st module =>
      let '(sensor, module_count) := st in
      m <- _module_data module ;;
      sensor <- store_in sensor "modules" [PInt module_count] (PDict m) ;;
      Ok (sensor, module_count + 1)) = Ok st' ->
    exists ms',
      dict_get (fst st') "modules" = Some (PDict ms') /\
      (forall (j : nat) (module : pyval),
          nth_error items j = Some module ->
          exists r, _module_data module = Ok r /\
                    dict_get ms' (KInt (n + Z.of_nat j)) = Some (PDict r)) /\
      (forall k : pykey,
          (forall j : nat, (j < List.length items)%nat ->
                           key_eqb (KInt (n + Z.of_nat j)) k = false) ->
          dict_get ms' k = dict_get ms k).
Proof.
  induction items as [| m0 rest IH]; intros s n st' ms Hms H; simpl in H.
  - injection H as <-. exists ms. split; [exact Hms |]. split.
    + intros [| j] module Hj; discriminate Hj.
    + reflexivity.
  - bind_inv H st1 Hbody. bind_inv Hbody r0 Hr0. bind_inv Hbody s1 Hs1.
    injection Hbody as <-.
    rewrite (store_in_item _ "modules" ms (KInt n)) in Hs1 by exact Hms.
    injection Hs1 as <-.
    destruct (IH _ (n + 1) st' (dict_set ms (KInt n) (PDict r0))
                 (dict_get_set_same _ "modules" _) H)
      as (ms' & Hms' & Hin & Hout).
    exists ms'. split; [exact Hms' |]. split.
    + intros [| j] module Hj; simpl in Hj.
      * injection Hj as <-. exists r0. split; [exact Hr0 |].
        rewrite Hout.
        -- rewrite dict_get_set, key_eqb_int.
           replace (n + Z.of_nat 0) with n by lia.
           rewrite Z.eqb_refl. reflexivity.
        -- intros j Hj. rewrite key_eqb_int. apply Z.eqb_neq. lia.
      * destruct (Hin j module Hj) as (r & Hr & Hget).
        exists r. split; [exact Hr |].
        replace (n + Z.of_nat (S j)) with (n + 1 + Z.of_nat j) by lia.
        exact Hget.
    + intros k Hk. rewrite Hout.
      * apply dict_get_set_other.
        replace n with (n + Z.of_nat 0) by lia. apply Hk. simpl. lia.
      * intros j Hj.
        replace (n + 1 + Z.of_nat j) with (n + Z.of_nat (S j)) by lia.
        apply Hk. simpl. lia.
Qed.

Lemma modules_loop_total (items : list pyval) :
  forallb entity_shape items = true ->
  forall (s : pydict) (n : Z) (ms : pydict),
    dict_get s "modules" = Some (PDict ms) ->
    exists st',
      for_each items (s, n) (fun st module =>
        let '(sensor, module_count) := st in
        m <- _module_data module ;;
        sensor <- store_in sensor "modules" [PInt module_count] (PDict m) ;;
        Ok (sensor, module_count + 1)) = Ok st'.
Proof.
  induction items as [| m0 rest IH]; intros Hall s n ms Hms; cbn [for_each].
  - eexists. reflexivity.
  - cbn [forallb] in Hall. apply andb_true_iff in Hall.
    destruct Hall as [H0 Hrest].
    destruct (module_data_total m0 H0) as [r Hr].
    rewrite Hr. cbn [bind].
    rewrite (store_in_item _ "modules" ms (KInt n)) by exact Hms. cbn [bind].
    apply (IH Hrest _ (n + 1) (dict_set ms (KInt n) (PDict r))).
    apply dict_get_set_same.
Qed.

Lemma device_storage_data_total (sensor d : pydict) :
  storage_shape d = true ->
  exists out, _device_storage_data sensor (PDict d) = Ok out.
Proof.
  unfold storage_shape. intros H. apply andb_true_iff in H.
  destruct H as [Hc Hm].
  unfold _device_storage_data. cbn [py_in bind]. rewrite !dict_mem_get.
  assert (exists s1,
            (if match dict_get d "Controller" with
                | Some _ => true | None => false end
             then c <- py_getitem (PDict d) "Controller" ;;
                  controller <- _controller_data c ;;
                  Ok (dict_update sensor controller)
             else Ok sensor) = Ok s1) as [s1 ->].
  { destruct (dict_get d "Controller") as [c|] eqn:E;
      [| eexists; reflexivity].
    destruct (controller_data_total c Hc) as [controller Hctl].
    rewrite getitem_str, E. cbn [bind]. rewrite Hctl. eexists. reflexivity. }
  cbn [bind].
  destruct (dict_get d "Modules") as [[| | | | | l |]|] eqn:E;
    try discriminate Hm; [| eexists; reflexivity].
  rewrite getitem_str, E. cbn [bind py_iter].
  destruct (modules_loop_total l Hm
              (dict_set s1 "modules" (PDict [])) 0 []
              (dict_get_set_same _ "modules" _)) as [st' Hst].
  rewrite Hst. eexists. reflexivity.
Qed.

(** The controller and the modules in a bundle the normaliser returned:
    the fields of the normalised controller are keys of the bundle, and
    [modules] holds the normalised modules under their positions. *)
Lemma device_storage_data_parts (sensor d out : pydict) :
  _device_storage_data sensor (PDict d) = Ok out ->
  (forall c : pyval,
      dict_get d "Controller" = Some c ->
      exists controller,
        _controller_data c = Ok controller /\
        (forall k v, dict_get controller k = Some v ->
                     dict_get out k = Some v)) /\
  (forall l : list pyval,
      dict_get d "Modules" = Some (PList l) ->
      exists modules,
        dict_get out "modules" = Some (PDict modules) /\
        (forall (j : nat) (module : pyval),
            nth_error l j = Some module ->
            exists r, _module_data module = Ok r /\
                      dict_get modules (KInt (Z.of_nat j))
                        = Some (PDict r)) /\
        (forall k : pykey,
            dict_mem modules k = true ->
            exists j : nat, (j < List.length l)%nat /\
                            key_eqb (KInt (Z.of_nat j)) k = true)).
Proof.
  intros H. unfold _device_storage_data in H.
  cbn [py_in bind] in H. bind_inv H s1 H1.
  rewrite !dict_mem_get in *.
  assert (forall c, dict_get d "Controller" = Some c ->
            exists controller,
              _controller_data c = Ok controller /\
              dict_get controller "modules" = None /\
              forall k v, dict_get controller k = Some v ->
                          dict_get s1 k = Some v) as HC.
  { intros c Hc. rewrite Hc in H1. cbn [py_getitem key_of bind] in H1.
    rewrite Hc in H1. cbn [bind] in H1.
    bind_inv H1 controller Hctl. injection H1 as <-.
    exists controller. split; [exact Hctl |].
    apply controller_data_copied in Hctl.
    split; [apply (copied_fresh_none _ _ _ Hctl); reflexivity |].
    intros k v Hk.
    rewrite dict_get_update by (eapply copied_fresh_unique; exact Hctl).
    rewrite Hk. reflexivity. }
  assert (forall k, key_eqb (KStr "modules") k = false ->
                    dict_get out k = dict_get s1 k) as HF.
  { intros k Hk. destruct (dict_get d "Modules") as [mods|];
      cbn [py_getitem key_of bind] in H;
      [| injection H as <-; reflexivity].
    bind_inv H modules Hmods. bind_inv H items Hitems. bind_inv H final Hfin.
    injection H as <-.
    rewrite (modules_loop_frame k _ _ _ Hk Hfin). simpl.
    apply dict_get_set_other. exact Hk. }
  split.
  - intros c Hc. destruct (HC c Hc) as (controller & Hctl & Hnone & Hk).
    exists controller. split; [exact Hctl |].
    intros k v Hkv. rewrite HF; [apply Hk; exact Hkv |].
    destruct (key_eqb (KStr "modules") k) eqn:E; [| reflexivity].
    rewrite (dict_get_congr controller _ _ E) in Hnone. congruence.
  - intros l Hl. rewrite Hl in H. cbn [py_getitem key_of bind] in H.
    rewrite Hl in H. cbn [py_iter bind] in H. bind_inv H final Hfin.
    injection H as <-.
    destruct (modules_loop l _ 0 final [] (dict_get_set_same _ "modules" _) Hfin)
      as (modules & Hm & Hin & Hout).
    exists modules. split; [exact Hm |]. split.
    + intros j module Hj. apply (Hin j module Hj).
    + intros k Hk.
      destruct (existsb (fun j => key_eqb (KInt (Z.of_nat j)) k)
                        (seq 0 (List.length l))) eqn:E.
      * apply existsb_exists in E. destruct E as (j & Hj & Hjk).
        apply in_seq in Hj. exists j. split; [lia | exact Hjk].
      * unfold dict_mem in Hk. rewrite Hout in Hk; [discriminate Hk |].
        intros j Hj. simpl.
        destruct (key_eqb (KInt (Z.of_nat j)) k) eqn:Ej; [| reflexivity].
        assert (existsb (fun j => key_eqb (KInt (Z.of_nat j)) k)
                        (seq 0 (List.length l)) = true) as T.
        { apply existsb_exists. exists j. split; [apply in_seq; lia | exact Ej]. }
        congruence.
Qed.

(* ================================================================== *)
(** * System inverter data *)

Lemma bind_cong {A B : Type} (c : outcome A) (f g : A -> outcome B) :
  (forall a, f a = g a) -> bind c f = bind c g.
Proof. intros H. destruct c; simpl; [apply H | reflexivity]. Qed.

(** The normaliser is the initialisation followed by the four loops. *)
Lemma system_inverter_data_loops (sensor : pydict) (data : pyval) :
  _system_inverter_data sensor data =
  (s1 <- series_loop data "DAY_ENERGY" "DAY_ENERGY" "energy_day" true
                     (inverter_init sensor) ;;
   s2 <- series_loop data "TOTAL_ENERGY" "TOTAL_ENERGY" "energy_total" false s1 ;;
   s3 <- series_loop data "YEAR_ENERGY" "TOTAL_ENERGY" "energy_year" false s2 ;;
   s4 <- series_loop data "PAC" "TOTAL_ENERGY" "power_ac" false s3 ;;
   Ok s4).
Proof.
  unfold _system_inverter_data, series_loop, inverter_init.
  repeat (rewrite bind_assoc; apply bind_cong; intros ?; apply bind_cong;
          intros ?).
  reflexivity.
Qed.

Lemma system_inverter_data_ok_inv (sensor : pydict) (data : pyval)
      (out : pydict) :
  _system_inverter_data sensor data = Ok out ->
  exists s1 s2 s3,
    series_loop data "DAY_ENERGY" "DAY_ENERGY" "energy_day" true
                (inverter_init sensor) = Ok s1 /\
    series_loop data "TOTAL_ENERGY" "TOTAL_ENERGY" "energy_total" false s1
      = Ok s2 /\
    series_loop data "YEAR_ENERGY" "TOTAL_ENERGY" "energy_year" false s2
      = Ok s3 /\
    series_loop data "PAC" "TOTAL_ENERGY" "power_ac" false s3 = Ok out.
Proof.
  rewrite system_inverter_data_loops. intros H.
  bind_inv H s1 H1. bind_inv H s2 H2. bind_inv H s3 H3. bind_inv H s4 H4.
  injection H as <-. exists s1, s2, s3. auto.
Qed.

(** One iteration that returned, written out. *)
Lemma series_body_inv (data : pyval) (series us field : string)
      (reset : bool) (s : pydict) (id : string) (s' : pydict) :
  key_eqb (KStr "inverters") (KStr field) = false ->
  series_body data series us field reset s (PStr id) = Ok s' ->
  exists invs entry v u agg old new,
    dict_get s "inverters" = Some (PDict invs) /\
    (if reset then entry = [] else dict_get invs id = Some (PDict entry)) /\
    subscript data [PStr series; PStr "Values"; PStr id] = Ok v /\
    subscript data [PStr us; PStr "Unit"] = Ok u /\
    dict_get s field = Some (PDict agg) /\
    dict_get agg "value" = Some old /\
    py_iadd old v = Ok new /\
    s' = dict_set
           (dict_set s "inverters"
              (PDict (dict_set invs id
                        (PDict (dict_set entry field (value_unit v u))))))
           field (PDict (dict_set agg "value" new)).
Proof.
  intros Hf H. unfold series_body in H.
  bind_inv H s1 H1. bind_inv H v Hv. bind_inv H u Hu. bind_inv H s2 H2.
  apply store_in_inv in H2. destruct H2 as (inner & inner' & Hi & Hst & ->).
  cbn [store_path] in Hst. bind_inv Hst e He. bind_inv Hst e' He'.
  rewrite getitem_str in He.
  destruct inner as [| | | | | | invs1]; try discriminate He.
  destruct (dict_get invs1 id) as [e0|] eqn:Hid; [| discriminate He].
  injection He as ->.
  destruct e as [| | | | | | entry]; try discriminate He'.
  cbn [py_setitem key_of bind] in He', Hst.
  injection He' as <-. injection Hst as <-.
  apply add_in_inv in H.
  destruct H as (a & old & v' & new & a' & Ha & Hold & Hv' & Hnew & Hset & ->).
  rewrite Hv in Hv'. injection Hv' as <-.
  rewrite dict_get_set_other in Ha by exact Hf.
  rewrite getitem_str in Hold.
  destruct a as [| | | | | | agg]; try discriminate Hold.
  destruct (dict_get agg "value") as [o|] eqn:Hagg; [| discriminate Hold].
  injection Hold as ->. cbn [py_setitem key_of bind] in Hset.
  injection Hset as <-.
  destruct reset.
  - apply store_in_inv in H1. destruct H1 as (i0 & i0' & Hi0 & Hst0 & ->).
    cbn [store_path] in Hst0.
    destruct i0 as [| | | | | | invs]; try discriminate Hst0.
    cbn [py_setitem key_of bind] in Hst0. injection Hst0 as <-.
    rewrite dict_get_set_same in Hi. injection Hi as <-.
    rewrite dict_get_set_same in Hid. injection Hid as <-.
    rewrite dict_get_set_other in Ha by exact Hf.
    exists invs, [], v, u, agg, old, new.
    repeat split; try assumption.
    rewrite (dict_set_set s) by apply key_eqb_str_refl.
    rewrite (dict_set_set invs) by apply key_eqb_str_refl.
    reflexivity.
  - injection H1 as <-.
    exists invs1, entry, v, u, agg, old, new.
    repeat split; assumption.
Qed.

Lemma entry_of_body (s invs : pydict) (id0 id field : string)
      (e agg : pyval) :
  key_eqb (KStr "inverters") (KStr field) = false ->
  dict_get s "inverters" = Some (PDict invs) ->
  entry_of (dict_set (dict_set s "inverters"
                        (PDict (dict_set invs id0 e))) field agg) id =
  if String.eqb id0 id then Some e else entry_of s id.
Proof.
  intros Hf Hinv. unfold entry_of. cbn [lookup_path].
  rewrite (dict_get_set_other _ field) by (rewrite key_eqb_sym; exact Hf).
  rewrite dict_get_set_same, dict_get_set, key_eqb_str, Hinv.
  destruct (String.eqb id0 id); reflexivity.
Qed.

Lemma entry_of_inverters (s invs : pydict) (id : string) :
  dict_get s "inverters" = Some (PDict invs) ->
  entry_of s id = dict_get invs id.
Proof.
  intros H. unfold entry_of. cbn [lookup_path]. rewrite H.
  destruct (dict_get invs id); reflexivity.
Qed.

(** The sub-bundles after a loop over the ids [ids]. *)
Lemma series_ids_entries (data : pyval) (series us field : string)
      (reset : bool) :
  key_eqb (KStr "inverters") (KStr field) = false ->
  forall (ids : list string) (s s' : pydict),
    for_each (map PStr ids) s (series_body data series us field reset)
      = Ok s' ->
    forall id : string,
      if in_ids id ids then
        exists v u entry,
          subscript data [PStr series; PStr "Values"; PStr id] = Ok v /\
          subscript data [PStr us; PStr "Unit"] = Ok u /\
          entry_of s' id
            = Some (PDict (dict_set entry field (value_unit v u))) /\
          (if reset then entry = []
           else entry_of s id = Some (PDict entry))
      else entry_of s' id = entry_of s id.
Proof.
  intros Hf. induction ids as [| id0 rest IH]; intros s s' H id.
  - simpl in H. injection H as <-. reflexivity.
  - cbn [map for_each] in H. bind_inv H s1 Hb.
    apply series_body_inv in Hb; [| exact Hf].
    destruct Hb as (invs & entry0 & v0 & u0 & agg & old & new
                    & Hinv & Hentry & Hv0 & Hu0 & Hagg & Hold & Hnew & ->).
    specialize (IH _ _ H id).
    rewrite (entry_of_body s invs id0 id field _ _ Hf Hinv) in IH.
    unfold in_ids in *. cbn [existsb].
    rewrite (String.eqb_sym id id0).
    destruct (existsb (String.eqb id) rest) eqn:Hrest.
    + rewrite orb_true_r.
      destruct IH as (v & u & entry & Hv & Hu & He & Hprev).
      destruct reset.
      * exists v, u, entry. auto.
      * destruct (String.eqb id0 id) eqn:E.
        -- apply String.eqb_eq in E. subst id0.
           injection Hprev as <-.
           rewrite Hv in Hv0. injection Hv0 as <-.
           rewrite Hu in Hu0. injection Hu0 as <-.
           exists v, u, entry0.
           rewrite dict_set_set in He by apply key_eqb_str_refl.
           repeat split; try assumption.
           rewrite (entry_of_inverters s invs id Hinv). exact Hentry.
        -- exists v, u, entry. auto.
    + rewrite orb_false_r.
      destruct (String.eqb id0 id) eqn:E; [| exact IH].
      apply String.eqb_eq in E. subst id0.
      exists v0, u0, entry0. repeat split; try assumption.
      destruct reset; [exact Hentry |].
      rewrite (entry_of_inverters s invs id Hinv). exact Hentry.
Qed.

Lemma py_add_number (a v new : pyval) :
  is_number a = true -> py_add a v = Ok new -> is_number new = true.
Proof.
  destruct a; try discriminate; intros _; destruct v; simpl; intros H;
    try discriminate H;
    try (injection H as <-; reflexivity);
    try (bind_inv H y Hy; injection H as <-; reflexivity).
Qed.

Lemma py_iadd_number (a v : pyval) :
  is_number a = true -> py_iadd a v = py_add a v.
Proof. destruct a; try discriminate; reflexivity. Qed.

(** The aggregate after a loop over the ids [ids]. *)
Lemma series_ids_sum (data : pyval) (series us field : string)
      (reset : bool) :
  key_eqb (KStr "inverters") (KStr field) = false ->
  forall (ids : list string) (s s' : pydict) (old : pyval),
    for_each (map PStr ids) s (series_body data series us field reset)
      = Ok s' ->
    lookup_path (PDict s) [KStr field; KStr "value"] = Some old ->
    is_number old = true ->
    exists vals new,
      Forall2 (fun id v =>
                 subscript data [PStr series; PStr "Values"; PStr id] = Ok v)
              ids vals /\
      py_sum_from old vals = Ok new /\
      is_number new = true /\
      lookup_path (PDict s') [KStr field; KStr "value"] = Some new.
Proof.
  intros Hf. induction ids as [| id0 rest IH]; intros s s' old H Hold Hnum.
  - simpl in H. injection H as <-. exists [], old. simpl. auto.
  - cbn [map for_each] in H. bind_inv H s1 Hb.
    apply series_body_inv in Hb; [| exact Hf].
    destruct Hb as (invs & entry0 & v0 & u0 & agg & old0 & new0
                    & Hinv & Hentry & Hv0 & Hu0 & Hagg & Hold0 & Hnew0 & ->).
    cbn [lookup_path] in Hold. rewrite Hagg, Hold0 in Hold.
    injection Hold as ->.
    rewrite py_iadd_number in Hnew0 by exact Hnum.
    destruct (IH _ _ new0 H) as (vals & new & HF & Hsum & Hn & Hlook).
    + cbn [lookup_path]. rewrite !dict_get_set_same. reflexivity.
    + eapply py_add_number; eassumption.
    + exists (v0 :: vals), new. split; [constructor; assumption |].
      split; [| auto]. cbn [py_sum_from]. rewrite Hnew0. exact Hsum.
Qed.

(** What a loop leaves as it was: the top-level keys other than
    [inverters] and its aggregate, the aggregate's members other than
    [value], and, when it creates no sub-bundle, the other fields of every
    inverter. *)
Lemma series_ids_frame (data : pyval) (series us field : string)
      (reset : bool) (items : list pyval) (s s' : pydict) :
  key_eqb (KStr "inverters") (KStr field) = false ->
  for_each items s (series_body data series us field reset) = Ok s' ->
  forall k : pykey,
    key_eqb (KStr "inverters") k = false ->
    key_eqb (KStr field) k = false ->
    dict_get s' k = dict_get s k.
Proof.
  intros Hf H k Hk1 Hk2.
  exact (inverter_series_frame data k series us field field reset items s s'
           Hk1 Hk2 H).
Qed.

Lemma series_ids_unit (data : pyval) (series us field : string)
      (reset : bool) :
  key_eqb (KStr "inverters") (KStr field) = false ->
  forall (ids : list string) (s s' : pydict),
    for_each (map PStr ids) s (series_body data series us field reset)
      = Ok s' ->
    lookup_path (PDict s') [KStr field; KStr "unit"] =
    lookup_path (PDict s) [KStr field; KStr "unit"].
Proof.
  intros Hf. induction ids as [| id0 rest IH]; intros s s' H.
  - simpl in H. injection H as <-. reflexivity.
  - cbn [map for_each] in H. bind_inv H s1 Hb.
    apply series_body_inv in Hb; [| exact Hf].
    destruct Hb as (invs & entry0 & v0 & u0 & agg & old0 & new0
                    & Hinv & Hentry & Hv0 & Hu0 & Hagg & Hold0 & Hnew0 & ->).
    rewrite (IH _ _ H). cbn [lookup_path].
    rewrite dict_get_set_same, Hagg.
    rewrite dict_get_set_other by reflexivity. reflexivity.
Qed.

Lemma reading_of_entry (s : pydict) (id f : string) :
  reading_of s id f =
  match entry_of s id with
  | Some x => lookup_path x [KStr f]
  | None => None
  end.
Proof.
  unfold reading_of, entry_of. cbn [lookup_path].
  destruct (dict_get s "inverters") as [[| | | | | | invs]|]; try reflexivity.
  destruct (dict_get invs id); reflexivity.
Qed.

Lemma series_ids_other_fields (data : pyval) (series us field : string) :
  key_eqb (KStr "inverters") (KStr field) = false ->
  forall (ids : list string) (s s' : pydict),
    for_each (map PStr ids) s (series_body data series us field false)
      = Ok s' ->
    forall id f : string,
      String.eqb field f = false ->
      reading_of s' id f = reading_of s id f.
Proof.
  intros Hf ids s s' H id f Hff.
  pose proof (series_ids_entries data series us field false Hf ids s s' H id)
    as E.
  rewrite !reading_of_entry.
  destruct (in_ids id ids).
  - destruct E as (v & u & entry & _ & _ & E' & Eprev).
    rewrite E', Eprev. cbn [lookup_path].
    rewrite dict_get_set_other by (rewrite key_eqb_str; exact Hff).
    reflexivity.
  - rewrite E. reflexivity.
Qed.

(** ** A loop on a shaped payload *)

Lemma str_keys_items (vs : pydict) :
  forallb (fun kv => match fst kv with KStr _ => true | _ => false end) vs
    = true ->
  map (fun kv => val_of_key (fst kv)) vs = map PStr (str_keys vs).
Proof.
  induction vs as [| [k v] rest IH]; simpl; intros H; [reflexivity |].
  apply andb_true_iff in H. destruct H as [Hk Hrest].
  destruct k; try discriminate Hk. rewrite (IH Hrest). reflexivity.
Qed.

Lemma in_ids_str_keys (vs : pydict) (id : string) :
  forallb (fun kv => match fst kv with KStr _ => true | _ => false end) vs
    = true ->
  in_ids id (str_keys vs) = dict_mem vs (KStr id).
Proof.
  unfold in_ids, dict_mem.
  induction vs as [| [k v] rest IH]; simpl; intros H; [reflexivity |].
  apply andb_true_iff in H. destruct H as [Hk Hrest].
  destruct k as [| | | | s0]; try discriminate Hk.
  rewrite key_eqb_str, (String.eqb_sym id s0).
  destruct (String.eqb s0 id); simpl; [reflexivity | apply IH; exact Hrest].
Qed.

Lemma dict_get_unique_entry (d : pydict) (k : pykey) (v : pyval) :
  unique_keys d = true -> In (k, v) d -> key_eqb k k = true ->
  dict_get d k = Some v.
Proof.
  induction d as [| [k0 v0] rest IH]; simpl; intros Hu Hin Hk; [contradiction |].
  apply andb_true_iff in Hu. destruct Hu as [Hk0 Hrest].
  destruct Hin as [E | Hin].
  - injection E as -> ->. rewrite Hk. reflexivity.
  - pose proof (IH Hrest Hin Hk) as G.
    destruct (key_eqb k0 k) eqn:E; [| exact G].
    unfold dict_mem in Hk0. rewrite (dict_get_congr rest k0 k E), G in Hk0.
    discriminate Hk0.
Qed.

(** The values read at the keys of a mapping are its values, in order. *)
Lemma values_at_keys (vs : pydict) (vals : list pyval) :
  json_object vs = true ->
  Forall2 (fun id v => dict_get vs (KStr id) = Some v) (str_keys vs) vals ->
  vals = map snd vs.
Proof.
  unfold json_object. intros H. apply andb_true_iff in H.
  destruct H as [Hu Hs].
  assert (forall l vals,
            (forall kv, In kv l -> In kv vs) ->
            forallb (fun kv => match fst kv with KStr _ => true | _ => false end)
                    l = true ->
            Forall2 (fun id v => dict_get vs (KStr id) = Some v)
                    (str_keys l) vals ->
            vals = map snd l) as G.
  { induction l as [| [k v] rest IH]; simpl; intros vals0 Hsub Hl HF.
    - inversion HF. reflexivity.
    - apply andb_true_iff in Hl. destruct Hl as [Hk Hrest].
      destruct k as [| | | | s0]; try discriminate Hk.
      inversion HF as [| id0 v' ids vals' Hv HF' E1 E2]. subst.
      rewrite (dict_get_unique_entry vs (KStr s0) v Hu) in Hv.
      + injection Hv as <-. f_equal. apply IH; auto.
      + apply Hsub. left. reflexivity.
      + apply key_eqb_str_refl. }
  apply G; auto.
Qed.

Lemma in_series_names (name : string) (d : pydict) :
  inverter_payload d = true -> In name series_names ->
  dict_get d name = None \/
  exists ser vs,
    dict_get d name = Some (PDict ser) /\
    dict_get ser "Values" = Some (PDict vs) /\
    json_object vs = true.
Proof.
  unfold inverter_payload. intros H Hin.
  rewrite forallb_forall in H. specialize (H name Hin).
  destruct (dict_get d name) as [x|]; [| left; reflexivity].
  right. unfold series_shape in H.
  destruct x as [| | | | | | ser]; try discriminate H.
  destruct (dict_get ser "Values") as [[| | | | | | vs]|] eqn:E;
    try discriminate H.
  exists ser, vs. repeat split; try reflexivity; assumption.
Qed.

Lemma series_loop_absent (d : pydict) (series us field : string)
      (reset : bool) (s : pydict) :
  dict_get d series = None ->
  series_loop (PDict d) series us field reset s = Ok s.
Proof.
  intros H. unfold series_loop. cbn [py_in bind]. rewrite dict_mem_get, H.
  reflexivity.
Qed.

Lemma series_loop_present (d ser vs : pydict) (series us field : string)
      (reset : bool) (s : pydict) :
  dict_get d series = Some (PDict ser) ->
  dict_get ser "Values" = Some (PDict vs) ->
  json_object vs = true ->
  series_loop (PDict d) series us field reset s =
  for_each (map PStr (str_keys vs)) s
           (series_body (PDict d) series us field reset).
Proof.
  intros Hd Hser Hvs. unfold series_loop.
  cbn [py_in bind subscript py_getitem key_of].
  rewrite dict_mem_get, Hd. cbn [bind py_getitem key_of]. rewrite Hser.
  cbn [bind py_iter]. rewrite str_keys_items; [reflexivity |].
  unfold json_object in Hvs. apply andb_true_iff in Hvs. apply Hvs.
Qed.

Lemma subscript_series_value (d : pydict) (series id : string) :
  subscript (PDict d) [PStr series; PStr "Values"; PStr id] =
  match series_value d series id with
  | Some v => Ok v
  | None => subscript (PDict d) [PStr series; PStr "Values"; PStr id]
  end.
Proof.
  unfold series_value.
  destruct (lookup_path (PDict d) (keys_of [series; "Values"; id])) eqn:E;
    [| reflexivity].
  apply (subscript_str_ok [_; _; _]). exact E.
Qed.

Lemma series_value_present (d ser vs : pydict) (series id : string) :
  dict_get d series = Some (PDict ser) ->
  dict_get ser "Values" = Some (PDict vs) ->
  series_value d series id = dict_get vs id.
Proof.
  intros Hd Hser. unfold series_value. cbn [keys_of map lookup_path].
  rewrite Hd, Hser. destruct (dict_get vs id); reflexivity.
Qed.

Lemma series_value_absent (d : pydict) (series id : string) :
  dict_get d series = None -> series_value d series id = None.
Proof.
  intros Hd. unfold series_value. cbn [keys_of map lookup_path].
  rewrite Hd. reflexivity.
Qed.

Lemma series_values_present (d ser vs : pydict) (series : string) :
  dict_get d series = Some (PDict ser) ->
  dict_get ser "Values" = Some (PDict vs) ->
  series_values d series = map snd vs.
Proof.
  intros Hd Hser. unfold series_values. cbn [keys_of map lookup_path].
  rewrite Hd, Hser. reflexivity.
Qed.

Lemma series_values_absent (d : pydict) (series : string) :
  dict_get d series = None -> series_values d series = [].
Proof.
  intros Hd. unfold series_values. cbn [keys_of map lookup_path].
  rewrite Hd. reflexivity.
Qed.

(** What one series loop that returned has done to the bundle. *)
Lemma series_loop_facts (d : pydict) (series us field : string)
      (reset : bool) (s s' : pydict) :
  inverter_payload d = true ->
  In series series_names ->
  key_eqb (KStr "inverters") (KStr field) = false ->
  series_loop (PDict d) series us field reset s = Ok s' ->
  (forall k : pykey,
      key_eqb (KStr "inverters") k = false ->
      key_eqb (KStr field) k = false ->
      dict_get s' k = dict_get s k) /\
  lookup_path (PDict s') [KStr field; KStr "unit"] =
    lookup_path (PDict s) [KStr field; KStr "unit"] /\
  (reset = false ->
   forall id f : string,
     String.eqb field f = false ->
     reading_of s' id f = reading_of s id f) /\
  (forall id : string,
      match series_value d series id with
      | Some v =>
          exists u entry,
            lookup_path (PDict d) (keys_of [us; "Unit"]) = Some u /\
            entry_of s' id
              = Some (PDict (dict_set entry field (value_unit v u))) /\
            (if reset then entry = []
             else entry_of s id = Some (PDict entry))
      | None => entry_of s' id = entry_of s id
      end) /\
  (forall old : pyval,
      lookup_path (PDict s) [KStr field; KStr "value"] = Some old ->
      is_number old = true ->
      exists new,
        py_sum_from old (series_values d series) = Ok new /\
        is_number new = true /\
        lookup_path (PDict s') [KStr field; KStr "value"] = Some new).
Proof.
  intros Hshape Hin Hf H.
  destruct (in_series_names series d Hshape Hin)
    as [Habs | (ser & vs & Hd & Hser & Hvs)].
  - rewrite series_loop_absent in H by exact Habs. injection H as <-.
    repeat split; try reflexivity.
    + intros id. rewrite series_value_absent by exact Habs. reflexivity.
    + intros old Hold Hnum. rewrite series_values_absent by exact Habs.
      exists old. simpl. auto.
  - rewrite (series_loop_present d ser vs) in H by assumption.
    assert (forallb (fun kv => match fst kv with KStr _ => true | _ => false end)
                    vs = true) as Hstr.
    { unfold json_object in Hvs. apply andb_true_iff in Hvs. apply Hvs. }
    split; [| split; [| split; [| split]]].
    + intros k Hk1 Hk2. eapply series_ids_frame; eassumption.
    + eapply series_ids_unit; eassumption.
    + intros -> id f Hff. eapply series_ids_other_fields; eassumption.
    + intros id.
      pose proof (series_ids_entries _ _ _ _ _ Hf _ _ _ H id) as E.
      rewrite (in_ids_str_keys vs id Hstr) in E. unfold dict_mem in E.
      rewrite (series_value_present d ser vs series id Hd Hser).
      destruct (dict_get vs id) as [v|] eqn:Hv; [| exact E].
      destruct E as (v' & u & entry & Hv' & Hu & He & Hprev).
      rewrite subscript_series_value in Hv'.
      rewrite (series_value_present d ser vs series id Hd Hser), Hv in Hv'.
      injection Hv' as <-. exists u, entry.
      split; [apply (subscript_str_ok [_; _]); exact Hu | auto].
    + intros old Hold Hnum.
      destruct (series_ids_sum _ _ _ _ _ Hf _ _ _ old H Hold Hnum)
        as (vals & new & HF & Hsum & Hn & Hlook).
      exists new. rewrite (series_values_present d ser vs series Hd Hser).
      assert (vals = map snd vs) as <-; [| auto].
      apply values_at_keys; [exact Hvs |].
      eapply Forall2_impl; [| exact HF].
      intros id v Hv. cbn beta in Hv.
      apply (subscript_str_ok [_; _; _]) in Hv.
      change (series_value d series id = Some v) in Hv.
      rewrite (series_value_present d ser vs series id Hd Hser) in Hv.
      exact Hv.
Qed.

Lemma series_loop_reading (d : pydict) (series us field : string)
      (reset : bool) (s s' : pydict) :
  inverter_payload d = true ->
  In series series_names ->
  key_eqb (KStr "inverters") (KStr field) = false ->
  series_loop (PDict d) series us field reset s = Ok s' ->
  forall (id : string) (v : pyval),
    series_value d series id = Some v ->
    exists u,
      lookup_path (PDict d) (keys_of [us; "Unit"]) = Some u /\
      reading_of s' id field = Some (value_unit v u).
Proof.
  intros Hshape Hin Hf H id v Hv.
  destruct (series_loop_facts d series us field reset s s' Hshape Hin Hf H)
    as (_ & _ & _ & D & _).
  specialize (D id). rewrite Hv in D.
  destruct D as (u & entry & Hu & He & _). exists u. split; [exact Hu |].
  rewrite reading_of_entry, He. cbn [lookup_path].
  rewrite dict_get_set_same. reflexivity.
Qed.

Lemma lookup_path_top (s s' : pydict) (k : pykey) (rest : list pykey) :
  dict_get s' k = dict_get s k ->
  lookup_path (PDict s') (k :: rest) = lookup_path (PDict s) (k :: rest).
Proof. intros H. cbn [lookup_path]. rewrite H. reflexivity. Qed.

Lemma inverter_init_aggregate (sensor : pydict) (series field unit0 : string) :
  In (series, field, unit0) inverter_series ->
  lookup_path (PDict (inverter_init sensor)) [KStr field; KStr "value"]
    = Some (PInt 0) /\
  lookup_path (PDict (inverter_init sensor)) [KStr field; KStr "unit"]
    = Some (PStr unit0).
Proof.
  unfold inverter_series, inverter_init. simpl.
  intros [E | [E | [E | [E | []]]]]; injection E as <- <- <-;
    cbn [lookup_path]; rewrite !dict_get_set; split; reflexivity.
Qed.

(** The readings and aggregates of a bundle the normaliser returned, for
    each of the four series. *)
Lemma system_inverter_readings (sensor d out : pydict) :
  inverter_payload d = true ->
  _system_inverter_data sensor (PDict d) = Ok out ->
  forall series field unit0 : string,
    In (series, field, unit0) inverter_series ->
    (forall (id : string) (v : pyval),
        series_value d series id = Some v ->
        exists u,
          lookup_path (PDict d) (keys_of [unit_series series; "Unit"])
            = Some u /\
          reading_of out id field = Some (value_unit v u)) /\
    (exists total,
        py_sum (series_values d series) = Ok total /\
        lookup_path (PDict out) [KStr field; KStr "value"] = Some total /\
        lookup_path (PDict out) [KStr field; KStr "unit"]
          = Some (PStr unit0)).
Proof.
  intros Hshape H series field unit0 Hin.
  destruct (inverter_init_aggregate sensor series field unit0 Hin)
    as [Hv0 Hu0].
  apply system_inverter_data_ok_inv in H.
  destruct H as (s1 & s2 & s3 & H1 & H2 & H3 & H4).
  pose proof (series_loop_facts d "DAY_ENERGY" "DAY_ENERGY" "energy_day" true _ _ Hshape
                (or_introl eq_refl) eq_refl H1) as (A1 & B1 & _ & _ & E1).
  pose proof (series_loop_facts d "TOTAL_ENERGY" "TOTAL_ENERGY" "energy_total" false _ _ Hshape
                (or_intror (or_introl eq_refl)) eq_refl H2)
    as (A2 & B2 & C2 & _ & E2).
  pose proof (series_loop_facts d "YEAR_ENERGY" "TOTAL_ENERGY" "energy_year" false _ _ Hshape
                (or_intror (or_intror (or_introl eq_refl))) eq_refl H3)
    as (A3 & B3 & C3 & _ & E3).
  pose proof (series_loop_facts d "PAC" "TOTAL_ENERGY" "power_ac" false _ _ Hshape
                (or_intror (or_intror (or_intror (or_introl eq_refl))))
                eq_refl H4)
    as (A4 & B4 & C4 & _ & E4).
  pose proof (series_loop_reading d "DAY_ENERGY" "DAY_ENERGY" "energy_day" true _ _ Hshape
                (or_introl eq_refl) eq_refl H1) as R1.
  pose proof (series_loop_reading d "TOTAL_ENERGY" "TOTAL_ENERGY" "energy_total" false _ _ Hshape
                (or_intror (or_introl eq_refl)) eq_refl H2) as R2.
  pose proof (series_loop_reading d "YEAR_ENERGY" "TOTAL_ENERGY" "energy_year" false _ _ Hshape
                (or_intror (or_intror (or_introl eq_refl))) eq_refl H3) as R3.
  pose proof (series_loop_reading d "PAC" "TOTAL_ENERGY" "power_ac" false _ _ Hshape
                (or_intror (or_intror (or_intror (or_introl eq_refl))))
                eq_refl H4) as R4.
  specialize (C2 eq_refl). specialize (C3 eq_refl). specialize (C4 eq_refl).
  unfold inverter_series in Hin. simpl in Hin.
  destruct Hin as [E | [E | [E | [E | []]]]]; injection E as <- <- <-;
    unfold unit_series; cbn [String.eqb Ascii.eqb Bool.eqb].
  - split.
    + intros id v Hv. destruct (R1 id v Hv) as (u & Hu & Hr).
      exists u. split; [exact Hu |].
      rewrite C4, C3, C2 by reflexivity. exact Hr.
    + destruct (E1 _ Hv0 eq_refl) as (total & Hsum & _ & Hlook).
      exists total. split; [exact Hsum |].
      rewrite !(lookup_path_top s3 out) by (apply A4; reflexivity).
      rewrite !(lookup_path_top s2 s3) by (apply A3; reflexivity).
      rewrite !(lookup_path_top s1 s2) by (apply A2; reflexivity).
      split; [exact Hlook | rewrite B1; exact Hu0].
  - split.
    + intros id v Hv. destruct (R2 id v Hv) as (u & Hu & Hr).
      exists u. split; [exact Hu |].
      rewrite C4, C3 by reflexivity. exact Hr.
    + rewrite <- (lookup_path_top _ s1) in Hv0, Hu0
        by (apply A1; reflexivity).
      destruct (E2 _ Hv0 eq_refl) as (total & Hsum & _ & Hlook).
      exists total. split; [exact Hsum |].
      rewrite !(lookup_path_top s3 out) by (apply A4; reflexivity).
      rewrite !(lookup_path_top s2 s3) by (apply A3; reflexivity).
      split; [exact Hlook | rewrite B2; exact Hu0].
  - split.
    + intros id v Hv. destruct (R3 id v Hv) as (u & Hu & Hr).
      exists u. split; [exact Hu |].
      rewrite C4 by reflexivity. exact Hr.
    + rewrite <- (lookup_path_top _ s1) in Hv0, Hu0
        by (apply A1; reflexivity).
      rewrite <- (lookup_path_top _ s2) in Hv0, Hu0
        by (apply A2; reflexivity).
      destruct (E3 _ Hv0 eq_refl) as (total & Hsum & _ & Hlook).
      exists total. split; [exact Hsum |].
      rewrite !(lookup_path_top s3 out) by (apply A4; reflexivity).
      split; [exact Hlook | rewrite B3; exact Hu0].
  - split.
    + intros id v Hv. destruct (R4 id v Hv) as (u & Hu & Hr).
      exists u. split; [exact Hu | exact Hr].
    + rewrite <- (lookup_path_top _ s1) in Hv0, Hu0
        by (apply A1; reflexivity).
      rewrite <- (lookup_path_top _ s2) in Hv0, Hu0
        by (apply A2; reflexivity).
      rewrite <- (lookup_path_top _ s3) in Hv0, Hu0
        by (apply A3; reflexivity).
      destruct (E4 _ Hv0 eq_refl) as (total & Hsum & _ & Hlook).
      exists total. split; [exact Hsum |].
      split; [exact Hlook | rewrite B4; exact Hu0].
Qed.

Lemma lookup_path_app (v : pyval) (p q : list pykey) :
  lookup_path v (p ++ q) =
  match lookup_path v p with
  | Some x => lookup_path x q
  | None => None
  end.
Proof.
  revert v. induction p as [| k rest IH]; intros v; simpl; [reflexivity |].
  destruct v; try reflexivity.
  destruct (dict_get d k); [apply IH | reflexivity].
Qed.

Lemma reading_members (s : pydict) (id field : string) (v u : pyval) :
  reading_of s id field = Some (value_unit v u) ->
  lookup_path (PDict s)
    [KStr "inverters"; KStr id; KStr field; KStr "value"] = Some v /\
  lookup_path (PDict s)
    [KStr "inverters"; KStr id; KStr field; KStr "unit"] = Some u.
Proof.
  unfold reading_of. intros H.
  split.
  - change [KStr "inverters"; KStr id; KStr field; KStr "value"]
      with ([KStr "inverters"; KStr id; KStr field] ++ [KStr "value"]).
    rewrite lookup_path_app, H. reflexivity.
  - change [KStr "inverters"; KStr id; KStr field; KStr "unit"]
      with ([KStr "inverters"; KStr id; KStr field] ++ [KStr "unit"]).
    rewrite lookup_path_app, H. reflexivity.
Qed.

Lemma py_sum_from_ints (zs : list Z) (a : Z) :
  py_sum_from (PInt a) (map PInt zs) = Ok (PInt (a + fold_right Z.add 0 zs)).
Proof.
  revert a. induction zs as [| z rest IH]; intros a; simpl.
  - rewrite Z.add_0_r. reflexivity.
  - rewrite IH. f_equal. f_equal. lia.
Qed.

(* ================================================================== *)
(** * System inverter data: the errors *)

Lemma aggregate_not_inverters (f : string) :
  In f aggregate_fields -> key_eqb (KStr "inverters") (KStr f) = false.
Proof.
  unfold aggregate_fields. simpl.
  intros [<- | [<- | [<- | [<- | []]]]]; reflexivity.
Qed.

Lemma well_formed_init (sensor : pydict) :
  well_formed_bundle (inverter_init sensor).
Proof.
  unfold well_formed_bundle, inverter_init. split.
  - exists []. split; [apply dict_get_set_same | discriminate].
  - unfold aggregate_fields. simpl.
    intros f [<- | [<- | [<- | [<- | []]]]];
      rewrite !dict_get_set; cbn; eexists; exists 0; split; reflexivity.
Qed.

(** One iteration on an integer value, from a well-formed bundle: it
    returns a well-formed bundle, or raises [KeyError]. *)
Lemma series_body_int (data : pyval) (series us field : string)
      (reset : bool) (s : pydict) (id : string) (z : Z) :
  well_formed_bundle s ->
  In field aggregate_fields ->
  subscript data [PStr series; PStr "Values"; PStr id] = Ok (PInt z) ->
  (forall e, subscript data [PStr us; PStr "Unit"] = Raise e -> e = KeyError) ->
  match series_body data series us field reset s (PStr id) with
  | Ok s' => well_formed_bundle s'
  | Raise e => e = KeyError
  end.
Proof.
  intros [(invs & Hinv & Hentries) Hagg] Hfield Hv Hunit.
  pose proof (aggregate_not_inverters field Hfield) as Hf.
  unfold series_body.
  assert (exists s1 invs1,
            (if reset then store_in s "inverters" [PStr id] (PDict [])
             else Ok s) = Ok s1 /\
            dict_get s1 "inverters" = Some (PDict invs1) /\
            (forall k e, dict_get invs1 k = Some e ->
                         exists entry, e = PDict entry) /\
            (forall f : string, In f aggregate_fields ->
                                dict_get s1 f = dict_get s f))
    as (s1 & invs1 & -> & Hinv1 & Hentries1 & Hagg1).
  { destruct reset.
    - exists (dict_set s "inverters" (PDict (dict_set invs id (PDict [])))),
             (dict_set invs id (PDict [])).
      split; [apply (store_in_item s "inverters" invs (KStr id) _ Hinv) |].
      split; [apply dict_get_set_same |]. split.
      + intros k e. rewrite dict_get_set.
        destruct (key_eqb (KStr id) k); [| apply Hentries].
        intros [= <-]. eexists. reflexivity.
      + intros f Hin. apply dict_get_set_other.
        apply aggregate_not_inverters. exact Hin.
    - exists s, invs. auto. }
  cbn [bind]. rewrite Hv. cbn [bind].
  destruct (subscript data [PStr us; PStr "Unit"]) as [u | e] eqn:Hu;
    cbn [bind]; [| apply Hunit; reflexivity].
  unfold store_in. rewrite Hinv1. cbn [store_path]. rewrite getitem_str.
  destruct (dict_get invs1 id) as [e0|] eqn:Hid; cbn [bind]; [| reflexivity].
  destruct (Hentries1 _ _ Hid) as [entry ->].
  cbn [py_setitem key_of bind].
  destruct (Hagg field Hfield) as (agg & acc & Hagg0 & Hacc).
  unfold add_in. rewrite dict_get_set_other by exact Hf.
  rewrite (Hagg1 field Hfield), Hagg0, getitem_str, Hacc. cbn [bind].
  cbn [py_iadd py_add index_of py_setitem key_of bind].
  split.
  - eexists. split.
    + rewrite dict_get_set_other by (rewrite key_eqb_sym; exact Hf).
      apply dict_get_set_same.
    + intros k e. rewrite dict_get_set.
      destruct (key_eqb (KStr id) k); [| apply Hentries1].
      intros [= <-]. eexists. reflexivity.
  - intros f Hin. rewrite dict_get_set, key_eqb_str.
    destruct (String.eqb field f) eqn:E.
    + eexists. eexists. split; [reflexivity | apply dict_get_set_same].
    + rewrite dict_get_set_other
        by (apply aggregate_not_inverters; exact Hin).
      rewrite (Hagg1 f Hin). apply Hagg. exact Hin.
Qed.

Lemma series_ids_int (data : pyval) (series us field : string)
      (reset : bool) (ids : list string) :
  In field aggregate_fields ->
  (forall id, In id ids ->
     exists z, subscript data [PStr series; PStr "Values"; PStr id]
               = Ok (PInt z)) ->
  (forall e, subscript data [PStr us; PStr "Unit"] = Raise e -> e = KeyError) ->
  forall s : pydict,
    well_formed_bundle s ->
    match for_each (map PStr ids) s
                   (series_body data series us field reset) with
    | Ok s' => well_formed_bundle s'
    | Raise e => e = KeyError
    end.
Proof.
  intros Hfield Hvals Hunit.
  induction ids as [| id0 rest IH]; intros s Hwf; cbn [map for_each].
  - exact Hwf.
  - destruct (Hvals id0 (or_introl eq_refl)) as [z Hz].
    pose proof (series_body_int data series us field reset s id0 z
                  Hwf Hfield Hz Hunit) as B.
    destruct (series_body data series us field reset s (PStr id0))
      as [s1 | e]; cbn [bind]; [| exact B].
    apply IH; [| exact B].
    intros id Hin. apply Hvals. right. exact Hin.
Qed.

Lemma in_in_ids (id : string) (ids : list string) :
  In id ids -> in_ids id ids = true.
Proof.
  intros H. unfold in_ids. apply existsb_exists. exists id.
  split; [exact H | apply String.eqb_refl].
Qed.

Lemma unit_raises_key_error (d : pydict) (us : string) (e : exn) :
  inverter_payload d = true ->
  In us series_names ->
  subscript (PDict d) [PStr us; PStr "Unit"] = Raise e ->
  e = KeyError.
Proof.
  intros Hshape Hin. cbn [subscript py_getitem key_of bind].
  destruct (in_series_names us d Hshape Hin)
    as [-> | (ser & vs & -> & _ & _)]; cbn [bind py_getitem key_of].
  - intros [= <-]. reflexivity.
  - destruct (dict_get ser "Unit"); cbn [bind]; [discriminate |].
    intros [= <-]. reflexivity.
Qed.

(** A series loop on a payload of integer values, from a well-formed
    bundle. *)
Lemma series_loop_int (d : pydict) (series us field : string)
      (reset : bool) (s : pydict) :
  inverter_payload d = true ->
  int_values d = true ->
  In series series_names ->
  In us series_names ->
  In field aggregate_fields ->
  well_formed_bundle s ->
  match series_loop (PDict d) series us field reset s with
  | Ok s' => well_formed_bundle s'
  | Raise e => e = KeyError
  end.
Proof.
  intros Hshape Hint Hin Hus Hfield Hwf.
  destruct (in_series_names series d Hshape Hin)
    as [Habs | (ser & vs & Hd & Hser & Hvs)].
  - rewrite series_loop_absent by exact Habs. exact Hwf.
  - rewrite (series_loop_present d ser vs) by assumption.
    apply series_ids_int; try assumption.
    + intros id Hid.
      assert (forallb (fun kv => match fst kv with
                                 | KStr _ => true | _ => false end) vs = true)
        as Hstr.
      { unfold json_object in Hvs. apply andb_true_iff in Hvs. apply Hvs. }
      pose proof (in_in_ids id _ Hid) as M.
      rewrite (in_ids_str_keys vs id Hstr) in M. unfold dict_mem in M.
      destruct (dict_get vs id) as [v|] eqn:Hv; [| discriminate M].
      assert (exists z, v = PInt z) as [z ->].
      { unfold int_values in Hint. rewrite forallb_forall in Hint.
        specialize (Hint series Hin).
        rewrite (series_values_present d ser vs series Hd Hser) in Hint.
        rewrite forallb_forall in Hint.
        specialize (Hint v (dict_get_in_values vs _ v Hv)).
        destruct v; try discriminate Hint. eexists. reflexivity. }
      exists z. rewrite subscript_series_value.
      rewrite (series_value_present d ser vs series id Hd Hser), Hv.
      reflexivity.
    + intros e. apply unit_raises_key_error; assumption.
Qed.

(** On a payload of integer values the normaliser raises nothing but
    [KeyError]. *)
Lemma system_inverter_data_int (sensor d : pydict) (e : exn) :
  inverter_payload d = true ->
  int_values d = true ->
  _system_inverter_data sensor (PDict d) = Raise e ->
  e = KeyError.
Proof.
  intros Hshape Hint. rewrite system_inverter_data_loops.
  pose proof (series_loop_int d "DAY_ENERGY" "DAY_ENERGY" "energy_day" true
                (inverter_init sensor) Hshape Hint) as L1.
  destruct (series_loop (PDict d) "DAY_ENERGY" "DAY_ENERGY" "energy_day" true
              (inverter_init sensor)) as [s1 | e1]; cbn [bind].
  2: { intros [= <-]. apply L1; simpl; auto using well_formed_init. }
  assert (well_formed_bundle s1) as W1
    by (apply L1; simpl; auto using well_formed_init).
  pose proof (series_loop_int d "TOTAL_ENERGY" "TOTAL_ENERGY" "energy_total"
                false s1 Hshape Hint) as L2.
  destruct (series_loop (PDict d) "TOTAL_ENERGY" "TOTAL_ENERGY" "energy_total"
              false s1) as [s2 | e2]; cbn [bind].
  2: { intros [= <-]. apply L2; simpl; auto. }
  assert (well_formed_bundle s2) as W2 by (apply L2; simpl; auto).
  pose proof (series_loop_int d "YEAR_ENERGY" "TOTAL_ENERGY" "energy_year"
                false s2 Hshape Hint) as L3.
  destruct (series_loop (PDict d) "YEAR_ENERGY" "TOTAL_ENERGY" "energy_year"
              false s2) as [s3 | e3]; cbn [bind].
  2: { intros [= <-]. apply L3; simpl; auto. }
  assert (well_formed_bundle s3) as W3 by (apply L3; simpl; auto).
  pose proof (series_loop_int d "PAC" "TOTAL_ENERGY" "power_ac"
                false s3 Hshape Hint) as L4.
  destruct (series_loop (PDict d) "PAC" "TOTAL_ENERGY" "power_ac"
              false s3) as [s4 | e4]; cbn [bind].
  - discriminate.
  - intros [= <-]. apply L4; simpl; auto 6.
Qed.

(** ** Regular payloads are always normalised *)

Lemma series_body_returns (data : pyval) (series us field : string)
      (reset : bool) (s : pydict) (id : string) (z : Z) (u : pyval) :
  well_formed_bundle s ->
  In field aggregate_fields ->
  subscript data [PStr series; PStr "Values"; PStr id] = Ok (PInt z) ->
  subscript data [PStr us; PStr "Unit"] = Ok u ->
  reset = true \/ entry_of s id <> None ->
  exists s', series_body data series us field reset s (PStr id) = Ok s'.
Proof.
  intros [(invs & Hinv & Hentries) Hagg] Hfield Hv Hu Hentry.
  pose proof (aggregate_not_inverters field Hfield) as Hf.
  destruct (Hagg field Hfield) as (agg & acc & Hagg0 & Hacc).
  unfold series_body. destruct reset.
  - rewrite (store_in_item s "inverters" invs (KStr id) _ Hinv).
    cbn [bind]. rewrite Hv, Hu. cbn [bind].
    unfold store_in. rewrite dict_get_set_same. cbn [store_path].
    rewrite getitem_str, dict_get_set_same. cbn [bind py_setitem key_of].
    unfold add_in. rewrite !dict_get_set_other by exact Hf.
    rewrite Hagg0, getitem_str, Hacc. cbn [bind].
    cbn [py_iadd py_add index_of py_setitem key_of bind].
    eexists. reflexivity.
  - destruct Hentry as [Hr | Hentry]; [discriminate Hr |].
    rewrite (entry_of_inverters s invs id Hinv) in Hentry.
    destruct (dict_get invs id) as [e|] eqn:Hid; [| contradiction].
    destruct (Hentries _ _ Hid) as [entry ->].
    cbn [bind]. rewrite Hv, Hu. cbn [bind].
    unfold store_in. rewrite Hinv. cbn [store_path].
    rewrite getitem_str, Hid. cbn [bind py_setitem key_of].
    unfold add_in. rewrite dict_get_set_other by exact Hf.
    rewrite Hagg0, getitem_str, Hacc. cbn [bind].
    cbn [py_iadd py_add index_of py_setitem key_of bind].
    eexists. reflexivity.
Qed.

Lemma series_ids_returns (data : pyval) (series us field : string)
      (reset : bool) (u : pyval) (ids : list string) :
  In field aggregate_fields ->
  (forall id, In id ids ->
     exists z, subscript data [PStr series; PStr "Values"; PStr id]
               = Ok (PInt z)) ->
  subscript data [PStr us; PStr "Unit"] = Ok u ->
  forall s : pydict,
    well_formed_bundle s ->
    reset = true \/ (forall id, In id ids -> entry_of s id <> None) ->
    exists s',
      for_each (map PStr ids) s (series_body data series us field reset)
        = Ok s' /\
      well_formed_bundle s' /\
      (forall id, entry_of s id <> None -> entry_of s' id <> None) /\
      (reset = true -> forall id, In id ids -> entry_of s' id <> None).
Proof.
  intros Hfield Hvals Hu.
  pose proof (aggregate_not_inverters field Hfield) as Hf.
  induction ids as [| id0 rest IH]; intros s Hwf Hentry; cbn [map for_each].
  - exists s. split; [reflexivity |]. split; [exact Hwf |].
    split; [auto | intros _ id []].
  - destruct (Hvals id0 (or_introl eq_refl)) as [z Hz].
    destruct (series_body_returns data series us field reset s id0 z u
                Hwf Hfield Hz Hu) as [s1 Hb].
    { destruct Hentry as [Hr | He]; [left; exact Hr |].
      right. apply He. left. reflexivity. }
    pose proof (series_body_int data series us field reset s id0 z
                  Hwf Hfield Hz) as B.
    rewrite Hb in B. rewrite Hb. cbn [bind].
    assert (well_formed_bundle s1) as Hwf1.
    { apply B. intros e He. rewrite Hu in He. discriminate He. }
    pose proof Hb as Hinv. apply series_body_inv in Hinv; [| exact Hf].
    destruct Hinv as (invs & entry0 & v0 & u0 & agg & old & new
                      & Hi & _ & _ & _ & _ & _ & _ & ->).
    assert (forall id,
              entry_of s id <> None \/ id = id0 ->
              entry_of
                (dict_set
                   (dict_set s "inverters"
                      (PDict (dict_set invs id0
                         (PDict (dict_set entry0 field (value_unit v0 u0))))))
                   field (PDict (dict_set agg "value" new))) id <> None)
      as Hkeep.
    { intros id Hid. rewrite (entry_of_body s invs id0 id field _ _ Hf Hi).
      destruct (String.eqb id0 id) eqn:E; [discriminate |].
      destruct Hid as [Hid | ->]; [exact Hid |].
      rewrite String.eqb_refl in E. discriminate E. }
    destruct (IH (fun id Hin => Hvals id (or_intror Hin)) _ Hwf1)
      as (s' & Hloop & Hwf' & Hpres & Hnew).
    { destruct Hentry as [Hr | He]; [left; exact Hr |].
      right. intros id Hin. apply Hkeep. left. apply He. right. exact Hin. }
    exists s'. split; [exact Hloop |]. split; [exact Hwf' |]. split.
    + intros id Hid. apply Hpres, Hkeep. left. exact Hid.
    + intros Hr id [<- | Hin].
      * apply Hpres, Hkeep. right. reflexivity.
      * apply Hnew; assumption.
Qed.

Lemma series_ids_present (d ser vs : pydict) (series : string) :
  dict_get d series = Some (PDict ser) ->
  dict_get ser "Values" = Some (PDict vs) ->
  series_ids d series = str_keys vs.
Proof.
  intros Hd Hser. unfold series_ids. cbn [keys_of map lookup_path].
  rewrite Hd, Hser. reflexivity.
Qed.

(** The ids of a shaped series are the ids that have a value in it. *)
Lemma in_series_ids (d : pydict) (series id : string) :
  inverter_payload d = true ->
  In series series_names ->
  In id (series_ids d series) <-> series_value d series id <> None.
Proof.
  intros Hshape Hin.
  destruct (in_series_names series d Hshape Hin)
    as [Habs | (ser & vs & Hd & Hser & Hvs)].
  - unfold series_ids. cbn [keys_of map lookup_path].
    rewrite (series_value_absent d series id Habs), Habs.
    split; [intros [] | intros H; contradiction H; reflexivity].
  - rewrite (series_ids_present d ser vs series Hd Hser).
    rewrite (series_value_present d ser vs series id Hd Hser).
    assert (string_keys vs = true) as Hstr.
    { unfold json_object in Hvs. apply andb_true_iff in Hvs. apply Hvs. }
    pose proof (in_ids_str_keys vs id Hstr) as M. unfold dict_mem in M.
    split.
    + intros Hid. rewrite (in_in_ids id _ Hid) in M.
      destruct (dict_get vs id); [discriminate | discriminate M].
    + intros Hv. destruct (dict_get vs id); [| contradiction Hv; reflexivity].
      unfold in_ids in M. apply existsb_exists in M.
      destruct M as (x & Hx & E). apply String.eqb_eq in E. subst x. exact Hx.
Qed.

Lemma series_loop_returns (d : pydict) (series us field : string)
      (reset : bool) (s : pydict) :
  inverter_payload d = true ->
  int_values d = true ->
  In series series_names ->
  In field aggregate_fields ->
  (dict_get d series = None \/
   exists u, lookup_path (PDict d) (keys_of [us; "Unit"]) = Some u) ->
  well_formed_bundle s ->
  reset = true \/
    (forall id, series_value d series id <> None -> entry_of s id <> None) ->
  exists s',
    series_loop (PDict d) series us field reset s = Ok s' /\
    well_formed_bundle s' /\
    (forall id, entry_of s id <> None -> entry_of s' id <> None) /\
    (reset = true ->
     forall id, series_value d series id <> None -> entry_of s' id <> None).
Proof.
  intros Hshape Hint Hin Hfield Hunit Hwf Hentry.
  destruct (in_series_names series d Hshape Hin)
    as [Habs | (ser & vs & Hd & Hser & Hvs)].
  - rewrite series_loop_absent by exact Habs. exists s.
    split; [reflexivity |]. split; [exact Hwf |]. split; [auto |].
    intros _ id Hid. rewrite (series_value_absent d series id Habs) in Hid.
    contradiction Hid. reflexivity.
  - destruct Hunit as [Hnone | [u Hu]]; [congruence |].
    apply (subscript_str_ok [_; _]) in Hu. cbn [map] in Hu.
    rewrite (series_loop_present d ser vs) by assumption.
    pose proof (in_series_ids d series) as Hids.
    rewrite (series_ids_present d ser vs series Hd Hser) in Hids.
    destruct (series_ids_returns (PDict d) series us field reset u
                (str_keys vs) Hfield) with (s := s)
      as (s' & Hloop & Hwf' & Hpres & Hnew); try assumption.
    + intros id Hid. apply (Hids id Hshape Hin) in Hid.
      destruct (series_value d series id) as [v|] eqn:Hv;
        [| contradiction Hid; reflexivity].
      assert (exists z, v = PInt z) as [z ->].
      { unfold int_values in Hint. rewrite forallb_forall in Hint.
        specialize (Hint series Hin).
        rewrite (series_values_present d ser vs series Hd Hser) in Hint.
        rewrite forallb_forall in Hint.
        rewrite (series_value_present d ser vs series id Hd Hser) in Hv.
        specialize (Hint v (dict_get_in_values vs _ v Hv)).
        destruct v; try discriminate Hint. eexists. reflexivity. }
      exists z. rewrite subscript_series_value, Hv. reflexivity.
    + destruct Hentry as [Hr | He]; [left; exact Hr |].
      right. intros id Hid. apply He. apply (Hids id Hshape Hin). exact Hid.
    + exists s'. split; [exact Hloop |]. split; [exact Hwf' |].
      split; [exact Hpres |].
      intros Hr id Hid. apply Hnew; [exact Hr |].
      apply (Hids id Hshape Hin). exact Hid.
Qed.

(** The normaliser returns on every regular payload. *)
Lemma system_inverter_data_total (sensor d : pydict) :
  regular_payload d = true ->
  exists out, _system_inverter_data sensor (PDict d) = Ok out.
Proof.
  unfold regular_payload. intros H.
  apply andb_true_iff in H. destruct H as [H Hids].
  apply andb_true_iff in H. destruct H as [H Hunits].
  apply andb_true_iff in H. destruct H as [Hshape Hint].
  rewrite forallb_forall in Hunits.
  assert (forall name, In name series_names ->
            dict_get d name = None \/
            exists u, lookup_path (PDict d)
                        (keys_of [unit_series name; "Unit"]) = Some u) as HU.
  { intros name Hn. specialize (Hunits name Hn).
    destruct (dict_get d name); [| left; reflexivity].
    destruct (lookup_path (PDict d) (keys_of [unit_series name; "Unit"]));
      [right; eexists; reflexivity | discriminate Hunits]. }
  rewrite forallb_forall in Hids.
  assert (forall name, In name ["TOTAL_ENERGY"; "YEAR_ENERGY"; "PAC"] ->
            forall id, series_value d name id <> None ->
                       series_value d "DAY_ENERGY" id <> None) as HD.
  { intros name Hn id Hid. specialize (Hids name Hn).
    rewrite forallb_forall in Hids.
    assert (In name series_names) as Hn'.
    { simpl in Hn. simpl. intuition. }
    apply (in_series_ids d name id Hshape Hn') in Hid.
    specialize (Hids id Hid).
    destruct (series_value d "DAY_ENERGY" id); [discriminate | discriminate Hids]. }
  rewrite system_inverter_data_loops.
  destruct (series_loop_returns d "DAY_ENERGY" "DAY_ENERGY" "energy_day" true
              (inverter_init sensor) Hshape Hint)
    as (s1 & -> & W1 & _ & E1);
    [simpl; auto | simpl; auto | apply (HU "DAY_ENERGY"); simpl; auto
     | apply well_formed_init | left; reflexivity |].
  specialize (E1 eq_refl). cbn [bind].
  destruct (series_loop_returns d "TOTAL_ENERGY" "TOTAL_ENERGY" "energy_total"
              false s1 Hshape Hint)
    as (s2 & -> & W2 & P2 & _);
    [simpl; auto | simpl; auto | apply (HU "TOTAL_ENERGY"); simpl; auto
     | exact W1
     | right; intros id Hid; apply E1, (HD "TOTAL_ENERGY"); simpl; auto |].
  cbn [bind].
  destruct (series_loop_returns d "YEAR_ENERGY" "TOTAL_ENERGY" "energy_year"
              false s2 Hshape Hint)
    as (s3 & -> & W3 & P3 & _);
    [simpl; auto | simpl; auto | apply (HU "YEAR_ENERGY"); simpl; auto
     | exact W2
     | right; intros id Hid; apply P2, E1, (HD "YEAR_ENERGY"); simpl; auto |].
  cbn [bind].
  destruct (series_loop_returns d "PAC" "TOTAL_ENERGY" "power_ac"
              false s3 Hshape Hint)
    as (s4 & -> & W4 & P4 & _);
    [simpl; auto 6 | simpl; auto 6 | apply (HU "PAC"); simpl; auto 6
     | exact W3
     | right; intros id Hid; apply P3, P2, E1, (HD "PAC"); simpl; auto |].
  cbn [bind]. eexists. reflexivity.
Qed.

(** ** The readings, the sums and the units *)

(** C4, amended. For every system-inverter payload on which the normaliser
    returns, and for each of the four series [DAY_ENERGY], [TOTAL_ENERGY],
    [YEAR_ENERGY] and [PAC]: every inverter id in the series' [Values] has a
    per-inverter reading [inverters[id].<field>] with that value, and the
    matching aggregate ([energy_day], [energy_total], [energy_year],
    [power_ac]) holds the sum of the series' values, added up from zero in
    the order of the payload (so zero for an absent series, and the integer
    sum for integer values), with the aggregate's fixed unit.  The
    normaliser returns on every regular payload: integer values, a [Unit]
    where one is read, and no inverter in another series that [DAY_ENERGY]
    has not.  For
    [DAY_ENERGY] with [Values] 10 and 20 and [Unit] [Wh] the normaliser
    returns, with [inverters["1"].energy_day = {value: 10, unit: Wh}],
    [inverters["2"].energy_day = {value: 20, unit: Wh}] and
    [energy_day = {value: 30, unit: Wh}]. *)
Theorem inverter_series_readings_and_sums :
  (forall (sensor d out : pydict),
      inverter_payload d = true ->
      _system_inverter_data sensor (PDict d) = Ok out ->
      forall series field unit0 : string,
        In (series, field, unit0) inverter_series ->
        (forall (id : string) (v : pyval),
            series_value d series id = Some v ->
            lookup_path (PDict out)
              [KStr "inverters"; KStr id; KStr field; KStr "value"]
              = Some v) /\
        (exists total,
            py_sum (series_values d series) = Ok total /\
            (forall zs, series_values d series = map PInt zs ->
                        total = PInt (fold_right Z.add 0 zs)) /\
            lookup_path (PDict out) [KStr field; KStr "value"] = Some total /\
            lookup_path (PDict out) [KStr field; KStr "unit"]
              = Some (PStr unit0))) /\
  (forall (sensor d : pydict),
      regular_payload d = true ->
      exists out, _system_inverter_data sensor (PDict d) = Ok out) /\
  (exists out,
      _system_inverter_data [] (PDict day_energy_example) = Ok out /\
      reading_of out "1" "energy_day" = Some (value_unit (PInt 10) "Wh") /\
      reading_of out "2" "energy_day" = Some (value_unit (PInt 20) "Wh") /\
      dict_get out "energy_day" = Some (value_unit (PInt 30) "Wh")).
Proof.
  split; [| split; [| eexists; repeat split; reflexivity]].
  2: { intros sensor d Hreg. apply system_inverter_data_total. exact Hreg. }
  intros sensor d out Hshape H series field unit0 Hin.
  destruct (system_inverter_readings sensor d out Hshape H series field unit0
              Hin) as [R (total & Hsum & Hlook & Hunit)].
  split.
  - intros id v Hv. destruct (R id v Hv) as (u & _ & Hr).
    apply (reading_members out id field v u Hr).
  - exists total. repeat split; try assumption.
    intros zs Hzs. unfold py_sum in Hsum.
    rewrite Hzs, py_sum_from_ints in Hsum. injection Hsum as <-.
    reflexivity.
Qed.

Lemma inverter_series_readings_and_sums_witness :
  _system_inverter_data sample_header (PDict four_series_example)
    = Ok four_series_bundle /\
  lookup_path (PDict four_series_bundle)
    [KStr "inverters"; KStr "2"; KStr "power_ac"; KStr "value"]
    = Some (PInt 400) /\
  lookup_path (PDict four_series_bundle) [KStr "power_ac"; KStr "value"]
    = Some (PInt 700) /\
  lookup_path (PDict four_series_bundle) [KStr "power_ac"; KStr "unit"]
    = Some (PStr "W").
Proof.
  split; [reflexivity |].
  destruct (proj1 inverter_series_readings_and_sums sample_header
              four_series_example four_series_bundle eq_refl eq_refl
              "PAC" "power_ac" "W")
    as [R (total & Hsum & Hints & Hlook & Hunit)].
  - simpl. auto.
  - split; [apply (R "2" (PInt 400)); reflexivity |].
    split; [| exact Hunit].
    rewrite Hlook. rewrite (Hints [300; 400] eq_refl). reflexivity.
Defined.

(** A payload with the total-energy series alone, and one in which an
    inverter has no value: the normaliser raises and writes no reading. *)
Lemma total_only_raises :
  inverter_payload total_only_example = true /\
  series_value total_only_example "TOTAL_ENERGY" "1" = Some (PInt 10) /\
  _system_inverter_data [] (PDict total_only_example) = Raise KeyError /\
  inverter_payload null_value_example = true /\
  _system_inverter_data [] (PDict null_value_example) = Raise TypeError.
Proof. repeat split; reflexivity. Qed.

(** C5. For every system-inverter payload on which the normaliser returns,
    the unit of every per-inverter [energy_year] reading (one for each id of
    a present [YEAR_ENERGY] series) and of every per-inverter [power_ac]
    reading (one for each id of a present [PAC] series) is the [Unit] of the
    [TOTAL_ENERGY] series, not that of the reading's own series: with
    [YEAR_ENERGY] in [kWh], [PAC] in [W] and [TOTAL_ENERGY] in [Wh], both
    readings carry [Wh]. *)
Theorem year_and_pac_units_from_total :
  (forall (sensor d out : pydict),
      inverter_payload d = true ->
      _system_inverter_data sensor (PDict d) = Ok out ->
      forall series field : string,
        In (series, field)
           [("YEAR_ENERGY", "energy_year"); ("PAC", "power_ac")] ->
        forall (id : string) (v : pyval),
          series_value d series id = Some v ->
          exists u,
            lookup_path (PDict d) (keys_of ["TOTAL_ENERGY"; "Unit"])
              = Some u /\
            lookup_path (PDict out)
              [KStr "inverters"; KStr id; KStr field; KStr "unit"]
              = Some u) /\
  (exists out,
      _system_inverter_data [] (PDict four_series_example) = Ok out /\
      lookup_path (PDict four_series_example)
        (keys_of ["YEAR_ENERGY"; "Unit"]) = Some (PStr "kWh") /\
      lookup_path (PDict four_series_example)
        (keys_of ["PAC"; "Unit"]) = Some (PStr "W") /\
      reading_of out "1" "energy_year" = Some (value_unit (PInt 90) "Wh") /\
      reading_of out "1" "power_ac" = Some (value_unit (PInt 300) "Wh")).
Proof.
  split; [| eexists; repeat split; reflexivity].
  intros sensor d out Hshape H series field Hin id v Hv.
  assert (exists unit0, In (series, field, unit0) inverter_series /\
                        unit_series series = "TOTAL_ENERGY") as (unit0 & Hin' & Hus).
  { simpl in Hin. destruct Hin as [E | [E | []]]; injection E as <- <-.
    - exists "Wh". split; [simpl; auto | reflexivity].
    - exists "W". split; [simpl; auto 6 | reflexivity]. }
  destruct (system_inverter_readings sensor d out Hshape H series field unit0
              Hin') as [R _].
  destruct (R id v Hv) as (u & Hu & Hr). rewrite Hus in Hu.
  exists u. split; [exact Hu |].
  apply (reading_members out id field v u Hr).
Qed.

Lemma year_and_pac_units_from_total_witness :
  _system_inverter_data sample_header (PDict four_series_example)
    = Ok four_series_bundle /\
  lookup_path (PDict four_series_example) (keys_of ["YEAR_ENERGY"; "Unit"])
    = Some (PStr "kWh") /\
  lookup_path (PDict four_series_example) (keys_of ["TOTAL_ENERGY"; "Unit"])
    = Some (PStr "Wh") /\
  lookup_path (PDict four_series_bundle)
    [KStr "inverters"; KStr "2"; KStr "energy_year"; KStr "unit"]
    = Some (PStr "Wh").
Proof.
  destruct (proj1 year_and_pac_units_from_total sample_header
              four_series_example four_series_bundle eq_refl eq_refl
              "YEAR_ENERGY" "energy_year" (or_introl eq_refl)
              "2" (PInt 80) eq_refl) as (u & Hu & Hr).
  split; [reflexivity |]. split; [reflexivity |]. split; [reflexivity |].
  simpl in Hu. injection Hu as <-. exact Hr.
Defined.

(** ** Inverters that [DAY_ENERGY] has not *)

(** A loop that creates no sub-bundle, met with an inverter that has none:
    the inverter is not in the loop's series, and still has none after. *)
Lemma series_loop_missing (d : pydict) (series us field : string)
      (s s' : pydict) (id : string) :
  inverter_payload d = true ->
  In series series_names ->
  key_eqb (KStr "inverters") (KStr field) = false ->
  series_loop (PDict d) series us field false s = Ok s' ->
  entry_of s id = None ->
  series_value d series id = None /\ entry_of s' id = None.
Proof.
  intros Hshape Hin Hf H Hnone.
  destruct (series_loop_facts d series us field false s s' Hshape Hin Hf H)
    as (_ & _ & _ & D & _).
  specialize (D id).
  destruct (series_value d series id) as [v|].
  - destruct D as (u & entry & _ & _ & Hprev). congruence.
  - split; [reflexivity | congruence].
Qed.

(** The normaliser cannot return when a later series names an inverter
    that the day series does not. *)
Lemma missing_inverter_not_ok (sensor d out : pydict) (series id : string)
      (v : pyval) :
  inverter_payload d = true ->
  In series ["TOTAL_ENERGY"; "YEAR_ENERGY"; "PAC"] ->
  series_value d series id = Some v ->
  series_value d "DAY_ENERGY" id = None ->
  _system_inverter_data sensor (PDict d) = Ok out ->
  False.
Proof.
  intros Hshape Hin Hv Hday H.
  apply system_inverter_data_ok_inv in H.
  destruct H as (s1 & s2 & s3 & H1 & H2 & H3 & H4).
  assert (entry_of s1 id = None) as N1.
  { destruct (series_loop_facts d "DAY_ENERGY" "DAY_ENERGY" "energy_day" true
                _ _ Hshape (or_introl eq_refl) eq_refl H1)
      as (_ & _ & _ & D & _).
    specialize (D id). rewrite Hday in D. rewrite D.
    unfold entry_of, inverter_init. cbn [lookup_path].
    rewrite dict_get_set_same. reflexivity. }
  destruct (series_loop_missing d "TOTAL_ENERGY" "TOTAL_ENERGY" "energy_total"
              s1 s2 id Hshape (or_intror (or_introl eq_refl)) eq_refl H2 N1)
    as [V2 N2].
  destruct (series_loop_missing d "YEAR_ENERGY" "TOTAL_ENERGY" "energy_year"
              s2 s3 id Hshape (or_intror (or_intror (or_introl eq_refl)))
              eq_refl H3 N2) as [V3 N3].
  destruct (series_loop_missing d "PAC" "TOTAL_ENERGY" "power_ac"
              s3 out id Hshape
              (or_intror (or_intror (or_intror (or_introl eq_refl))))
              eq_refl H4 N3) as [V4 N4].
  simpl in Hin. destruct Hin as [<- | [<- | [<- | []]]]; congruence.
Qed.

(** C7, amended. For every system-inverter payload in which a series other
    than [DAY_ENERGY] has in its [Values] an inverter id that
    [DAY_ENERGY.Values] has not (so also when [DAY_ENERGY] is absent and
    another series has at least one inverter id), the normaliser raises;
    when the values of the payload are integers the error is [KeyError]:
    the sub-bundle [inverters[id]] is made in the [DAY_ENERGY] loop only,
    and the later loops index into it. *)
Theorem missing_inverter_raises_key_error :
  forall (sensor d : pydict) (series id : string) (v : pyval),
    inverter_payload d = true ->
    In series ["TOTAL_ENERGY"; "YEAR_ENERGY"; "PAC"] ->
    series_value d series id = Some v ->
    series_value d "DAY_ENERGY" id = None ->
    (exists e, _system_inverter_data sensor (PDict d) = Raise e) /\
    (int_values d = true ->
     _system_inverter_data sensor (PDict d) = Raise KeyError).
Proof.
  intros sensor d series id v Hshape Hin Hv Hday.
  destruct (_system_inverter_data sensor (PDict d)) as [out | e] eqn:H.
  - exfalso.
    exact (missing_inverter_not_ok sensor d out series id v
             Hshape Hin Hv Hday H).
  - split; [exists e; reflexivity |].
    intros Hint. f_equal.
    exact (system_inverter_data_int sensor d e Hshape Hint H).
Qed.

Lemma missing_inverter_raises_key_error_witness :
  _system_inverter_data sample_header (PDict total_only_example)
    = Raise KeyError.
Proof.
  apply (missing_inverter_raises_key_error sample_header total_only_example
           "TOTAL_ENERGY" "1" (PInt 10)).
  - reflexivity.
  - simpl. auto.
  - reflexivity.
  - reflexivity.
  - reflexivity.
Defined.

(** A payload without [DAY_ENERGY] whose other series is present with no
    inverter in it: the normaliser returns, with the aggregates at zero.
    And a payload whose total series names an inverter that the day series
    has not, with a null value in the day series: the error is a
    [TypeError]. *)
Lemma empty_series_returns :
  dict_get empty_total_example "DAY_ENERGY" = None /\
  dict_mem empty_total_example "TOTAL_ENERGY" = true /\
  _system_inverter_data [] (PDict empty_total_example) =
    Ok [ (KStr "energy_day", value_unit (PInt 0) "Wh");
         (KStr "energy_total", value_unit (PInt 0) "Wh");
         (KStr "energy_year", value_unit (PInt 0) "Wh");
         (KStr "power_ac", value_unit (PInt 0) "W");
         (KStr "inverters", PDict []) ] /\
  series_value null_day_example "TOTAL_ENERGY" "2" = Some (PInt 5) /\
  series_value null_day_example "DAY_ENERGY" "2" = None /\
  _system_inverter_data [] (PDict null_day_example) = Raise TypeError.
Proof. repeat split; reflexivity. Qed.

(* ================================================================== *)
(** * Further properties of the field copy *)

Lemma py_in_raise (s : string) (v : pyval) (e : exn) :
  py_in s v = Raise e -> e = TypeError.
Proof. destruct v; simpl; congruence. Qed.

(** [_copy] on a sequence or a string that does not hold the field, and on
    one that holds it. *)
Lemma copy_on_sequence (source : pyval) (target : pydict) (sid tid : string)
      (unit : option string) (b : bool) :
  match source with PList _ | PStr _ => True | _ => False end ->
  py_in sid source = Ok b ->
  _copy source target sid tid unit =
  if b then Raise TypeError
  else Ok (dict_set target tid (PDict (copy_rule_spec [] sid unit))).
Proof.
  intros Hseq Hin. unfold _copy. rewrite Hin. cbn [bind].
  destruct b.
  - destruct source; try contradiction; reflexivity.
  - cbn [bind]. unfold copy_rule_spec. cbn [dict_get]. apply copy_unit_step.
Qed.

Lemma copy_on_scalar (source : pyval) (target : pydict) (sid tid : string)
      (unit : option string) :
  is_scalar source = true ->
  _copy source target sid tid unit = Raise TypeError.
Proof. destruct source; try discriminate; reflexivity. Qed.

Lemma py_in_sequence (s : string) (v : pyval) :
  match v with PList _ | PStr _ => True | _ => False end ->
  exists b, py_in s v = Ok b.
Proof. destruct v; try contradiction; intros _; eexists; reflexivity. Qed.

(** A copy that returns has stored a reading of the rule, taken from the
    source when it is a mapping and from the empty mapping otherwise. *)
Lemma copy_ok_reading (source : pyval) (target : pydict) (sid tid : string)
      (unit : option string) (target' : pydict) :
  _copy source target sid tid unit = Ok target' ->
  exists d, target' = dict_set target tid (PDict (copy_rule_spec d sid unit)).
Proof.
  destruct source as [| b | z | f | s | l | d]; try discriminate.
  - destruct (py_in_sequence sid (PStr s) I) as [b Hb].
    rewrite (copy_on_sequence (PStr s) target sid tid unit b I Hb).
    destruct b; [discriminate |]. intros [= <-]. exists []. reflexivity.
  - destruct (py_in_sequence sid (PList l) I) as [b Hb].
    rewrite (copy_on_sequence (PList l) target sid tid unit b I Hb).
    destruct b; [discriminate |]. intros [= <-]. exists []. reflexivity.
  - rewrite copy_on_mapping. intros [= <-]. exists d. reflexivity.
Qed.

Lemma copy_raise_type (source : pyval) (target : pydict) (sid tid : string)
      (unit : option string) (e : exn) :
  _copy source target sid tid unit = Raise e -> e = TypeError.
Proof.
  destruct source as [| b | z | f | s | l | d];
    try (intros [= <-]; reflexivity).
  - destruct (py_in_sequence sid (PStr s) I) as [b Hb].
    rewrite (copy_on_sequence (PStr s) target sid tid unit b I Hb).
    destruct b; [intros [= <-]; reflexivity | discriminate].
  - destruct (py_in_sequence sid (PList l) I) as [b Hb].
    rewrite (copy_on_sequence (PList l) target sid tid unit b I Hb).
    destruct b; [intros [= <-]; reflexivity | discriminate].
  - rewrite copy_on_mapping. discriminate.
Qed.

Lemma copy_rule_has_value (d : pydict) (sid : string) (unit : option string) :
  exists v, dict_get (copy_rule_spec d sid unit) "value" = Some v.
Proof.
  unfold copy_rule_spec.
  assert (forall r : pydict,
            (exists v, dict_get r "value" = Some v) ->
            exists v, dict_get match unit with
                               | Some u => dict_set r "unit" (PStr u)
                               | None => r
                               end "value" = Some v) as U.
  { intros r [v Hv]. exists v. destruct unit; [| exact Hv].
    rewrite dict_get_set_other by reflexivity. exact Hv. }
  apply U.
  destruct (dict_get d sid) as [[| | | | | | fd]|];
    try (eexists; reflexivity).
  destruct (dict_get fd "Value"); [| eexists; reflexivity].
  destruct (dict_get fd "Unit"); eexists; reflexivity.
Qed.

(** X1. Whatever the source is, [_copy] returns or raises [TypeError],
    never [KeyError]: a mapping is copied by the four-step rule; a list or
    a string that does not contain the field id gives the zero default (with
    the fixed unit, if any), and one that contains it raises [TypeError];
    [None], a boolean or a number raises [TypeError]. *)
Theorem copy_outcome_by_source :
  forall (source : pyval) (target : pydict) (sid tid : string)
         (unit : option string),
    _copy source target sid tid unit =
      match source with
      | PDict d => Ok (dict_set target tid (PDict (copy_rule_spec d sid unit)))
      | PList _ | PStr _ =>
          match py_in sid source with
          | Ok false =>
              Ok (dict_set target tid (PDict (copy_rule_spec [] sid unit)))
          | _ => Raise TypeError
          end
      | _ => Raise TypeError
      end /\
    match _copy source target sid tid unit with
    | Ok _ => True
    | Raise e => e = TypeError
    end.
Proof.
  intros source target sid tid unit. split;
    [| destruct (_copy source target sid tid unit) eqn:E;
       [exact I | exact (copy_raise_type _ _ _ _ _ _ E)]].
  destruct source as [| b | z | f | s | l | d]; try reflexivity.
  - destruct (py_in_sequence sid (PStr s) I) as [b Hb].
    rewrite (copy_on_sequence (PStr s) target sid tid unit b I Hb), Hb.
    destruct b; reflexivity.
  - destruct (py_in_sequence sid (PList l) I) as [b Hb].
    rewrite (copy_on_sequence (PList l) target sid tid unit b I Hb), Hb.
    destruct b; reflexivity.
  - apply copy_on_mapping.
Qed.

(** X2. A copy that returns changes the target at the target id only,
    where it leaves a reading with a [value] member; and a later copy to
    the same target id replaces the earlier reading as a whole, so that no
    unit of the earlier reading is left behind. *)
Theorem copy_touches_one_key :
  (forall (source : pyval) (target : pydict) (sid tid : string)
          (unit : option string) (target' : pydict),
      _copy source target sid tid unit = Ok target' ->
      (forall k, key_eqb (KStr tid) k = false ->
                 dict_get target' k = dict_get target k) /\
      (exists r v, dict_get target' tid = Some (PDict r) /\
                   dict_get r "value" = Some v)) /\
  (forall (d1 d2 target : pydict) (sid1 sid2 tid : string)
          (unit1 unit2 : option string),
      (t1 <- _copy (PDict d1) target sid1 tid unit1 ;;
       _copy (PDict d2) t1 sid2 tid unit2) =
      _copy (PDict d2) target sid2 tid unit2).
Proof.
  split.
  - intros source target sid tid unit target' H.
    apply copy_ok_reading in H. destruct H as [d ->]. split.
    + intros k Hk. apply dict_get_set_other. exact Hk.
    + destruct (copy_rule_has_value d sid unit) as [v Hv].
      exists (copy_rule_spec d sid unit), v.
      split; [apply dict_get_set_same | exact Hv].
  - intros d1 d2 target sid1 sid2 tid unit1 unit2.
    rewrite !copy_on_mapping. cbn [bind]. rewrite copy_on_mapping.
    rewrite dict_set_set by apply key_eqb_str_refl. reflexivity.
Qed.

Lemma copy_touches_one_key_witness :
  dict_get [ (KStr "status", PStr "ok");
             (KStr "y", PDict [(KStr "value", PInt 0)]) ] "status"
    = Some (PStr "ok").
Proof.
  destruct (proj1 copy_touches_one_key (PStr "abc")
              [(KStr "status", PStr "ok")] "X" "y" None
              [ (KStr "status", PStr "ok");
                (KStr "y", PDict [(KStr "value", PInt 0)]) ] eq_refl)
    as [Hframe _].
  rewrite (Hframe (KStr "status") eq_refl). reflexivity.
Defined.

(* ================================================================== *)
(** * Tables of copies *)

Lemma dict_set_fresh (d : pydict) (k : pykey) (v : pyval) :
  dict_get d k = None -> dict_set d k v = d ++ [(k, v)].
Proof.
  induction d as [| [k0 v0] rest IH]; simpl; [reflexivity |].
  destruct (key_eqb k0 k); [discriminate |].
  intros H. rewrite (IH H). reflexivity.
Qed.

Lemma copy_all_cons (row : string * string * option string)
      (table : copy_table) (source target : pydict) :
  copy_all (row :: table) source target =
  copy_all table source
    (dict_set target (KStr (row_tid row))
              (PDict (copy_rule_spec source (fst (fst row)) (snd row)))).
Proof. reflexivity. Qed.

(** A key that is no target id of the table keeps its value. *)
Lemma copy_all_get_other (table : copy_table) (source target : pydict)
      (k : pykey) :
  untouched k (map row_tid table) = true ->
  dict_get (copy_all table source target) k = dict_get target k.
Proof.
  revert target. induction table as [| row rest IH]; intros target H.
  - reflexivity.
  - simpl in H. apply andb_true_iff in H. destruct H as [Hk Hrest].
    rewrite copy_all_cons, (IH _ Hrest).
    apply dict_get_set_other. apply negb_true_iff. exact Hk.
Qed.

Lemma distinct_untouched (row : string * string * option string)
      (rest : copy_table) :
  existsb (fun r => String.eqb (row_tid r) (row_tid row)) rest = false ->
  untouched (KStr (row_tid row)) (map row_tid rest) = true.
Proof.
  induction rest as [| r rest IH]; simpl; [reflexivity |].
  intros H. apply orb_false_iff in H. destruct H as [H1 H2].
  rewrite key_eqb_str, H1. simpl. apply IH. exact H2.
Qed.

(** With distinct target ids, each row's reading is the one found. *)
Lemma copy_all_get (table : copy_table) (source target : pydict)
      (sid tid : string) (unit : option string) :
  distinct_tids table = true ->
  In (sid, tid, unit) table ->
  dict_get (copy_all table source target) tid
  = Some (PDict (copy_rule_spec source sid unit)).
Proof.
  revert target. induction table as [| row rest IH]; intros target D Hin.
  - contradiction.
  - simpl in D. apply andb_true_iff in D. destruct D as [D1 D2].
    apply negb_true_iff in D1. rewrite copy_all_cons.
    destruct Hin as [-> | Hin].
    + rewrite copy_all_get_other by (apply (distinct_untouched _ _ D1)).
      apply dict_get_set_same.
    + apply IH; assumption.
Qed.

(** The keys after the copies of a table into a dictionary that has none
    of its target ids: the old keys, then the target ids in order. *)
Lemma copy_all_keys (table : copy_table) (source target : pydict) :
  distinct_tids table = true ->
  (forall row, In row table -> dict_get target (KStr (row_tid row)) = None) ->
  map fst (copy_all table source target)
  = map fst target ++ map (fun row => KStr (row_tid row)) table.
Proof.
  revert target. induction table as [| row rest IH]; intros target D F.
  - simpl. rewrite app_nil_r. reflexivity.
  - simpl in D. apply andb_true_iff in D. destruct D as [D1 D2].
    apply negb_true_iff in D1. rewrite copy_all_cons.
    rewrite IH; [| exact D2 |].
    + rewrite dict_set_fresh by (apply F; left; reflexivity).
      rewrite map_app. simpl. rewrite <- app_assoc. reflexivity.
    + intros r Hr. rewrite dict_get_set_other; [apply F; right; exact Hr |].
      rewrite key_eqb_str.
      destruct (String.eqb (row_tid row) (row_tid r)) eqn:E; [| reflexivity].
      apply String.eqb_eq in E.
      assert (existsb (fun r0 => String.eqb (row_tid r0) (row_tid row)) rest
              = true) as C.
      { apply existsb_exists. exists r. split; [exact Hr |].
        rewrite E. apply String.eqb_refl. }
      congruence.
Qed.

Lemma copy_all_no_key (table : copy_table) (source target : pydict)
      (row : string * string * option string) :
  untouched (KStr (row_tid row)) (map row_tid table) = true ->
  dict_get target (KStr (row_tid row)) = None ->
  dict_get (copy_all table source target) (KStr (row_tid row)) = None.
Proof. intros U H. rewrite copy_all_get_other by exact U. exact H. Qed.

(** Steps of a chain of copies from a mapping, and of a lookup in it. *)
Lemma bind_copy_eq {A : Type} (d target : pydict) (sid tid : string)
      (unit : option string) (k : pydict -> outcome A) (r : outcome A) :
  k (dict_set target tid (PDict (copy_rule_spec d sid unit))) = r ->
  bind (_copy (PDict d) target sid tid unit) k = r.
Proof. intros H. rewrite copy_on_mapping. cbn [bind]. exact H. Qed.

Lemma bind_getitem_eq {A : Type} (d : pydict) (key : string) (x : pyval)
      (k : pyval -> outcome A) (r : outcome A) :
  dict_get d key = Some x ->
  k x = r ->
  bind (py_getitem (PDict d) (PStr key)) k = r.
Proof. intros E H. rewrite getitem_str, E. cbn [bind]. exact H. Qed.

Lemma bind_copy_raise_type {A : Type} (source : pyval) (target : pydict)
      (sid tid : string) (unit : option string) (k : pydict -> outcome A)
      (e : exn) :
  (forall t, k t = Raise e -> e = TypeError) ->
  bind (_copy source target sid tid unit) k = Raise e -> e = TypeError.
Proof.
  intros Hk H.
  destruct (_copy source target sid tid unit) as [t | e'] eqn:E.
  - exact (Hk t H).
  - cbn [bind] in H. injection H as <-. exact (copy_raise_type _ _ _ _ _ _ E).
Qed.

(** A member found by [in] is found by the subscript. *)
Lemma py_in_getitem (key : string) (v : pyval) :
  py_in key v = Ok true ->
  match v with
  | PDict d => exists x, dict_get d key = Some x
  | _ => py_getitem v (PStr key) = Raise TypeError
  end.
Proof.
  destruct v as [| b | z | f | s | l | d]; try discriminate.
  - intros _. reflexivity.
  - intros _. reflexivity.
  - simpl. unfold dict_mem.
    destruct (dict_get d key) as [x |]; [| discriminate].
    intros _. exists x. reflexivity.
Qed.

Lemma bind_getitem_raise_type {A : Type} (v : pyval) (key : string)
      (k : pyval -> outcome A) (e : exn) :
  py_in key v = Ok true ->
  (forall x, k x = Raise e -> e = TypeError) ->
  bind (py_getitem v (PStr key)) k = Raise e -> e = TypeError.
Proof.
  intros Hin Hk H. apply py_in_getitem in Hin.
  destruct v as [| b | z | f | s | l | d];
    try (rewrite Hin in H; cbn [bind] in H; congruence).
  destruct Hin as [x Hx]. rewrite getitem_str, Hx in H. cbn [bind] in H.
  exact (Hk x H).
Qed.

(* ================================================================== *)
(** * The entity normalisers *)

Lemma untouched_in (k : pykey) (tids : list string) (t : string) :
  untouched k tids = true -> In t tids -> key_eqb (KStr t) k = false.
Proof.
  unfold untouched. intros H Hin.
  apply negb_true_iff. exact (proj1 (forallb_forall _ _) H t Hin).
Qed.

Lemma untouched_intro (k : pykey) (tids : list string) :
  (forall t, In t tids -> key_eqb (KStr t) k = false) ->
  untouched k tids = true.
Proof.
  intros H. apply forallb_forall. intros t Hin.
  apply negb_true_iff. exact (H t Hin).
Qed.

(** The keys and the readings of [entity_bundle], for a table whose target
    ids are distinct and are none of the detail fields. *)
Lemma entity_bundle_facts (table : copy_table) (d : pydict) :
  distinct_tids table = true ->
  forallb (fun t => untouched (KStr t) (map row_tid table)) detail_fields
    = true ->
  entity_shape (PDict d) = true ->
  map fst (entity_bundle table d) = map KStr (entity_keys table d) /\
  (forall sid tid unit,
      In (sid, tid, unit) table ->
      dict_get (entity_bundle table d) tid
      = Some (PDict (copy_rule_spec d sid unit))) /\
  (forall details sid tid unit,
      dict_get d "Details" = Some (PDict details) ->
      In (sid, tid, unit) detail_table ->
      dict_get (entity_bundle table d) tid
      = Some (PDict (copy_rule_spec details sid unit))).
Proof.
  intros D U S.
  assert (forall t, In t detail_fields ->
                    dict_get (copy_all table d []) (KStr t) = None) as Fresh.
  { intros t Ht. rewrite copy_all_get_other; [reflexivity |].
    exact (proj1 (forallb_forall _ _) U t Ht). }
  assert (map fst (copy_all table d []) = map KStr (map row_tid table)) as K.
  { rewrite copy_all_keys; [| exact D | reflexivity].
    rewrite map_map. reflexivity. }
  unfold entity_bundle, entity_keys. cbn zeta. cbn [entity_shape] in S.
  destruct (dict_get d "Details") as [[| b | z | f | s | l | details] |] eqn:E;
    try discriminate S.
  - split; [| split].
    + rewrite copy_all_keys; [| reflexivity |].
      * rewrite K, map_app. reflexivity.
      * intros row Hrow. apply Fresh.
        change detail_fields with (map row_tid detail_table).
        apply in_map. exact Hrow.
    + intros sid tid unit Hin.
      rewrite copy_all_get_other; [apply copy_all_get; assumption |].
      apply untouched_intro. intros t Ht.
      change (map row_tid detail_table) with detail_fields in Ht.
      pose proof (untouched_in _ _ tid
                    (proj1 (forallb_forall _ _) U t Ht)
                    (in_map row_tid _ _ Hin)) as Ne.
      rewrite key_eqb_str in *. rewrite String.eqb_sym. exact Ne.
    + intros details' sid tid unit [= <-] Hin.
      apply copy_all_get; [reflexivity | exact Hin].
  - rewrite app_nil_r. split; [exact K | split].
    + intros sid tid unit Hin. apply copy_all_get; assumption.
    + intros details sid tid unit Hd. discriminate Hd.
Qed.

Ltac entity_equation S :=
  match goal with
  | |- ?f (PDict ?d) = Ok (entity_bundle ?table ?d) =>
      unfold f, entity_bundle; cbn zeta;
      repeat (apply bind_copy_eq; cbv beta);
      cbn [py_in bind]; rewrite dict_mem_get;
      cbn [entity_shape] in S;
      destruct (dict_get d "Details")
        as [[| ? | ? | ? | ? | ? | details] |] eqn:E;
      try discriminate S; cbn iota;
      [ repeat (apply (bind_getitem_eq d "Details" (PDict details));
                [exact E |]; cbv beta;
                apply bind_copy_eq; cbv beta);
        reflexivity
      | reflexivity ]
  end.

Lemma meter_data_bundle (d : pydict) :
  entity_shape (PDict d) = true ->
  _meter_data (PDict d) = Ok (entity_bundle meter_table d).
Proof. intros S. entity_equation S. Qed.

Lemma controller_data_bundle (d : pydict) :
  entity_shape (PDict d) = true ->
  _controller_data (PDict d) = Ok (entity_bundle controller_table d).
Proof. intros S. entity_equation S. Qed.

Lemma module_data_bundle (d : pydict) :
  entity_shape (PDict d) = true ->
  _module_data (PDict d) = Ok (entity_bundle module_table d).
Proof. intros S. entity_equation S. Qed.

(** X3. On a meter that is a mapping (with a mapping for [Details], if
    any) [_meter_data] returns a bundle whose keys are exactly the 35 meter
    fields, in the order of the copies, followed by [manufacturer], [model]
    and [serial] when the meter has [Details]; each field holds the reading
    that the copy rule gives for its source field of the meter, with its
    fixed unit, and the three detail fields hold the readings of the
    members of [Details]. *)
Theorem meter_data_readings :
  forall d : pydict,
    entity_shape (PDict d) = true ->
    exists meter,
      _meter_data (PDict d) = Ok meter /\
      map fst meter = map KStr (entity_keys meter_table d) /\
      (forall sid tid unit,
          In (sid, tid, unit) meter_table ->
          dict_get meter tid = Some (PDict (copy_rule_spec d sid unit))) /\
      (forall details sid tid unit,
          dict_get d "Details" = Some (PDict details) ->
          In (sid, tid, unit) detail_table ->
          dict_get meter tid = Some (PDict (copy_rule_spec details sid unit))).
Proof.
  intros d S. exists (entity_bundle meter_table d).
  split; [exact (meter_data_bundle d S) |].
  apply entity_bundle_facts; [reflexivity | reflexivity | exact S].
Qed.

Lemma meter_data_readings_witness :
  entity_shape (PDict meter_with_details) = true /\
  _meter_data (PDict meter_with_details) = Ok meter_with_details_bundle /\
  dict_get meter_with_details_bundle "power_real"
    = Some (value_unit (PInt 120) "W") /\
  dict_get meter_with_details_bundle "serial"
    = Some (value_only (PStr "15480258")).
Proof.
  destruct (meter_data_readings meter_with_details eq_refl)
    as (meter & Hm & _ & Hr & Hd).
  assert (meter = meter_with_details_bundle) as E
      by (injection Hm as <-; reflexivity).
  rewrite <- E.
  split; [reflexivity |]. split; [exact Hm |]. split.
  - rewrite (Hr "PowerReal_P_Sum" "power_real" (Some "W")).
    + reflexivity.
    + unfold meter_table. simpl. tauto.
  - rewrite (Hd _ "Serial" "serial" None eq_refl).
    + reflexivity.
    + unfold detail_table. simpl. tauto.
Defined.

(** X4. On a storage controller that is a mapping (with a mapping for
    [Details], if any) [_controller_data] returns a bundle whose keys are
    exactly the nine controller fields, in the order of the copies, followed
    by the three detail fields when the controller has [Details]; each field
    holds the reading of the copy rule for its source field, with its fixed
    unit. *)
Theorem controller_data_readings :
  forall d : pydict,
    entity_shape (PDict d) = true ->
    exists controller,
      _controller_data (PDict d) = Ok controller /\
      map fst controller = map KStr (entity_keys controller_table d) /\
      (forall sid tid unit,
          In (sid, tid, unit) controller_table ->
          dict_get controller tid
          = Some (PDict (copy_rule_spec d sid unit))) /\
      (forall details sid tid unit,
          dict_get d "Details" = Some (PDict details) ->
          In (sid, tid, unit) detail_table ->
          dict_get controller tid
          = Some (PDict (copy_rule_spec details sid unit))).
Proof.
  intros d S. exists (entity_bundle controller_table d).
  split; [exact (controller_data_bundle d S) |].
  apply entity_bundle_facts; [reflexivity | reflexivity | exact S].
Qed.

Lemma controller_data_readings_witness :
  entity_shape (PDict plain_controller) = true /\
  _controller_data (PDict plain_controller) = Ok plain_controller_bundle /\
  map fst plain_controller_bundle = map KStr controller_fields /\
  dict_get plain_controller_bundle "state_of_charge"
    = Some (value_unit (PInt 85) "%") /\
  dict_get plain_controller_bundle "current_dc"
    = Some (value_unit (PInt 0) "A").
Proof.
  destruct (controller_data_readings plain_controller eq_refl)
    as (controller & Hc & Hk & Hr & _).
  assert (controller = plain_controller_bundle) as E
      by (injection Hc as <-; reflexivity).
  rewrite <- E.
  split; [reflexivity |]. split; [exact Hc |]. split; [| split].
  - rewrite Hk. reflexivity.
  - rewrite (Hr "StateOfCharge_Relative" "state_of_charge" (Some "%")).
    + reflexivity.
    + unfold controller_table. simpl. tauto.
  - rewrite (Hr "Current_DC" "current_dc" (Some "A")).
    + reflexivity.
    + unfold controller_table. simpl. tauto.
Defined.

(** X5. On a storage module that is a mapping (with a mapping for
    [Details], if any) [_module_data] returns a bundle whose keys are
    exactly the thirteen module fields, in the order of the copies, followed
    by the three detail fields when the module has [Details]; each field
    holds the reading of the copy rule for its source field, with its fixed
    unit. *)
Theorem module_data_readings :
  forall d : pydict,
    entity_shape (PDict d) = true ->
    exists module,
      _module_data (PDict d) = Ok module /\
      map fst module = map KStr (entity_keys module_table d) /\
      (forall sid tid unit,
          In (sid, tid, unit) module_table ->
          dict_get module tid = Some (PDict (copy_rule_spec d sid unit))) /\
      (forall details sid tid unit,
          dict_get d "Details" = Some (PDict details) ->
          In (sid, tid, unit) detail_table ->
          dict_get module tid
          = Some (PDict (copy_rule_spec details sid unit))).
Proof.
  intros d S. exists (entity_bundle module_table d).
  split; [exact (module_data_bundle d S) |].
  apply entity_bundle_facts; [reflexivity | reflexivity | exact S].
Qed.

Lemma module_data_readings_witness :
  entity_shape (PDict plain_module) = true /\
  _module_data (PDict plain_module) = Ok plain_module_bundle /\
  map fst plain_module_bundle
    = map KStr (module_fields ++ detail_fields) /\
  dict_get plain_module_bundle "cycle_count_cell"
    = Some (value_unit (PInt 12) "C") /\
  dict_get plain_module_bundle "model" = Some (value_only (PInt 0)).
Proof.
  destruct (module_data_readings plain_module eq_refl)
    as (module & Hm & Hk & Hr & Hd).
  assert (module = plain_module_bundle) as E
      by (injection Hm as <-; reflexivity).
  rewrite <- E.
  split; [reflexivity |]. split; [exact Hm |]. split; [| split].
  - rewrite Hk. reflexivity.
  - rewrite (Hr "CycleCount_BatteryCell" "cycle_count_cell" (Some "C")).
    + reflexivity.
    + unfold module_table. simpl. tauto.
  - rewrite (Hd _ "Model" "model" None eq_refl).
    + reflexivity.
    + unfold detail_table. simpl. tauto.
Defined.

Ltac entity_raise_type :=
  match goal with
  | |- ?f ?data = Raise ?e -> ?e = TypeError =>
      unfold f; cbn zeta;
      repeat (apply bind_copy_raise_type; intros ?; cbv beta);
      let Hin := fresh "Hin" in
      destruct (py_in "Details" data) as [[|] | ?] eqn:Hin; cbn [bind];
      [ repeat (apply (bind_getitem_raise_type _ _ _ _ Hin);
                intros ?; cbv beta;
                apply bind_copy_raise_type; intros ?; cbv beta);
        discriminate
      | discriminate
      | intros [= <-]; exact (py_in_raise _ _ _ Hin) ]
  end.

Lemma meter_data_raise_type (data : pyval) (e : exn) :
  _meter_data data = Raise e -> e = TypeError.
Proof. entity_raise_type. Qed.

Lemma controller_data_raise_type (data : pyval) (e : exn) :
  _controller_data data = Raise e -> e = TypeError.
Proof. entity_raise_type. Qed.

Lemma module_data_raise_type (data : pyval) (e : exn) :
  _module_data data = Raise e -> e = TypeError.
Proof. entity_raise_type. Qed.

Lemma bind_copy_scalar {A : Type} (source : pyval) (target : pydict)
      (sid tid : string) (unit : option string) (k : pydict -> outcome A) :
  is_scalar source = true ->
  bind (_copy source target sid tid unit) k = Raise TypeError.
Proof. intros S. rewrite copy_on_scalar by exact S. reflexivity. Qed.

Ltac entity_scalar_details H S :=
  match goal with
  | |- ?f (PDict ?d) = Raise TypeError =>
      unfold f; cbn zeta;
      repeat (apply bind_copy_eq; cbv beta);
      cbn [py_in bind]; rewrite dict_mem_get, H; cbn iota;
      apply (bind_getitem_eq d "Details" _ _ _ H);
      apply bind_copy_scalar; exact S
  end.

(** X6. The entity normalisers [_meter_data], [_controller_data] and
    [_module_data] raise nothing but [TypeError], whatever they are given
    (a field or a detail that is missing is no error: it is read as zero);
    and they do raise it on an entity whose [Details] is [null], a boolean
    or a number, and on an entity that is itself one of these. *)
Theorem entity_normalisers_raise_type_error :
  (forall (data : pyval) (e : exn),
      (_meter_data data = Raise e -> e = TypeError) /\
      (_controller_data data = Raise e -> e = TypeError) /\
      (_module_data data = Raise e -> e = TypeError)) /\
  (forall (d : pydict) (x : pyval),
      dict_get d "Details" = Some x ->
      is_scalar x = true ->
      _meter_data (PDict d) = Raise TypeError /\
      _controller_data (PDict d) = Raise TypeError /\
      _module_data (PDict d) = Raise TypeError) /\
  (forall data : pyval,
      is_scalar data = true ->
      _meter_data data = Raise TypeError /\
      _controller_data data = Raise TypeError /\
      _module_data data = Raise TypeError).
Proof.
  split; [| split].
  - intros data e. split; [| split].
    + apply meter_data_raise_type.
    + apply controller_data_raise_type.
    + apply module_data_raise_type.
  - intros d x H S. split; [| split]; entity_scalar_details H S.
  - intros data S.
    destruct data; try discriminate S; repeat split; reflexivity.
Qed.

Lemma entity_normalisers_raise_type_error_witness :
  _meter_data (PDict meter_null_details) = Raise TypeError /\
  _module_data (PInt 7) = Raise TypeError.
Proof.
  split.
  - exact (proj1 (proj1 (proj2 entity_normalisers_raise_type_error)
                    meter_null_details PNone eq_refl eq_refl)).
  - exact (proj2 (proj2 (proj2 (proj2 entity_normalisers_raise_type_error)
                           (PInt 7) eq_refl))).
Defined.

(* ================================================================== *)
(** * The single inverter and the power flow *)

Lemma device_inverter_data_bundle (sensor d : pydict) :
  _device_inverter_data sensor (PDict d)
  = Ok (copy_all device_inverter_table d sensor).
Proof.
  unfold _device_inverter_data.
  repeat (apply bind_copy_eq; cbv beta). reflexivity.
Qed.

Lemma copy_rule_value_unit (d field : pydict) (sid : string) (v u : pyval) :
  dict_get d sid = Some (PDict field) ->
  dict_get field "Value" = Some v ->
  dict_get field "Unit" = Some u ->
  copy_rule_spec d sid None = [(KStr "value", v); (KStr "unit", u)].
Proof. intros H1 H2 H3. unfold copy_rule_spec. rewrite H1, H2, H3. reflexivity. Qed.

(** X7. On every payload that is a mapping [_device_inverter_data] returns:
    it stores the nine inverter fields and changes no other key of the
    bundle it is given.  None of the nine copies has a fixed unit, so a
    field that the payload gives as [{Value, Unit}] is stored with the
    payload's own unit, and a field the payload does not have is stored as
    zero without a unit. *)
Theorem device_inverter_readings :
  forall sensor d : pydict,
    exists out,
      _device_inverter_data sensor (PDict d) = Ok out /\
      (forall sid tid unit,
          In (sid, tid, unit) device_inverter_table ->
          unit = None /\
          dict_get out tid = Some (PDict (copy_rule_spec d sid None)) /\
          (forall field v u,
              dict_get d sid = Some (PDict field) ->
              dict_get field "Value" = Some v ->
              dict_get field "Unit" = Some u ->
              dict_get out tid
              = Some (PDict [(KStr "value", v); (KStr "unit", u)])) /\
          (dict_get d sid = None ->
           dict_get out tid = Some (value_only (PInt 0)))) /\
      (forall k, untouched k device_inverter_fields = true ->
                 dict_get out k = dict_get sensor k).
Proof.
  intros sensor d. exists (copy_all device_inverter_table d sensor).
  split; [apply device_inverter_data_bundle |]. split.
  - intros sid tid unit Hin.
    assert (unit = None) as ->.
    { unfold device_inverter_table in Hin. simpl in Hin.
      repeat (destruct Hin as [Hin | Hin]; [congruence |]). contradiction. }
    assert (dict_get (copy_all device_inverter_table d sensor) tid
            = Some (PDict (copy_rule_spec d sid None))) as G
        by (apply copy_all_get; [reflexivity | exact Hin]).
    split; [reflexivity |]. split; [exact G |]. split.
    + intros field v u H1 H2 H3.
      rewrite G, (copy_rule_value_unit d field sid v u H1 H2 H3). reflexivity.
    + intros H. rewrite G. unfold copy_rule_spec. rewrite H. reflexivity.
  - intros k Hk. apply copy_all_get_other. exact Hk.
Qed.

Lemma device_inverter_readings_witness :
  _device_inverter_data sample_header (PDict common_inverter_data)
    = Ok common_inverter_bundle /\
  dict_get common_inverter_bundle "energy_day"
    = Some (PDict [(KStr "value", PInt 1393); (KStr "unit", PStr "kWh")]) /\
  dict_get common_inverter_bundle "voltage_dc" = Some (value_only (PInt 0)) /\
  dict_get common_inverter_bundle "status_code"
    = dict_get sample_header "status_code".
Proof.
  destruct (device_inverter_readings sample_header common_inverter_data)
    as (out & Ho & Hr & Hf).
  assert (out = common_inverter_bundle) as E
      by (injection Ho as <-; reflexivity).
  rewrite <- E. split; [exact Ho |].
  destruct (Hr "DAY_ENERGY" "energy_day" None) as (_ & _ & Hv & _).
  { unfold device_inverter_table. simpl. tauto. }
  destruct (Hr "UDC" "voltage_dc" None) as (_ & _ & _ & Hz).
  { unfold device_inverter_table. simpl. tauto. }
  split; [exact (Hv _ (PInt 1393) (PStr "kWh") eq_refl eq_refl eq_refl) |].
  split; [exact (Hz eq_refl) |].
  apply Hf. reflexivity.
Defined.

Lemma system_power_flow_bundle (sensor d site invs inv : pydict) :
  dict_get d "Site" = Some (PDict site) ->
  dict_get d "Inverters" = Some (PDict invs) ->
  dict_get invs "1" = Some (PDict inv) ->
  _system_power_flow sensor (PDict d)
  = Ok (copy_all power_flow_site_table site
          (copy_all power_flow_inverter_table inv sensor)).
Proof.
  intros Hs Hi H1. unfold _system_power_flow.
  apply (bind_getitem_eq d "Site" _ _ _ Hs).
  assert (subscript (PDict d) [PStr "Inverters"; PStr "1"] = Ok (PDict inv))
    as ->.
  { apply (subscript_str_ok ["Inverters"; "1"]). simpl.
    rewrite Hi. simpl. rewrite H1. reflexivity. }
  cbn [bind].
  repeat (apply bind_copy_eq; cbv beta). reflexivity.
Qed.

(** X8. [_system_power_flow] looks up [Site] first and raises [KeyError]
    on a payload without it.  On a payload whose [Site] and whose entry
    ["1"] of [Inverters] are mappings it returns: [battery_mode] and
    [state_of_charge] hold the readings of the inverter entry, the twelve
    site fields hold the readings of [Site], each by the copy rule with its
    fixed unit, and no other key of the bundle is changed. *)
Theorem power_flow_readings :
  (forall sensor d : pydict,
      dict_get d "Site" = None ->
      _system_power_flow sensor (PDict d) = Raise KeyError) /\
  (forall sensor d site invs inv : pydict,
      dict_get d "Site" = Some (PDict site) ->
      dict_get d "Inverters" = Some (PDict invs) ->
      dict_get invs "1" = Some (PDict inv) ->
      exists out,
        _system_power_flow sensor (PDict d) = Ok out /\
        (forall sid tid unit,
            In (sid, tid, unit) power_flow_inverter_table ->
            dict_get out tid = Some (PDict (copy_rule_spec inv sid unit))) /\
        (forall sid tid unit,
            In (sid, tid, unit) power_flow_site_table ->
            dict_get out tid = Some (PDict (copy_rule_spec site sid unit))) /\
        (forall k, untouched k power_flow_fields = true ->
                   dict_get out k = dict_get sensor k)).
Proof.
  split.
  - intros sensor d H. unfold _system_power_flow.
    rewrite getitem_str, H. reflexivity.
  - intros sensor d site invs inv Hs Hi H1.
    eexists. split; [exact (system_power_flow_bundle _ _ _ _ _ Hs Hi H1) |].
    split; [| split].
    + intros sid tid unit Hin.
      rewrite copy_all_get_other.
      * apply copy_all_get; [reflexivity | exact Hin].
      * unfold power_flow_inverter_table in Hin. simpl in Hin.
        destruct Hin as [[= <- <- <-] | [[= <- <- <-] | []]]; reflexivity.
    + intros sid tid unit Hin.
      apply copy_all_get; [reflexivity | exact Hin].
    + intros k Hk.
      change power_flow_fields
        with (map row_tid power_flow_inverter_table
              ++ map row_tid power_flow_site_table) in Hk.
      unfold untouched in Hk. rewrite forallb_app in Hk.
      apply andb_true_iff in Hk. destruct Hk as [Hk1 Hk2].
      rewrite copy_all_get_other by exact Hk2.
      apply copy_all_get_other. exact Hk1.
Qed.

Lemma power_flow_readings_witness :
  _system_power_flow sample_header (PDict power_flow_battery)
    = Ok power_flow_battery_bundle /\
  dict_get power_flow_battery_bundle "state_of_charge"
    = Some (value_unit (PInt 55) "%") /\
  dict_get power_flow_battery_bundle "power_photovoltaics"
    = Some (value_unit (PInt 1500) "W") /\
  _system_power_flow sample_header
    (PDict [(KStr "Inverters", PDict [(KStr "1", PDict [])])])
    = Raise KeyError.
Proof.
  destruct (proj2 power_flow_readings sample_header power_flow_battery
              _ _ _ eq_refl eq_refl eq_refl) as (out & Ho & Hi & Hs & _).
  assert (out = power_flow_battery_bundle) as E
      by (injection Ho as <-; reflexivity).
  rewrite <- E. split; [exact Ho |]. split; [| split].
  - rewrite (Hi "SOC" "state_of_charge" (Some "%")).
    + reflexivity.
    + unfold power_flow_inverter_table. simpl. tauto.
  - rewrite (Hs "P_PV" "power_photovoltaics" (Some "W")).
    + reflexivity.
    + unfold power_flow_site_table. simpl. tauto.
  - apply (proj1 power_flow_readings). reflexivity.
Defined.

(* ================================================================== *)
(** * The six operations *)

(** X9. Each of the six operations performs exactly one request, to the
    URL of its endpoint (building the URL never fails, whatever the host
    and the device id are), also when the request or the normalisation
    fails; and an error of the request (transport, HTTP status, JSON
    parsing) is raised by the operation as it is. *)
Theorem one_request_per_call :
  forall (urlopen_json : string -> outcome pyval) (self : Fronius)
         (op : operation),
    requests (call urlopen_json self op) = [endpoint_url self op] /\
    (forall e : exn,
        urlopen_json (endpoint_url self op) = Raise e ->
        result (call urlopen_json self op) = Raise e).
Proof.
  intros urlopen_json self op. rewrite call_unfold. split.
  - apply current_data_requests.
  - intros e H. rewrite current_data_result, H. reflexivity.
Qed.

Lemma one_request_per_call_witness :
  requests (call (fun _ => Raise (OtherError "URLError")) sample_client (Device_storage 0))
  = [ "http://fronius.local/solar_api/v1/GetStorageRealtimeData.cgi?Scope=Device&DeviceId=0" ] /\
  result (call (fun _ => Raise (OtherError "URLError")) sample_client (Device_storage 0))
  = Raise (OtherError "URLError").
Proof.
  split.
  - exact (proj1 (one_request_per_call (fun _ => Raise (OtherError "URLError"))
                    sample_client (Device_storage 0))).
  - exact (proj2 (one_request_per_call (fun _ => Raise (OtherError "URLError"))
                    sample_client (Device_storage 0)) (OtherError "URLError") eq_refl).
Defined.

(** X10. When the response has a well-formed [Head] and a truthy [Body]:
    with a truthy [Body.Data] the operation's outcome is the outcome of its
    normaliser on the header bundle and that payload, errors included; with
    no [Data] in [Body] the operation raises, [KeyError] when [Body] is a
    mapping and [TypeError] otherwise. *)
Theorem call_normalises_payload :
  forall (urlopen_json : string -> outcome pyval) (self : Fronius)
         (op : operation) (json : pyval) (sensor : pydict) (body : pyval),
    urlopen_json (endpoint_url self op) = Ok json ->
    _status_data json = Ok sensor ->
    lookup_path json (keys_of ["Body"]) = Some body ->
    py_truthy body = true ->
    (forall data : pyval,
        lookup_path json (keys_of ["Body"; "Data"]) = Some data ->
        py_truthy data = true ->
        result (call urlopen_json self op) = normaliser op sensor data) /\
    (lookup_path json (keys_of ["Body"; "Data"]) = None ->
     result (call urlopen_json self op)
     = Raise match body with PDict _ => KeyError | _ => TypeError end).
Proof.
  intros urlopen_json self op json sensor body Hj Hs Hb Ht.
  rewrite call_unfold, current_data_result, Hj. cbn [bind].
  rewrite Hs. cbn [bind].
  destruct json as [| | | | | | j]; try discriminate Hb.
  simpl in Hb. destruct (dict_get j "Body") as [b |] eqn:Eb;
    [| discriminate Hb]. injection Hb as ->.
  rewrite getitem_str, Eb. cbn [bind]. rewrite Ht. cbn [negb].
  split.
  - intros data Hd Td.
    apply (subscript_str_ok ["Body"; "Data"]) in Hd.
    change (map PStr ["Body"; "Data"]) with [PStr "Body"; PStr "Data"] in Hd.
    rewrite Hd. cbn [bind]. rewrite Td. cbn [negb]. reflexivity.
  - intros Hn. simpl in Hn. rewrite Eb in Hn.
    cbn [subscript]. rewrite getitem_str, Eb. cbn [bind].
    rewrite getitem_str.
    destruct body as [| | | | | | d]; try reflexivity.
    destruct (dict_get d "Data"); [discriminate Hn | reflexivity].
Qed.

Lemma call_normalises_payload_witness :
  result (call (fun _ => Ok sample_inverter_response) sample_client
               (Device_inverter 1))
  = _device_inverter_data sample_header
      (PDict [ (KStr "PAC", PDict [ (KStr "Value", PInt 7);
                                    (KStr "Unit", PStr "W") ]) ]).
Proof.
  exact (proj1 (call_normalises_payload
                  (fun _ => Ok sample_inverter_response) sample_client
                  (Device_inverter 1) sample_inverter_response sample_header
                  _ eq_refl eq_refl eq_refl eq_refl)
               _ eq_refl eq_refl).
Defined.

(* ================================================================== *)
(** * The URLs of the endpoints *)

Lemma str_of_int_inj (a b : Z) : str_of_int a = str_of_int b -> a = b.
Proof.
  unfold str_of_int. intros H.
  assert (forall z : Z,
             NilZero.int_of_string (NilZero.string_of_int (Z.to_int z))
             = Some (Z.to_int z)) as R.
  { intros z. apply NilZero.isi; destruct z; simpl; try discriminate;
      intros [= E]; exact (Unsigned.to_uint_nonnil _ E). }
  apply DecimalZ.to_int_inj.
  pose proof (R a) as Ra. rewrite H, R in Ra. congruence.
Qed.

Lemma append_cancel_l (s a b : string) :
  (s ++ a)%string = (s ++ b)%string -> a = b.
Proof.
  induction s as [| c s IH]; simpl; intros H; [exact H |].
  injection H as H. exact (IH H).
Qed.

Lemma append_length (a b : string) :
  String.length (a ++ b) = (String.length a + String.length b)%nat.
Proof. induction a as [| c a IH]; simpl; [reflexivity | rewrite IH; reflexivity]. Qed.

Lemma append_cancel_r (s a b : string) :
  (a ++ s)%string = (b ++ s)%string -> a = b.
Proof.
  revert b. induction a as [| c a IH]; intros [| c' b] H.
  - reflexivity.
  - apply (f_equal String.length) in H. simpl in H.
    rewrite append_length in H. lia.
  - apply (f_equal String.length) in H. simpl in H.
    rewrite append_length in H. lia.
  - simpl in H. injection H as -> H. rewrite (IH b H). reflexivity.
Qed.

Lemma endpoint_url_inj (self : Fronius) (op op' : operation) :
  endpoint_url self op = endpoint_url self op' -> op = op'.
Proof.
  unfold endpoint_url. intros H.
  apply append_cancel_l in H. apply append_cancel_l in H.
  apply append_cancel_l in H.
  destruct op as [| | | d | d | d], op' as [| | | d' | d' | d'];
    try reflexivity;
    try (apply append_cancel_l in H; try apply append_cancel_r in H;
         apply str_of_int_inj in H; subst; reflexivity);
    simpl in H; discriminate H.
Qed.

(** X11. For one client, two different operations (a different endpoint,
    or the same device endpoint with a different device id) request
    different URLs: the device id is rendered in decimal, which loses
    nothing, and the paths and queries of the six templates differ. *)
Theorem endpoint_urls_distinct :
  forall (self : Fronius) (op op' : operation),
    op <> op' -> endpoint_url self op <> endpoint_url self op'.
Proof.
  intros self op op' Hne H. apply Hne. exact (endpoint_url_inj self op op' H).
Qed.

Lemma endpoint_urls_distinct_witness :
  endpoint_url sample_client (Device_meter 1)
  <> endpoint_url sample_client (Device_meter (-1)).
Proof.
  apply endpoint_urls_distinct. discriminate.
Defined.

(* ================================================================== *)
(** * The inverters of the system bundle *)

Lemma entry_of_init (sensor : pydict) (id : string) :
  entry_of (inverter_init sensor) id = None.
Proof.
  rewrite (entry_of_inverters _ [] id); [reflexivity |].
  unfold inverter_init. apply dict_get_set_same.
Qed.

(** After the [DAY_ENERGY] loop the bundle has the inverters of that series,
    each with the one reading [energy_day]. *)
Lemma day_loop_entries (d sensor s1 : pydict) (id : string) :
  inverter_payload d = true ->
  series_loop (PDict d) "DAY_ENERGY" "DAY_ENERGY" "energy_day" true
              (inverter_init sensor) = Ok s1 ->
  (entry_of s1 id = None <-> series_value d "DAY_ENERGY" id = None) /\
  (forall f : string,
      String.eqb "energy_day" f = false \/
      series_value d "DAY_ENERGY" id = None ->
      reading_of s1 id f = None).
Proof.
  intros Hs H.
  destruct (series_loop_facts d "DAY_ENERGY" "DAY_ENERGY" "energy_day" true
              _ _ Hs (or_introl eq_refl) eq_refl H) as (_ & _ & _ & D & _).
  specialize (D id).
  destruct (series_value d "DAY_ENERGY" id) as [v |].
  - destruct D as (u & entry & _ & E1 & ->). split.
    + rewrite E1. split; discriminate.
    + intros f [Hf | Hn]; [| discriminate Hn].
      rewrite reading_of_entry, E1. simpl.
      rewrite key_eqb_str, Hf. reflexivity.
  - rewrite entry_of_init in D. split.
    + rewrite D. tauto.
    + intros f _. rewrite reading_of_entry, D. reflexivity.
Qed.

(** A later loop makes no inverter and removes none, and leaves the
    readings of the other fields, and of the inverters it does not list,
    as they are. *)
Lemma later_loop_entries (d : pydict) (series us field : string)
      (s s' : pydict) (id : string) :
  inverter_payload d = true ->
  In series series_names ->
  key_eqb (KStr "inverters") (KStr field) = false ->
  series_loop (PDict d) series us field false s = Ok s' ->
  (entry_of s' id = None <-> entry_of s id = None) /\
  (forall f : string,
      String.eqb field f = false \/ series_value d series id = None ->
      reading_of s' id f = reading_of s id f).
Proof.
  intros Hs Hin Hk H.
  destruct (series_loop_facts d series us field false s s' Hs Hin Hk H)
    as (_ & _ & C & D & _).
  specialize (D id). split.
  - destruct (series_value d series id) as [v |].
    + destruct D as (u & entry & _ & E1 & E2). rewrite E1, E2.
      split; discriminate.
    + rewrite D. tauto.
  - intros f [Hf | Hn].
    + apply C; [reflexivity | exact Hf].
    + rewrite Hn in D. rewrite !reading_of_entry, D. reflexivity.
Qed.

(** X12. In a bundle that [_system_inverter_data] returns, the [inverters]
    mapping has exactly the inverter ids of [DAY_ENERGY.Values] (none when
    the series is absent), whatever the bundle held under [inverters]
    before; and an inverter has a reading for a field only if the field's
    series lists it: an inverter that [TOTAL_ENERGY], [YEAR_ENERGY] or
    [PAC] does not list gets no [energy_total], [energy_year] or [power_ac]
    reading, not a zero. *)
Theorem inverters_listed_by_day_energy :
  forall (sensor d out : pydict),
    inverter_payload d = true ->
    _system_inverter_data sensor (PDict d) = Ok out ->
    (forall id : string,
        entry_of out id = None <-> series_value d "DAY_ENERGY" id = None) /\
    (forall (series field unit0 id : string),
        In (series, field, unit0) inverter_series ->
        series_value d series id = None ->
        reading_of out id field = None).
Proof.
  intros sensor d out Hs H.
  apply system_inverter_data_ok_inv in H.
  destruct H as (s1 & s2 & s3 & H1 & H2 & H3 & H4).
  split.
  - intros id.
    destruct (day_loop_entries d sensor s1 id Hs H1) as [E1 _].
    destruct (later_loop_entries d "TOTAL_ENERGY" "TOTAL_ENERGY"
                "energy_total" s1 s2 id Hs
                (or_intror (or_introl eq_refl)) eq_refl H2) as [E2 _].
    destruct (later_loop_entries d "YEAR_ENERGY" "TOTAL_ENERGY"
                "energy_year" s2 s3 id Hs
                (or_intror (or_intror (or_introl eq_refl))) eq_refl H3)
      as [E3 _].
    destruct (later_loop_entries d "PAC" "TOTAL_ENERGY"
                "power_ac" s3 out id Hs
                (or_intror (or_intror (or_intror (or_introl eq_refl))))
                eq_refl H4) as [E4 _].
    tauto.
  - intros series field unit0 id Hin Hn.
    destruct (day_loop_entries d sensor s1 id Hs H1) as [_ R1].
    destruct (later_loop_entries d "TOTAL_ENERGY" "TOTAL_ENERGY"
                "energy_total" s1 s2 id Hs
                (or_intror (or_introl eq_refl)) eq_refl H2) as [_ R2].
    destruct (later_loop_entries d "YEAR_ENERGY" "TOTAL_ENERGY"
                "energy_year" s2 s3 id Hs
                (or_intror (or_intror (or_introl eq_refl))) eq_refl H3)
      as [_ R3].
    destruct (later_loop_entries d "PAC" "TOTAL_ENERGY"
                "power_ac" s3 out id Hs
                (or_intror (or_intror (or_intror (or_introl eq_refl))))
                eq_refl H4) as [_ R4].
    simpl in Hin.
    destruct Hin as [E | [E | [E | [E | []]]]]; injection E as <- <- <-.
    + rewrite R4, R3, R2 by (left; reflexivity). apply R1. right. exact Hn.
    + rewrite R4, R3 by (left; reflexivity).
      rewrite R2 by (right; exact Hn). apply R1. left. reflexivity.
    + rewrite R4 by (left; reflexivity).
      rewrite R3 by (right; exact Hn).
      rewrite R2 by (left; reflexivity). apply R1. left. reflexivity.
    + rewrite R4 by (right; exact Hn).
      rewrite R3, R2 by (left; reflexivity). apply R1. left. reflexivity.
Qed.

Lemma inverters_listed_by_day_energy_witness :
  _system_inverter_data stale_bundle (PDict partial_total_example)
    = Ok partial_total_bundle /\
  entry_of partial_total_bundle "9" = None /\
  reading_of partial_total_bundle "2" "energy_total" = None /\
  reading_of partial_total_bundle "2" "energy_day"
    = Some (value_unit (PInt 20) "Wh").
Proof.
  destruct (inverters_listed_by_day_energy stale_bundle partial_total_example
              partial_total_bundle eq_refl eq_refl) as [He Hr].
  split; [reflexivity |]. split; [| split].
  - apply He. reflexivity.
  - apply (Hr "TOTAL_ENERGY" "energy_total" "Wh" "2");
      [simpl; tauto | reflexivity].
  - reflexivity.
Defined.

(** X13. In a bundle that [_system_inverter_data] returns, the
    per-inverter [energy_day] readings carry the [Unit] of [DAY_ENERGY] and
    the per-inverter [energy_total] readings the [Unit] of [TOTAL_ENERGY]:
    these two fields take the unit of their own series, as the payload
    gives it. *)
Theorem day_and_total_units_own :
  forall (sensor d out : pydict),
    inverter_payload d = true ->
    _system_inverter_data sensor (PDict d) = Ok out ->
    forall series field : string,
      In (series, field)
         [("DAY_ENERGY", "energy_day"); ("TOTAL_ENERGY", "energy_total")] ->
      forall (id : string) (v : pyval),
        series_value d series id = Some v ->
        exists u,
          lookup_path (PDict d) (keys_of [series; "Unit"]) = Some u /\
          reading_of out id field = Some (value_unit v u).
Proof.
  intros sensor d out Hs H series field Hin id v Hv.
  simpl in Hin. destruct Hin as [E | [E | []]]; injection E as <- <-.
  - exact (proj1 (system_inverter_readings sensor d out Hs H
                    "DAY_ENERGY" "energy_day" "Wh"
                    (or_introl eq_refl)) id v Hv).
  - exact (proj1 (system_inverter_readings sensor d out Hs H
                    "TOTAL_ENERGY" "energy_total" "Wh"
                    (or_intror (or_introl eq_refl))) id v Hv).
Qed.

Lemma day_and_total_units_own_witness :
  reading_of partial_total_bundle "1" "energy_total"
    = Some (value_unit (PInt 5) "kWh") /\
  dict_get partial_total_bundle "energy_total"
    = Some (value_unit (PInt 5) "Wh").
Proof.
  destruct (day_and_total_units_own stale_bundle partial_total_example
              partial_total_bundle eq_refl eq_refl
              "TOTAL_ENERGY" "energy_total"
              (or_intror (or_introl eq_refl)) "1" (PInt 5) eq_refl)
    as (u & Hu & Hr).
  injection Hu as <-. split; [exact Hr | reflexivity].
Defined.

(** X14. When a series of a system-inverter payload lists an inverter and
    the series its unit is read from has no [Unit] ([DAY_ENERGY] for
    [DAY_ENERGY]; [TOTAL_ENERGY] for the other three, so in particular when
    [YEAR_ENERGY] or [PAC] has an inverter and [TOTAL_ENERGY] is absent),
    [_system_inverter_data] raises; on integer values the error is
    [KeyError]. *)
Theorem missing_unit_raises :
  forall (sensor d : pydict) (series field unit0 id : string) (v : pyval),
    inverter_payload d = true ->
    In (series, field, unit0) inverter_series ->
    series_value d series id = Some v ->
    lookup_path (PDict d) (keys_of [unit_series series; "Unit"]) = None ->
    (exists e, _system_inverter_data sensor (PDict d) = Raise e) /\
    (int_values d = true ->
     _system_inverter_data sensor (PDict d) = Raise KeyError).
Proof.
  intros sensor d series field unit0 id v Hs Hin Hv Hn.
  destruct (_system_inverter_data sensor (PDict d)) as [out | e] eqn:E.
  - destruct (proj1 (system_inverter_readings sensor d out Hs E
                       series field unit0 Hin) id v Hv) as (u & Hu & _).
    congruence.
  - split; [exists e; reflexivity |].
    intros Hi. rewrite (system_inverter_data_int sensor d e Hs Hi E).
    reflexivity.
Qed.

Lemma missing_unit_raises_witness :
  _system_inverter_data [] (PDict year_without_total_example)
  = Raise KeyError.
Proof.
  exact (proj2 (missing_unit_raises [] year_without_total_example
                  "YEAR_ENERGY" "energy_year" "Wh" "1" (PInt 90)
                  eq_refl
                  (or_intror (or_intror (or_introl eq_refl)))
                  eq_refl eq_refl)
               eq_refl).
Defined.

(* ================================================================== *)
(** * Operations that return *)

Lemma normaliser_total (op : operation) (sensor d : pydict) :
  payload_shape op d = true ->
  exists out, normaliser op sensor (PDict d) = Ok out.
Proof.
  destruct op as [| | | dev | dev | dev]; cbn [payload_shape normaliser];
    intros S.
  - destruct (dict_get d "Site") as [[| | | | | | site] |] eqn:Es;
      try discriminate S.
    simpl in S.
    destruct (dict_get d "Inverters") as [[| | | | | | invs] |] eqn:Ei;
      try discriminate S.
    destruct (dict_get invs "1") as [[| | | | | | inv] |] eqn:E1;
      try discriminate S.
    eexists. exact (system_power_flow_bundle sensor d site invs inv Es Ei E1).
  - apply system_meter_data_total. exact S.
  - apply system_inverter_data_total. exact S.
  - destruct (meter_data_total (PDict d) S) as [m Hm].
    unfold _device_meter_data. rewrite Hm. eexists. reflexivity.
  - apply device_storage_data_total. exact S.
  - eexists. apply device_inverter_data_bundle.
Qed.

(** X15. For each of the six operations: when the request gives a
    response with a well-formed [Head] whose [Body.Data] is a mapping of
    the shape the operation's normaliser reads (the entities are mappings;
    for the system inverters integer values, the units that are read, and
    no inverter that [DAY_ENERGY] has not), the operation returns a bundle,
    and the bundle differs from the header bundle at most in the fields of
    the operation. *)
Theorem operations_return :
  forall (urlopen_json : string -> outcome pyval) (self : Fronius)
         (op : operation) (json : pyval) (sensor d : pydict),
    urlopen_json (endpoint_url self op) = Ok json ->
    _status_data json = Ok sensor ->
    lookup_path json (keys_of ["Body"; "Data"]) = Some (PDict d) ->
    payload_shape op d = true ->
    exists out,
      result (call urlopen_json self op) = Ok out /\
      (forall k, untouched k (written op) = true ->
                 dict_get out k = dict_get sensor k).
Proof.
  intros urlopen_json self op json sensor d Hj Hs Hd S.
  rewrite call_unfold, current_data_result, Hj. cbn [bind].
  rewrite Hs. cbn [bind].
  pose proof Hd as Hsub.
  apply (subscript_str_ok ["Body"; "Data"]) in Hsub.
  change (map PStr ["Body"; "Data"]) with [PStr "Body"; PStr "Data"] in Hsub.
  destruct json as [| | | | | | j]; try discriminate Hd.
  simpl in Hd. destruct (dict_get j "Body") as [body |] eqn:Eb;
    [| discriminate Hd].
  rewrite getitem_str, Eb. cbn [bind].
  destruct body as [| | | | | | b]; try discriminate Hd.
  assert (py_truthy (PDict b) = true) as ->.
  { destruct b; [discriminate Hd | reflexivity]. }
  cbn [negb]. rewrite Hsub. cbn [bind].
  destruct d as [| kv d'].
  - exists sensor. split; [reflexivity | intros; reflexivity].
  - cbn [py_truthy negb].
    destruct (normaliser_total op sensor (kv :: d') S) as [out Ho].
    exists out. split; [exact Ho |].
    intros k Hk. exact (normaliser_frame op sensor _ out k Ho Hk).
Qed.

Lemma operations_return_witness :
  result (call (fun _ => Ok sample_inverter_response) sample_client
               (Device_inverter 1)) = Ok sample_inverter_bundle /\
  dict_get sample_inverter_bundle "timestamp"
    = dict_get sample_header "timestamp".
Proof.
  destruct (operations_return (fun _ => Ok sample_inverter_response)
              sample_client (Device_inverter 1) sample_inverter_response
              sample_header _ eq_refl eq_refl eq_refl eq_refl)
    as (out & Ho & Hf).
  assert (out = sample_inverter_bundle) as E
      by (injection Ho as <-; reflexivity).
  rewrite <- E. split; [exact Ho |]. apply Hf. reflexivity.
Defined.

(* ================================================================== *)
(** * The modules of the storage bundle *)

(** X16. In a bundle that [_device_storage_data] returns on a mapping,
    the key [modules] is made exactly when the payload has a [Modules]
    member: without one the bundle's [modules] is as before (absent, for an
    operation's bundle), with one it is a mapping, the empty one for an
    empty sequence of modules; and a payload with neither [Controller] nor
    [Modules] gives the bundle back unchanged. *)
Theorem storage_modules_key :
  forall (sensor d out : pydict),
    _device_storage_data sensor (PDict d) = Ok out ->
    (dict_get d "Modules" = None ->
     dict_get out "modules" = dict_get sensor "modules") /\
    (dict_get d "Modules" <> None ->
     exists modules, dict_get out "modules" = Some (PDict modules)) /\
    (dict_get d "Modules" = Some (PList []) ->
     dict_get out "modules" = Some (PDict [])) /\
    (dict_get d "Controller" = None -> dict_get d "Modules" = None ->
     out = sensor).
Proof.
  intros sensor d out H. unfold _device_storage_data in H.
  bind_inv H has_c Hhc. bind_inv H s1 H1. bind_inv H has_m Hhm.
  cbn [py_in] in Hhc, Hhm. injection Hhc as <-. injection Hhm as <-.
  rewrite dict_mem_get in H, H1.
  assert (dict_get s1 "modules" = dict_get sensor "modules") as E1.
  { destruct (dict_get d "Controller") as [c |];
      [| injection H1 as <-; reflexivity].
    bind_inv H1 c' Hcd. bind_inv H1 controller Hctl. injection H1 as <-.
    apply controller_data_copied in Hctl.
    rewrite dict_get_update by (eapply copied_fresh_unique; exact Hctl).
    rewrite (copied_fresh_none _ _ _ Hctl); reflexivity. }
  destruct (dict_get d "Modules") as [ms |] eqn:Em.
  - rewrite getitem_str, Em in H. cbn [bind] in H.
    bind_inv H items Hitems. bind_inv H final Hfinal. injection H as <-.
    split; [discriminate |]. split; [| split; [| discriminate]].
    + intros _.
      destruct (modules_loop items _ 0 final [] (dict_get_set_same _ _ _)
                  Hfinal) as (ms' & Hms & _).
      exists ms'. exact Hms.
    + intros [= ->]. cbn [py_iter] in Hitems. injection Hitems as <-.
      cbn [for_each] in Hfinal. injection Hfinal as <-.
      cbn [fst]. apply dict_get_set_same.
  - injection H as <-. split; [intros _; exact E1 |].
    split; [intros C; contradiction C; reflexivity |].
    split; [discriminate |].
    intros Hc _. rewrite Hc in H1. injection H1 as <-. reflexivity.
Qed.

Lemma storage_modules_key_witness :
  _device_storage_data sample_header (PDict controller_only)
    = Ok controller_only_bundle /\
  dict_get controller_only_bundle "modules" = None /\
  dict_get controller_only_bundle "state_of_charge"
    = Some (value_unit (PInt 85) "%").
Proof.
  destruct (storage_modules_key sample_header controller_only
              controller_only_bundle eq_refl) as (Hn & _).
  split; [reflexivity |]. split; [| reflexivity].
  rewrite (Hn eq_refl). reflexivity.
Defined.

(* ================================================================== *)
(** * Errors of the system meters *)

Lemma string_keys_found (d : pydict) (k : pykey) :
  string_keys d = true ->
  In k (map fst d) ->
  exists payload, dict_get d k = Some payload.
Proof.
  unfold string_keys. intros Hkeys Hk.
  apply in_map_iff in Hk. destruct Hk as ([k' v] & <- & Hin).
  rewrite forallb_forall in Hkeys. specialize (Hkeys _ Hin).
  simpl in Hkeys. simpl. destruct k' as [| | | | id]; try discriminate Hkeys.
  destruct (dict_get d (KStr id)) as [payload |] eqn:G;
    [exists payload; reflexivity |].
  assert (existsb (fun k0 => key_eqb k0 (KStr id)) (map fst d) = true) as E.
  { apply existsb_exists. exists (KStr id).
    split; [apply in_map_iff; exists (KStr id, v); auto
           | apply key_eqb_str_refl]. }
  rewrite (dict_get_no_key_inv d (KStr id) G) in E. discriminate E.
Qed.

(** The loop of [_system_meter_data] over keys of the payload raises
    nothing but the errors of [_meter_data]. *)
Lemma meters_loop_raise (d : pydict) (ks : list pykey) (e : exn) :
  (forall k, In k ks -> exists payload, dict_get d k = Some payload) ->
  forall (s ms : pydict),
    dict_get s "meters" = Some (PDict ms) ->
    for_each (map val_of_key ks) s (fun sensor i =>
      payload <- py_getitem (PDict d) i ;;
      meter <- _meter_data payload ;;
      store_in sensor "meters" [i] (PDict meter)) = Raise e ->
    e = TypeError.
Proof.
  induction ks as [| k0 rest IH]; intros Hks s ms Hms; cbn [map for_each].
  - discriminate.
  - destruct (Hks k0 (or_introl eq_refl)) as (payload & Hp).
    cbn [py_getitem]. rewrite key_of_val_of_key. cbn [bind].
    rewrite Hp. cbn [bind].
    destruct (_meter_data payload) as [meter | e'] eqn:Hm; cbn [bind].
    + rewrite (store_in_item _ "meters" ms) by exact Hms. cbn [bind].
      apply (IH (fun k Hk => Hks k (or_intror Hk)) _
                (dict_set ms k0 (PDict meter))).
      apply dict_get_set_same.
    + intros [= <-]. exact (meter_data_raise_type payload e' Hm).
Qed.

(** X17. On a payload that is a JSON object [_system_meter_data] raises
    nothing but [TypeError]; and one meter that is [null], a boolean or a
    number makes it raise [TypeError], whatever the other meters are: no
    bundle with the remaining meters is returned. *)
Theorem system_meter_errors :
  forall (sensor d : pydict),
    string_keys d = true ->
    (forall e, _system_meter_data sensor (PDict d) = Raise e ->
               e = TypeError) /\
    (forall (id : pykey) (x : pyval),
        dict_get d id = Some x ->
        is_scalar x = true ->
        _system_meter_data sensor (PDict d) = Raise TypeError).
Proof.
  intros sensor d Hkeys.
  assert (forall e, _system_meter_data sensor (PDict d) = Raise e ->
                    e = TypeError) as R.
  { intros e H. unfold _system_meter_data in H.
    cbn [py_iter bind] in H. rewrite <- map_map in H.
    apply (meters_loop_raise d (map fst d) e
             (fun k Hk => string_keys_found d k Hkeys Hk) _ []
             (dict_get_set_same _ "meters" _) H). }
  split; [exact R |].
  intros id x Hid Hx.
  destruct (_system_meter_data sensor (PDict d)) as [out | e] eqn:E.
  - exfalso. unfold _system_meter_data in E.
    cbn [py_iter bind] in E. rewrite <- map_map in E.
    destruct (meters_loop d (map fst d) _ out []
                (dict_get_set_same _ "meters" _) E) as (meters & _ & Hin & _).
    destruct (Hin id (dict_get_some_key _ _ _ Hid))
      as (payload & meter & Hp & Hmeter & _).
    rewrite Hid in Hp. injection Hp as <-.
    destruct x; try discriminate Hx; discriminate Hmeter.
  - rewrite (R e eq_refl). reflexivity.
Qed.

Lemma system_meter_errors_witness :
  _system_meter_data [] (PDict null_meter_example) = Raise TypeError.
Proof.
  exact (proj2 (system_meter_errors [] null_meter_example eq_refl)
               (KStr "1") PNone eq_refl eq_refl).
Defined.

(* ================================================================== *)
(** * The keys of the flat bundles *)

(** The keys after a chain of copies to distinct target ids that the
    target does not have: the old keys, then the target ids in order. *)
Lemma copied_keys (tids : list string) :
  forall t0 t : pydict,
    copied tids t0 t ->
    distinct_fields tids = true ->
    (forall tid, In tid tids -> dict_get t0 (KStr tid) = None) ->
    map fst t = map fst t0 ++ map KStr tids.
Proof.
  induction tids as [| tid rest IH]; intros t0 t H D F.
  - simpl in H. subst t. simpl. rewrite app_nil_r. reflexivity.
  - destruct H as [r H]. simpl in D. apply andb_true_iff in D.
    destruct D as [D1 D2].
    rewrite (IH _ _ H D2).
    + rewrite dict_set_fresh by (apply F; left; reflexivity).
      rewrite map_app. simpl. rewrite <- app_assoc. reflexivity.
    + intros tid' Hin. rewrite dict_get_set_other.
      * apply F. right. exact Hin.
      * rewrite key_eqb_sym. exact (untouched_in _ _ _ D1 Hin).
Qed.

(** The keys after [d.update(other)] when the keys of [other] are distinct
    fields that [d] does not have. *)
Lemma dict_update_keys (tids : list string) :
  forall other d : pydict,
    map fst other = map KStr tids ->
    distinct_fields tids = true ->
    (forall tid, In tid tids -> dict_get d (KStr tid) = None) ->
    map fst (dict_update d other) = map fst d ++ map KStr tids.
Proof.
  unfold dict_update.
  induction tids as [| tid rest IH]; intros other d K D F.
  - destruct other; [| discriminate K]. simpl. rewrite app_nil_r. reflexivity.
  - destruct other as [| [k v] other']; [discriminate K |].
    simpl in K. injection K as -> K.
    simpl in D. apply andb_true_iff in D. destruct D as [D1 D2].
    cbn [fold_left fst snd]. rewrite (IH _ _ K D2).
    + rewrite dict_set_fresh by (apply F; left; reflexivity).
      rewrite map_app. simpl. rewrite <- app_assoc. reflexivity.
    + intros tid' Hin. rewrite dict_get_set_other.
      * apply F. right. exact Hin.
      * rewrite key_eqb_sym. exact (untouched_in _ _ _ D1 Hin).
Qed.

Lemma header_bundle_keys (ts st code reason msg : pyval) :
  map fst (header_bundle ts st code reason msg) = map KStr header_keys.
Proof. reflexivity. Qed.

Lemma header_bundle_fresh (ts st code reason msg : pyval) (tids : list string)
      (tid : string) :
  forallb (fun k => untouched (KStr k) tids) header_keys = true ->
  In tid tids ->
  dict_get (header_bundle ts st code reason msg) (KStr tid) = None.
Proof.
  intros U Hin. apply dict_get_no_key. rewrite header_bundle_keys.
  apply not_true_is_false. intros E.
  apply existsb_exists in E. destruct E as (k & Hk & Heq).
  apply in_map_iff in Hk. destruct Hk as (h & <- & Hh).
  pose proof (untouched_in _ _ tid
                (proj1 (forallb_forall _ _) U h Hh) Hin) as Ne.
  rewrite key_eqb_sym in Ne. congruence.
Qed.

(** What a call that returned has done: the request gave a response, the
    header was extracted, and the payload, when there is one, was
    normalised. *)
Lemma call_ok_cases (urlopen_json : string -> outcome pyval) (self : Fronius)
      (op : operation) (json : pyval) (out : pydict) :
  urlopen_json (endpoint_url self op) = Ok json ->
  result (call urlopen_json self op) = Ok out ->
  exists ts st code reason msg,
    match payload_of json with
    | Some data =>
        normaliser op (header_bundle ts st code reason msg) data = Ok out
    | None => out = header_bundle ts st code reason msg
    end.
Proof.
  rewrite call_unfold, current_data_result. intros Hj H.
  rewrite Hj in H. cbn [bind] in H.
  bind_inv H sensor Hs. bind_inv H body Hbody. bind_inv H no_data Hno.
  apply status_data_ok_inv in Hs.
  destruct Hs as (ts & st & code & reason & msg & _ & _ & _ & _ & _ & ->).
  exists ts, st, code, reason, msg.
  rewrite getitem_str in Hbody.
  destruct json as [| | | | | | j]; try discriminate Hbody.
  unfold payload_of. cbn [keys_of map lookup_path].
  destruct (dict_get j "Body") as [b |] eqn:Eb; [| discriminate Hbody].
  injection Hbody as ->.
  destruct (py_truthy body) eqn:Tb; cbn [negb] in Hno.
  - bind_inv Hno data Hdata. injection Hno as <-.
    apply (subscript_str_ok ["Body"; "Data"]) in Hdata.
    cbn [keys_of map lookup_path] in Hdata. rewrite Eb in Hdata.
    destruct body as [| | | | | | bd]; try discriminate Hdata.
    destruct (dict_get bd "Data") as [x |] eqn:Ed; [| discriminate Hdata].
    injection Hdata as ->.
    destruct (py_truthy data) eqn:Td; cbn [negb] in H.
    + bind_inv H data' Hdata'.
      apply (subscript_str_ok ["Body"; "Data"]) in Hdata'.
      cbn [keys_of map lookup_path] in Hdata'. rewrite Eb, Ed in Hdata'.
      injection Hdata' as <-. exact H.
    + injection H as <-. reflexivity.
  - injection Hno as <-. injection H as <-. reflexivity.
Qed.

(** The target ids of a meter bundle, by the test the normaliser makes. *)
Lemma meter_data_copied_details (data : pyval) (meter : pydict) :
  _meter_data data = Ok meter ->
  copied (meter_fields ++ details_of data) [] meter.
Proof.
  unfold _meter_data, details_of. intros H. copies_inv H.
  bind_inv H has Hhas. rewrite Hhas. destruct has.
  - copies_inv H. injection H as <-. copied_done.
  - injection H as <-. copied_done.
Qed.

Lemma details_of_cases (data : pyval) :
  details_of data = detail_fields \/ details_of data = [].
Proof.
  unfold details_of. destruct (py_in "Details" data) as [[|] |]; auto.
Qed.

(** X18. The bundles of the three operations that store readings at the
    top level have exactly these keys, in this order: the five header
    fields alone when the response has no payload ([Body] or [Body.Data]
    is falsy), and otherwise the header fields followed by the fourteen
    power-flow fields ([current_power_flow]), by the nine inverter fields
    ([current_inverter_data]), or by the 35 meter fields and, when
    [Details] is found in the meter, the three detail fields
    ([current_meter_data]). *)
Theorem flat_bundle_keys :
  forall (urlopen_json : string -> outcome pyval) (self : Fronius)
         (json : pyval) (out : pydict),
    (urlopen_json (endpoint_url self Power_flow) = Ok json ->
     result (call urlopen_json self Power_flow) = Ok out ->
     map fst out
     = map KStr (header_keys ++ match payload_of json with
                                | Some _ => power_flow_fields
                                | None => []
                                end)) /\
    (forall device : Z,
        urlopen_json (endpoint_url self (Device_inverter device)) = Ok json ->
        result (call urlopen_json self (Device_inverter device)) = Ok out ->
        map fst out
        = map KStr (header_keys ++ match payload_of json with
                                   | Some _ => device_inverter_fields
                                   | None => []
                                   end)) /\
    (forall device : Z,
        urlopen_json (endpoint_url self (Device_meter device)) = Ok json ->
        result (call urlopen_json self (Device_meter device)) = Ok out ->
        map fst out
        = map KStr (header_keys ++ match payload_of json with
                                   | Some data =>
                                       meter_fields ++ details_of data
                                   | None => []
                                   end)).
Proof.
  intros urlopen_json self json out. split; [| split].
  - intros Hj H.
    destruct (call_ok_cases _ _ _ _ _ Hj H)
      as (ts & st & code & reason & msg & Hc).
    destruct (payload_of json) as [data |]; [| subst out; reflexivity].
    cbn [normaliser] in Hc. apply system_power_flow_copied in Hc.
    rewrite (copied_keys _ _ _ Hc); [rewrite map_app; reflexivity
                                    | reflexivity |].
    intros tid. apply header_bundle_fresh. reflexivity.
  - intros device Hj H.
    destruct (call_ok_cases _ _ _ _ _ Hj H)
      as (ts & st & code & reason & msg & Hc).
    destruct (payload_of json) as [data |]; [| subst out; reflexivity].
    cbn [normaliser] in Hc. apply device_inverter_data_copied in Hc.
    rewrite (copied_keys _ _ _ Hc); [rewrite map_app; reflexivity
                                    | reflexivity |].
    intros tid. apply header_bundle_fresh. reflexivity.
  - intros device Hj H.
    destruct (call_ok_cases _ _ _ _ _ Hj H)
      as (ts & st & code & reason & msg & Hc).
    destruct (payload_of json) as [data |]; [| subst out; reflexivity].
    cbn [normaliser] in Hc. unfold _device_meter_data in Hc.
    bind_inv Hc meter Hm. injection Hc as <-.
    apply meter_data_copied_details in Hm.
    destruct (details_of_cases data) as [E | E]; rewrite E in *.
    + pose proof (copied_keys _ _ _ Hm eq_refl (fun _ _ => eq_refl)) as K.
      simpl app in K.
      rewrite (dict_update_keys (meter_fields ++ detail_fields) _ _ K
                 eq_refl);
        [rewrite map_app; reflexivity |].
      intros tid. apply header_bundle_fresh. reflexivity.
    + rewrite app_nil_r in *.
      pose proof (copied_keys _ _ _ Hm eq_refl (fun _ _ => eq_refl)) as K.
      simpl app in K.
      rewrite (dict_update_keys meter_fields _ _ K eq_refl);
        [rewrite map_app; reflexivity |].
      intros tid. apply header_bundle_fresh. reflexivity.
Qed.

Lemma flat_bundle_keys_witness :
  map fst sample_inverter_bundle
    = map KStr (header_keys ++ device_inverter_fields) /\
  map fst sample_meter_bundle
    = map KStr (header_keys ++ meter_fields ++ detail_fields) /\
  map fst empty_data_bundle = map KStr header_keys.
Proof.
  split; [| split].
  - exact (proj1 (proj2 (flat_bundle_keys
                           (fun _ => Ok sample_inverter_response)
                           sample_client sample_inverter_response
                           sample_inverter_bundle))
                 1 eq_refl eq_refl).
  - exact (proj2 (proj2 (flat_bundle_keys
                           (fun _ => Ok sample_meter_response)
                           sample_client sample_meter_response
                           sample_meter_bundle))
                 0 eq_refl eq_refl).
  - exact (proj1 (flat_bundle_keys
                    (fun _ => Ok empty_data_response)
                    sample_client empty_data_response empty_data_bundle)
                 eq_refl eq_refl).
Defined.

(* ================================================================== *)
(** * The controller and the modules in the storage bundle *)

Lemma bind_copy_ok_inv {A : Type} (d target : pydict) (sid tid : string)
      (unit : option string) (k : pydict -> outcome A) (x : A) (Q : Prop) :
  (k (dict_set target tid (PDict (copy_rule_spec d sid unit))) = Ok x -> Q) ->
  bind (_copy (PDict d) target sid tid unit) k = Ok x -> Q.
Proof.
  intros HQ H. rewrite copy_on_mapping in H. cbn [bind] in H. exact (HQ H).
Qed.

(** The copies from [Details], at the end of an entity normaliser, change
    the detail fields only, whatever [Details] is. *)
Lemma details_frame (data : pyval) (b out : pydict) (k : pykey) :
  (has_details <- py_in "Details" data ;;
   if has_details then
     d <- py_getitem data "Details" ;;
     m <- _copy d b "Manufacturer" "manufacturer" None ;;
     d <- py_getitem data "Details" ;;
     m <- _copy d m "Model" "model" None ;;
     d <- py_getitem data "Details" ;;
     m <- _copy d m "Serial" "serial" None ;;
     Ok m
   else Ok b) = Ok out ->
  untouched k detail_fields = true ->
  dict_get out k = dict_get b k.
Proof.
  intros H Hk. bind_inv H has Hhas. destruct has.
  - copies_inv H. injection H as <-.
    apply (copied_get_other detail_fields); [copied_done | exact Hk].
  - injection H as <-. reflexivity.
Qed.

(** The detail fields, when [Details] is a mapping. *)
Lemma details_rows (c details b out : pydict) (sid tid : string)
      (unit : option string) :
  dict_get c "Details" = Some (PDict details) ->
  (has_details <- py_in "Details" (PDict c) ;;
   if has_details then
     d <- py_getitem (PDict c) "Details" ;;
     m <- _copy d b "Manufacturer" "manufacturer" None ;;
     d <- py_getitem (PDict c) "Details" ;;
     m <- _copy d m "Model" "model" None ;;
     d <- py_getitem (PDict c) "Details" ;;
     m <- _copy d m "Serial" "serial" None ;;
     Ok m
   else Ok b) = Ok out ->
  In (sid, tid, unit) detail_table ->
  dict_get out tid = Some (PDict (copy_rule_spec details sid unit)).
Proof.
  intros Hd H Hin. cbn [py_in bind] in H.
  rewrite dict_mem_get, Hd in H. cbn iota in H.
  rewrite !getitem_str, Hd in H. cbn [bind] in H.
  rewrite !copy_on_mapping in H. cbn [bind] in H.
  rewrite !copy_on_mapping in H. cbn [bind] in H.
  rewrite !copy_on_mapping in H. cbn [bind] in H.
  injection H as <-.
  exact (copy_all_get detail_table details b sid tid unit eq_refl Hin).
Qed.

Lemma table_untouched (table : copy_table) (sid tid : string)
      (unit : option string) :
  forallb (fun t => untouched (KStr t) (map row_tid table)) detail_fields
    = true ->
  In (sid, tid, unit) table ->
  untouched (KStr tid) detail_fields = true.
Proof.
  intros U Hin. apply untouched_intro. intros t Ht.
  pose proof (untouched_in _ _ tid
                (proj1 (forallb_forall _ _) U t Ht)
                (in_map row_tid _ _ Hin)) as Ne.
  rewrite key_eqb_sym. exact Ne.
Qed.

(** The readings of a controller and of a module that were normalised,
    whatever their [Details] are. *)
Lemma controller_data_rows (c controller : pydict) :
  _controller_data (PDict c) = Ok controller ->
  (forall sid tid unit,
      In (sid, tid, unit) controller_table ->
      dict_get controller tid = Some (PDict (copy_rule_spec c sid unit))) /\
  (forall details sid tid unit,
      dict_get c "Details" = Some (PDict details) ->
      In (sid, tid, unit) detail_table ->
      dict_get controller tid
      = Some (PDict (copy_rule_spec details sid unit))).
Proof.
  unfold _controller_data. cbn zeta.
  repeat (apply bind_copy_ok_inv; cbv beta).
  intros H. split.
  - intros sid tid unit Hin.
    rewrite (details_frame _ _ _ _ H
               (table_untouched controller_table sid tid unit eq_refl Hin)).
    exact (copy_all_get controller_table c [] sid tid unit eq_refl Hin).
  - intros details sid tid unit Hd Hin.
    exact (details_rows c details _ _ sid tid unit Hd H Hin).
Qed.

Lemma module_data_rows (m module : pydict) :
  _module_data (PDict m) = Ok module ->
  (forall sid tid unit,
      In (sid, tid, unit) module_table ->
      dict_get module tid = Some (PDict (copy_rule_spec m sid unit))) /\
  (forall details sid tid unit,
      dict_get m "Details" = Some (PDict details) ->
      In (sid, tid, unit) detail_table ->
      dict_get module tid
      = Some (PDict (copy_rule_spec details sid unit))).
Proof.
  unfold _module_data. cbn zeta.
  repeat (apply bind_copy_ok_inv; cbv beta).
  intros H. split.
  - intros sid tid unit Hin.
    rewrite (details_frame _ _ _ _ H
               (table_untouched module_table sid tid unit eq_refl Hin)).
    exact (copy_all_get module_table m [] sid tid unit eq_refl Hin).
  - intros details sid tid unit Hd Hin.
    exact (details_rows m details _ _ sid tid unit Hd H Hin).
Qed.

(** C9. For every device storage payload the normaliser returns for (and
    it returns whenever the controller and the modules are mappings, with a
    mapping for [Details], if any):
    the fields of the normalised [Controller], when the payload has one,
    are keys of the returned bundle with the same readings, so that each of
    the nine controller fields of the bundle holds the reading of its
    source field of the controller, with its fixed unit, and the detail
    fields those of the controller's [Details]; and when the payload has a
    [Modules] sequence, the bundle's [modules] mapping holds, under each
    zero-based position, the normalised module at that position of the
    sequence, with the readings of the module's thirteen fields and of its
    [Details], and has no other key.  For [Modules] with [Enable] 1
    and 0 this gives [modules[0].enable.value = 1] and
    [modules[1].enable.value = 0]; for a [Controller] with
    [StateOfCharge_Relative] 85 it gives [state_of_charge] with value 85
    and unit [%], and [capacity_maximum] with value 0 and unit [Ah]. *)
Theorem storage_controller_and_modules :
  (forall (sensor d out : pydict),
      _device_storage_data sensor (PDict d) = Ok out ->
      (forall c : pyval,
          dict_get d "Controller" = Some c ->
          exists controller,
            _controller_data c = Ok controller /\
            (forall k v, dict_get controller k = Some v ->
                         dict_get out k = Some v)) /\
      (forall l : list pyval,
          dict_get d "Modules" = Some (PList l) ->
          exists modules,
            dict_get out "modules" = Some (PDict modules) /\
            (forall (j : nat) (module : pyval),
                nth_error l j = Some module ->
                exists r, _module_data module = Ok r /\
                          dict_get modules (KInt (Z.of_nat j))
                            = Some (PDict r)) /\
            (forall k : pykey,
                dict_mem modules k = true ->
                exists j : nat, (j < List.length l)%nat /\
                                key_eqb (KInt (Z.of_nat j)) k = true)) /\
      (forall c : pydict,
          dict_get d "Controller" = Some (PDict c) ->
          (forall sid tid unit,
              In (sid, tid, unit) controller_table ->
              dict_get out tid
              = Some (PDict (copy_rule_spec c sid unit))) /\
          (forall details sid tid unit,
              dict_get c "Details" = Some (PDict details) ->
              In (sid, tid, unit) detail_table ->
              dict_get out tid
              = Some (PDict (copy_rule_spec details sid unit)))) /\
      (forall (l : list pyval) (j : nat) (m : pydict),
          dict_get d "Modules" = Some (PList l) ->
          nth_error l j = Some (PDict m) ->
          (forall sid tid unit,
              In (sid, tid, unit) module_table ->
              lookup_path (PDict out)
                [KStr "modules"; KInt (Z.of_nat j); KStr tid]
              = Some (PDict (copy_rule_spec m sid unit))) /\
          (forall details sid tid unit,
              dict_get m "Details" = Some (PDict details) ->
              In (sid, tid, unit) detail_table ->
              lookup_path (PDict out)
                [KStr "modules"; KInt (Z.of_nat j); KStr tid]
              = Some (PDict (copy_rule_spec details sid unit))))) /\
  (forall (sensor d : pydict),
      storage_shape d = true ->
      exists out, _device_storage_data sensor (PDict d) = Ok out) /\
  (exists out,
      _device_storage_data [] two_modules = Ok out /\
      lookup_path (PDict out)
        [KStr "modules"; KInt 0; KStr "enable"; KStr "value"]
        = Some (PInt 1) /\
      lookup_path (PDict out)
        [KStr "modules"; KInt 1; KStr "enable"; KStr "value"]
        = Some (PInt 0)) /\
  (exists out,
      _device_storage_data []
        (PDict [(KStr "Controller",
                 PDict [(KStr "StateOfCharge_Relative", PInt 85)])])
        = Ok out /\
      dict_get out "state_of_charge" = Some (value_unit (PInt 85) "%") /\
      dict_get out "capacity_maximum" = Some (value_unit (PInt 0) "Ah") /\
      map fst out = map KStr controller_fields).
Proof.
  split; [| split; [| split]].
  2: { intros sensor d Hshape. apply device_storage_data_total. exact Hshape. }
  2: { eexists. split; [reflexivity | split; reflexivity]. }
  2: { eexists. split; [reflexivity |]. repeat split; reflexivity. }
  intros sensor d out H.
  destruct (device_storage_data_parts sensor d out H) as [HA HB].
  split; [exact HA |]. split; [exact HB |]. split.
  - intros c Hc. destruct (HA _ Hc) as (controller & Hctl & Hk).
    destruct (controller_data_rows c controller Hctl) as [R1 R2]. split.
    + intros sid tid unit Hin. apply Hk. exact (R1 sid tid unit Hin).
    + intros details sid tid unit Hd Hin. apply Hk.
      exact (R2 details sid tid unit Hd Hin).
  - intros l j m Hl Hj.
    destruct (HB l Hl) as (modules & Hm & Hmods & _).
    destruct (Hmods j _ Hj) as (r & Hr & Hget).
    destruct (module_data_rows m r Hr) as [R1 R2]. split.
    + intros sid tid unit Hin. cbn [lookup_path].
      rewrite Hm, Hget, (R1 sid tid unit Hin). reflexivity.
    + intros details sid tid unit Hd Hin. cbn [lookup_path].
      rewrite Hm, Hget, (R2 details sid tid unit Hd Hin). reflexivity.
Qed.

Lemma storage_controller_and_modules_witness :
  _device_storage_data sample_header (PDict controller_and_modules)
    = Ok controller_and_modules_bundle /\
  dict_get controller_and_modules_bundle "state_of_charge"
    = Some (value_unit (PInt 85) "%") /\
  dict_get controller_and_modules_bundle "model"
    = Some (value_only (PStr "Solar Battery")) /\
  lookup_path (PDict controller_and_modules_bundle)
    [KStr "modules"; KInt 1; KStr "enable"]
    = Some (value_only (PInt 0)).
Proof.
  destruct (proj1 storage_controller_and_modules sample_header
              controller_and_modules controller_and_modules_bundle eq_refl)
    as (_ & _ & HC & HM).
  destruct (HC _ eq_refl) as [C1 C2].
  destruct (HM _ 1%nat _ eq_refl eq_refl) as [M1 _].
  split; [reflexivity |]. split; [| split].
  - rewrite (C1 "StateOfCharge_Relative" "state_of_charge" (Some "%")).
    + reflexivity.
    + unfold controller_table. simpl. tauto.
  - rewrite (C2 _ "Model" "model" None eq_refl).
    + reflexivity.
    + unfold detail_table. simpl. tauto.
  - change (Z.of_nat 1) with 1 in M1.
    rewrite (M1 "Enable" "enable" None).
    + reflexivity.
    + unfold module_table. simpl. tauto.
Defined.
